(** * Google Photos deletion script: a shallow embedding and its properties

    The repository holds two variants of one browser-console script:
    - [src/delete-photos.js]: the plain batch loop, which adds the size of
      every selected batch to the total;
    - [src/unnamed/part_002]: the same script with stall detection, which
      re-polls after the deletion and credits only the observed decrease.

    Both share [waitUntil] and [executeDeletion] word for word.  The page
    the script drives is not part of the repository; it is an interface
    ([Browser]) here, and a small simulated page ([Sim]) gives it a
    concrete instance to run the script on. *)

From Stdlib Require Import ZArith List String Ascii Bool Lia DecimalString.
Import ListNotations.
Open Scope string_scope.
Open Scope list_scope.
Open Scope Z_scope.

(** ** Strings *)

(** [s.includes(pat)] of JavaScript: [pat] occurs in [s]. *)
Fixpoint includes (s pat : string) : bool :=
  if String.prefix pat s then true
  else match s with
       | EmptyString => false
       | String _ s' => includes s' pat
       end.

(** The character [c] occurs nowhere in [s]. *)
Fixpoint lacks (c : ascii) (s : string) : bool :=
  match s with
  | EmptyString => true
  | String a s' => negb (Ascii.eqb a c) && lacks c s'
  end.

(** The text of a non-negative integer, as a template literal prints it. *)
Definition show_N (n : N) : string := NilZero.string_of_uint (N.to_uint n).

(** The three digits of a fractional part in thousandths, trailing zeros
    dropped: 500 is [5], 250 is [25], 1 is [001]. *)
Definition show_thousandths (r : N) : string :=
  let d1 := show_N (r / 100) in
  let d2 := show_N ((r / 10) mod 10) in
  let d3 := show_N (r mod 10) in
  if (r mod 10 =? 0)%N then
    if ((r / 10) mod 10 =? 0)%N then d1 else (d1 ++ d2)%string
  else (d1 ++ d2 ++ d3)%string.

(** [`${timeout / 1000}`]: the quotient of a millisecond count by 1000 printed
    as JavaScript prints a number.  The quotient has at most three decimals,
    and for the magnitudes a timeout takes (below 2^53 ms) its shortest
    round-trip text is exactly that decimal expansion. *)
Definition show_seconds (ms : Z) : string :=
  let a := Z.abs_N ms in
  let whole := show_N (a / 1000) in
  let frac := (a mod 1000)%N in
  let body := if (frac =? 0)%N then whole
              else (whole ++ "." ++ show_thousandths frac)%string in
  if ms <? 0 then ("-" ++ body)%string else body.

(** ** Configuration

    The literal [CONFIG] object.  The plain variant has no [stallLimit]
    and never reads the field. *)

Record Selectors := {
  checkbox : string;
  photoContainer : string;
  deleteButton : string;
  confirmationButtonText : string
}.

Record Config := {
  actionDelay : Z;
  timeout : Z;
  stallLimit : Z;
  selectors : Selectors
}.

Definition CONFIG : Config := {|
  actionDelay := 1000;
  timeout := 30000;
  stallLimit := 5;
  selectors := {|
    checkbox := ".ckGgle[aria-checked=false]";
    photoContainer := "div[jsname='fPosBb']";
    deleteButton := ("button[aria-label=" ++ String (ascii_of_nat 34) "Move to trash"
                     ++ String (ascii_of_nat 34) "]")%string;
    confirmationButtonText := "Move to trash"
  |}
|}.

(** [setInterval(..., 250)]: the poll period in milliseconds. *)
Definition pollInterval : Z := 250.

(** The literal third argument of the verification re-poll. *)
Definition verifyTimeout : Z := 5000.

(** [sleep(500)] after the selection. *)
Definition selectionDelay : Z := 500.

(** ** The page as an interface

    What the script uses of the browser: the two query functions of
    [document], the text of an element, [click], and the page's own
    activity while the script is suspended in an [await]. *)

Class Browser := {
  World : Type;
  Elem : Type;
  (** the page runs on its own for [ms] milliseconds *)
  elapse : Z -> World -> World;
  (** [document.querySelector(sel)], [None] for [null] *)
  querySelector : string -> World -> option Elem;
  (** [document.querySelectorAll(sel)] *)
  querySelectorAll : string -> World -> list Elem;
  (** [b.textContent] *)
  textContent : Elem -> World -> string;
  (** [e.click()]: the page afterwards, and, when the call throws, the
      message of the [Error] it throws *)
  click : Elem -> World -> World * option string
}.

(** ** Values a probe returns *)

Inductive JsVal `{Browser} :=
| JNull
| JUndefined
| JBool (b : bool)
| JNum (n : Z)
| JStr (s : string)
| JElem (e : Elem)
| JList (l : list Elem)
| JObject.

(** Truthiness of JavaScript. *)
Definition truthy `{Browser} (v : JsVal) : bool :=
  match v with
  | JNull | JUndefined => false
  | JBool b => b
  | JNum n => negb (n =? 0)
  | JStr s => negb (String.eqb s EmptyString)
  | JElem _ | JList _ | JObject => true
  end.

(** [result.length > 0]: strings and node lists have a length, on anything
    else the property is [undefined] and the comparison is false. *)
Definition has_positive_length `{Browser} (v : JsVal) : bool :=
  match v with
  | JStr s => negb (String.eqb s EmptyString)
  | JList l => negb (Nat.eqb (List.length l) 0)
  | _ => false
  end.

(** [result.nodeType] as a condition: a number from 1 up on a DOM node,
    [undefined] elsewhere. *)
Definition has_nodeType `{Browser} (v : JsVal) : bool :=
  match v with
  | JElem _ => true
  | _ => false
  end.

(** The test of the poll callback:
    [result && (result.length > 0 || result.nodeType)]. *)
Definition ready `{Browser} (v : JsVal) : bool :=
  truthy v && (has_positive_length v || has_nodeType v).

(** ** Console output and the script's observable actions *)

Inductive Console :=
| LogInitialized                    (* "--- Google Photos Deletion Script Initialized ---" *)
| WarnSafety                        (* "SAFETY WARNING: Do NOT close this tab ..." *)
| LogFound (n : Z)                  (* `Found ${n} visible photos. Selecting all...` *)
| WarnCouldNotClick                 (* "Could not click a checkbox, ..." *)
| LogInitiating                     (* "Initiating deletion..." *)
| LogClickedMain                    (* "Clicked main delete button." *)
| LogClickedConfirm                 (* "Clicked confirmation. Waiting for UI to update..." *)
| WarnStall (attempt limit : Z)     (* `[WARNING] ... Stall attempt ${attempt}/${limit}.` *)
| LogBatchDeleted (n total : Z)     (* `Successfully deleted a batch of ${n}. Total deleted so far: ${total}` *)
| LogMissionAccomplished            (* "Could not find any more photos after waiting. Mission accomplished!" *)
| ErrHalted (msg : string)          (* `[SCRIPT HALTED] ${error.message}` *)
| LogRefreshHint                    (* "To continue, manually refresh the page (F5) ..." *)
| LogFinished (total : Z).          (* `Script finished. A total of approximately ${total} photos were deleted.` *)

Inductive Event `{Browser} :=
| Printed (c : Console)
| Clicked (e : Elem).

(** [new Error(message)], and what a throwing DOM call raises: an [Error]
    object, which the handlers know by its [message].  Every value thrown
    in this model is such an object.  JavaScript lets a call throw any
    value; one without a string [message] is not represented here, and on
    such a value the test [error.message.includes(...)] in the [catch] of
    [src/unnamed/part_002] would itself raise.  What is proved of the
    handlers is proved for thrown [Error]s. *)
Record Error := { message : string }.

(** The double quote inside the two button descriptions. *)
Definition dquote : string :=
  String (Ascii false true false false false true false false) EmptyString.

(** ** The script's state and its monad

    One thread of control: a clock for [Date.now()], the page, what has been
    printed and clicked so far, and the two counters of [runPhotoDeleter]
    (the plain variant leaves [stallCounter] alone).  A computation ends
    with a value, with a thrown error, or runs out of the fuel that bounds
    the loops of the model; each ending carries the state reached. *)

Section Monad.
Context `{B : Browser}.

Record State := {
  clock : Z;
  dom : World;
  out : list Event;
  totalDeleted : Z;
  stallCounter : Z
}.

Inductive Res (A : Type) :=
| Ok (a : A) (s : State)
| Throw (e : Error) (s : State)
| OutOfFuel (s : State).

Definition M (A : Type) := State -> Res A.

Definition ret {A} (a : A) : M A := fun s => Ok A a s.

Definition bind {A C} (m : M A) (k : A -> M C) : M C :=
  fun s => match m s with
           | Ok _ a s' => k a s'
           | Throw _ e s' => Throw C e s'
           | OutOfFuel _ s' => OutOfFuel C s'
           end.

Definition throw {A} (e : Error) : M A := fun s => Throw A e s.

(** [try { body } catch (error) { handler }] *)
Definition try_catch {A} (body : M A) (handler : Error -> M A) : M A :=
  fun s => match body s with
           | Throw _ e s' => handler e s'
           | r => r
           end.

(** [await sleep(ms)], and every other suspension of [ms] milliseconds:
    the clock moves on and the page does what it does meanwhile. *)
Definition pause (ms : Z) : M unit :=
  fun s => Ok unit tt {| clock := clock s + ms; dom := elapse ms (dom s);
                         out := out s; totalDeleted := totalDeleted s;
                         stallCounter := stallCounter s |}.

(** [console.log], [console.warn], [console.error] *)
Definition console (c : Console) : M unit :=
  fun s => Ok unit tt {| clock := clock s; dom := dom s;
                         out := out s ++ [Printed c];
                         totalDeleted := totalDeleted s;
                         stallCounter := stallCounter s |}.

(** [e.click()] *)
Definition doClick (e : Elem) : M unit :=
  fun s =>
    let (w, exn) := click e (dom s) in
    let s' := {| clock := clock s; dom := w; out := out s ++ [Clicked e];
                 totalDeleted := totalDeleted s;
                 stallCounter := stallCounter s |} in
    match exn with
    | Some msg => Throw unit {| message := msg |} s'
    | None => Ok unit tt s'
    end.

Definition getTotal : M Z := fun s => Ok Z (totalDeleted s) s.
Definition getStall : M Z := fun s => Ok Z (stallCounter s) s.

Definition setTotal (n : Z) : M unit :=
  fun s => Ok unit tt {| clock := clock s; dom := dom s; out := out s;
                         totalDeleted := n; stallCounter := stallCounter s |}.

Definition setStall (n : Z) : M unit :=
  fun s => Ok unit tt {| clock := clock s; dom := dom s; out := out s;
                         totalDeleted := totalDeleted s; stallCounter := n |}.

End Monad.

Arguments Ok {B A} a s.
Arguments Throw {B A} e s.
Arguments OutOfFuel {B A} s.

Notation "x <- m ;; k" := (bind m (fun x => k))
  (at level 61, m at next level, right associativity).
Notation "m ;; k" := (bind m (fun _ => k))
  (at level 61, right associativity).

(** ** The polling primitive and the deletion sequence (both variants) *)

Section Shared.
Context `{B : Browser}.
Variable cfg : Config.

(** `Timeout: Could not find ${description} after ${timeout / 1000} seconds.` *)
Definition timeoutMessage (description : string) (timeout : Z) : string :=
  ("Timeout: Could not find " ++ description ++ " after "
     ++ show_seconds timeout ++ " seconds.")%string.

(** The callback of [setInterval], one firing per unit of fuel.  Each firing
    comes [pollInterval] after the previous one; it first compares the time
    elapsed since [startTime] with [timeout] and rejects, and only otherwise
    calls [condition] and resolves when the result passes [ready].

    The timer is ideal: a firing is never late.  A browser fires no sooner
    than asked and as a rule a little later, so the firing due exactly
    [timeout] after the call, which probes here, may there read an elapsed
    time over [timeout] and reject.  Which firing rejects can thus differ
    by one; statements that fix how long a page may take are given with a
    margin of one poll interval, so that they do not rest on that firing. *)
Fixpoint poll (fuel : nat) (condition : World -> JsVal) (description : string)
    (timeout startTime : Z) : M JsVal :=
  match fuel with
  | O => fun s => OutOfFuel s
  | S fuel' =>
      pause pollInterval ;;
      fun s =>
        if clock s - startTime >? timeout then
          Throw {| message := timeoutMessage description timeout |} s
        else
          let result := condition (dom s) in
          if ready result then Ok result s
          else poll fuel' condition description timeout startTime s
  end.

(** The callback fires at most once per full interval of the timeout and
    once more. *)
Definition firings (timeout : Z) : nat := S (Z.to_nat (timeout / pollInterval)).

(** [waitUntil(condition, description, timeout)] *)
Definition waitUntil (condition : World -> JsVal) (description : string)
    (timeout : Z) : M JsVal :=
  fun s => poll (firings timeout) condition description timeout (clock s) s.

(** The probes of the script. *)

(** [() => document.querySelector(CONFIG.selectors.deleteButton)] *)
Definition deleteProbe (w : World) : JsVal :=
  match querySelector (deleteButton (selectors cfg)) w with
  | Some e => JElem e
  | None => JNull
  end.

(** [() => Array.from(document.querySelectorAll("button")).find(
       (b) => b.textContent === CONFIG.selectors.confirmationButtonText)] *)
Definition confirmProbe (w : World) : JsVal :=
  match find (fun b => String.eqb (textContent b w)
                                  (confirmationButtonText (selectors cfg)))
             (querySelectorAll "button" w) with
  | Some e => JElem e
  | None => JUndefined
  end.

(** [() => document.querySelector(CONFIG.selectors.photoContainer)] *)
Definition containerProbe (w : World) : JsVal :=
  match querySelector (photoContainer (selectors cfg)) w with
  | Some e => JElem e
  | None => JNull
  end.

(** [() => document.querySelectorAll(CONFIG.selectors.checkbox)] *)
Definition checkboxProbe (w : World) : JsVal :=
  JList (querySelectorAll (checkbox (selectors cfg)) w).

Definition descDelete : string :=
  ("main " ++ dquote ++ "Move to trash" ++ dquote ++ " button")%string.
Definition descConfirm : string :=
  ("confirmation " ++ dquote ++ "Move to trash" ++ dquote ++ " button")%string.
Definition descContainer : string := "main photo container".
Definition descCheckbox : string := "any selectable photo".

(** [v.click()] on what a wait resolved with.  The waits of the script
    resolve with an element; on any other value the call is a TypeError. *)
Definition clickValue (v : JsVal) : M unit :=
  match v with
  | JElem e => doClick e
  | _ => throw {| message := "click is not a function" |}
  end.

(** The node list a wait resolved with, for [.length] and [for ... of];
    a value that is no list is not iterable. *)
Definition nodeList (v : JsVal) : M (list Elem) :=
  match v with
  | JList l => ret l
  | _ => throw {| message := "checkBoxes is not iterable" |}
  end.

(** [executeDeletion()] *)
Definition executeDeletion : M unit :=
  console LogInitiating ;;
  deleteBtn <- waitUntil deleteProbe descDelete (timeout cfg) ;;
  clickValue deleteBtn ;;
  console LogClickedMain ;;
  confirmBtn <- waitUntil confirmProbe descConfirm (timeout cfg) ;;
  clickValue confirmBtn ;;
  console LogClickedConfirm ;;
  pause (actionDelay cfg).

(** [for (const box of checkBoxes) { try { box.click(); } catch (e) {
       console.warn(...); } }] *)
Fixpoint selectAll (checkBoxes : list Elem) : M unit :=
  match checkBoxes with
  | [] => ret tt
  | box :: rest =>
      try_catch (doClick box) (fun _ => console WarnCouldNotClick) ;;
      selectAll rest
  end.

End Shared.

(** ** The timeline of a wait *)

Section Timeline.
Context `{B : Browser}.

(** The state one firing of the timer later. *)
Definition tick (s : State) : State :=
  {| clock := clock s + pollInterval; dom := elapse pollInterval (dom s);
     out := out s; totalDeleted := totalDeleted s;
     stallCounter := stallCounter s |}.

(** The states after [console], [sleep] and [click]. *)
Definition logged (c : Console) (s : State) : State :=
  {| clock := clock s; dom := dom s; out := out s ++ [Printed c];
     totalDeleted := totalDeleted s; stallCounter := stallCounter s |}.

Definition paused (ms : Z) (s : State) : State :=
  {| clock := clock s + ms; dom := elapse ms (dom s); out := out s;
     totalDeleted := totalDeleted s; stallCounter := stallCounter s |}.

Definition clickedOn (e : Elem) (s : State) : State :=
  {| clock := clock s; dom := fst (click e (dom s));
     out := out s ++ [Clicked e];
     totalDeleted := totalDeleted s; stallCounter := stallCounter s |}.

Definition withCounters (total stalls : Z) (s : State) : State :=
  {| clock := clock s; dom := dom s; out := out s;
     totalDeleted := total; stallCounter := stalls |}.

(** The page after [k] poll intervals on its own. *)
Fixpoint ticks (k : nat) (w : World) : World :=
  match k with
  | O => w
  | S k' => ticks k' (elapse pollInterval w)
  end.

(** The elements clicked, in order. *)
Definition clicks (l : list Event) : list Elem :=
  flat_map (fun e => match e with Clicked x => [x] | Printed _ => [] end) l.

Fixpoint after_ticks (k : nat) (s : State) : State :=
  match k with
  | O => s
  | S k' => after_ticks k' (tick s)
  end.

(** What a run of the timer amounts to: its [k]-th firing settles the
    promise, resolving with the probe's result or rejecting. *)
Inductive settles (condition : World -> JsVal) (description : string)
    (t start : Z) (s : State) : nat -> Res JsVal -> Prop :=
| settles_resolve k :
    (1 <= k)%nat ->
    (forall j, (1 <= j < k)%nat ->
       clock (after_ticks j s) - start <= t /\
       ready (condition (dom (after_ticks j s))) = false) ->
    clock (after_ticks k s) - start <= t ->
    ready (condition (dom (after_ticks k s))) = true ->
    settles condition description t start s k
      (Ok (condition (dom (after_ticks k s))) (after_ticks k s))
| settles_reject k :
    (1 <= k)%nat ->
    (forall j, (1 <= j < k)%nat ->
       clock (after_ticks j s) - start <= t /\
       ready (condition (dom (after_ticks j s))) = false) ->
    clock (after_ticks k s) - start > t ->
    settles condition description t start s k
      (Throw {| message := timeoutMessage description t |} (after_ticks k s)).

End Timeline.

(** How the top-level [try]/[catch] around [runPhotoDeleter()] ends: with
    the message "--- Script Execution Complete ---", or in its [catch],
    with "--- SCRIPT ENCOUNTERED A CRITICAL ERROR ---", the error and the
    advice to reload.  The branch taken is the value returned. *)
Inductive Ending :=
| Complete
| Critical (error : Error).

(** ** The plain variant: [src/delete-photos.js] *)

Module Plain.
Section Loop.
Context `{B : Browser}.
Variable cfg : Config.

(** The body of [try] in the loop. *)
Definition tryBody : M unit :=
  waitUntil (containerProbe cfg) descContainer (timeout cfg) ;;
  found <- waitUntil (checkboxProbe cfg) descCheckbox (timeout cfg) ;;
  checkBoxes <- nodeList found ;;
  console (LogFound (Z.of_nat (List.length checkBoxes))) ;;
  selectAll checkBoxes ;;
  total <- getTotal ;;
  setTotal (total + Z.of_nat (List.length checkBoxes)) ;;
  pause selectionDelay ;;
  executeDeletion cfg.

(** One turn of [while (true)]: [true] to go round again, [false] after
    [break].  The [catch] takes every error alike. *)
Definition iteration : M bool :=
  try_catch (tryBody ;; ret true)
            (fun _ => console LogMissionAccomplished ;; ret false).

Fixpoint loop (fuel : nat) : M unit :=
  match fuel with
  | O => fun s => OutOfFuel s
  | S fuel' =>
      again <- iteration ;;
      if again then loop fuel' else ret tt
  end.

(** [runPhotoDeleter()] *)
Definition runPhotoDeleter (fuel : nat) : M unit :=
  setTotal 0 ;;
  console LogInitialized ;;
  console WarnSafety ;;
  loop fuel ;;
  total <- getTotal ;;
  console (LogFinished total).

(** The script's last statement:
    [try { await runPhotoDeleter(); ... } catch (error) { ... }]. *)
Definition script (fuel : nat) : M Ending :=
  try_catch (runPhotoDeleter fuel ;; ret Complete)
            (fun error => ret (Critical error)).

End Loop.
End Plain.

(** ** The stall-detection variant: [src/unnamed/part_002] *)

Module StallDetect.
Section Loop.
Context `{B : Browser}.
Variable cfg : Config.

Definition stallMessage : string :=
  "Stall Detected. Google is likely rate-limiting you. The script will now stop.".

(** The inner [try]/[catch] after the deletion: the count of selectable
    controls found by a re-poll of [verifyTimeout], 0 when it throws. *)
Definition countAfter : M Z :=
  try_catch
    (found <- waitUntil (checkboxProbe cfg) descCheckbox verifyTimeout ;;
     checkBoxesAfter <- nodeList found ;;
     ret (Z.of_nat (List.length checkBoxesAfter)))
    (fun _ => ret 0).

(** [if (photoCountAfter >= photoCountBefore) { ... } else { ... }] *)
Definition stallCheck (photoCountBefore photoCountAfter : Z) : M unit :=
  if photoCountAfter >=? photoCountBefore then
    stalls <- getStall ;;
    setStall (stalls + 1) ;;
    stalls' <- getStall ;;
    console (WarnStall stalls' (stallLimit cfg)) ;;
    if stalls' >=? stallLimit cfg then throw {| message := stallMessage |}
    else ret tt
  else
    setStall 0 ;;
    total <- getTotal ;;
    setTotal (total + (photoCountBefore - photoCountAfter)) ;;
    total' <- getTotal ;;
    console (LogBatchDeleted (photoCountBefore - photoCountAfter) total').

(** The body of the outer [try]. *)
Definition tryBody : M unit :=
  waitUntil (containerProbe cfg) descContainer (timeout cfg) ;;
  found <- waitUntil (checkboxProbe cfg) descCheckbox (timeout cfg) ;;
  checkBoxes <- nodeList found ;;
  let photoCountBefore := Z.of_nat (List.length checkBoxes) in
  console (LogFound photoCountBefore) ;;
  selectAll checkBoxes ;;
  pause selectionDelay ;;
  executeDeletion cfg ;;
  photoCountAfter <- countAfter ;;
  stallCheck photoCountBefore photoCountAfter.

(** The same body cut at the two places the counts come from: up to the
    end of [executeDeletion], yielding [photoCountBefore], and up to the
    comparison, yielding both counts. *)
Definition upToDeletion : M Z :=
  waitUntil (containerProbe cfg) descContainer (timeout cfg) ;;
  found <- waitUntil (checkboxProbe cfg) descCheckbox (timeout cfg) ;;
  checkBoxes <- nodeList found ;;
  console (LogFound (Z.of_nat (List.length checkBoxes))) ;;
  selectAll checkBoxes ;;
  pause selectionDelay ;;
  executeDeletion cfg ;;
  ret (Z.of_nat (List.length checkBoxes)).

Definition measured : M (Z * Z) :=
  photoCountBefore <- upToDeletion ;;
  photoCountAfter <- countAfter ;;
  ret (photoCountBefore, photoCountAfter).

(** The outer [catch]: the message decides between the two endings. *)
Definition onError (error : Error) : M unit :=
  if includes (message error) "any selectable photo" then
    console LogMissionAccomplished
  else
    console (ErrHalted (message error)) ;;
    console LogRefreshHint.

Definition iteration : M bool :=
  try_catch (tryBody ;; ret true)
            (fun error => onError error ;; ret false).

Fixpoint loop (fuel : nat) : M unit :=
  match fuel with
  | O => fun s => OutOfFuel s
  | S fuel' =>
      again <- iteration ;;
      if again then loop fuel' else ret tt
  end.

(** [runPhotoDeleter()] *)
Definition runPhotoDeleter (fuel : nat) : M unit :=
  setTotal 0 ;;
  setStall 0 ;;
  console LogInitialized ;;
  console WarnSafety ;;
  loop fuel ;;
  total <- getTotal ;;
  console (LogFinished total).

(** The script's last statement:
    [try { await runPhotoDeleter(); ... } catch (error) { ... }]. *)
Definition script (fuel : nat) : M Ending :=
  try_catch (runPhotoDeleter fuel ;; ret Complete)
            (fun error => ret (Critical error)).

End Loop.
End StallDetect.

(** ** A simulated page

    A page holding its items in batches.  The head batch is on screen from
    [loadAt] on, as unchecked boxes [Box 0 .. Box (n-1)]; clicking a box
    checks it; the trash button is there while something is checked; it
    opens a dialog with a cancel and a confirm button; confirming removes
    the batch on screen, and the next batch shows [loadDelay] later.  A
    throttled page closes the dialog and removes nothing.  Clicking a box
    listed in [stale] throws. *)

Module Sim.

Inductive SimElem :=
| Container
| Box (i : nat)
| TrashButton
| CancelButton
| ConfirmButton.

Record Page := {
  time : Z;
  hasContainer : bool;
  batches : list nat;
  loadAt : Z;
  checked : list nat;
  dialog : bool;
  loadDelay : Z;
  throttled : bool;
  stale : list nat
}.

Definition visibleBoxes (p : Page) : list SimElem :=
  match batches p with
  | [] => []
  | n :: _ =>
      if loadAt p <=? time p then
        map Box (filter (fun i => negb (existsb (Nat.eqb i) (checked p)))
                        (seq 0 n))
      else []
  end.

Definition hasSelection (p : Page) : bool :=
  match checked p with [] => false | _ :: _ => true end.

Definition simElapse (ms : Z) (p : Page) : Page :=
  {| time := time p + ms; hasContainer := hasContainer p;
     batches := batches p; loadAt := loadAt p; checked := checked p;
     dialog := dialog p; loadDelay := loadDelay p;
     throttled := throttled p; stale := stale p |}.

Definition simQuerySelector (sel : string) (p : Page) : option SimElem :=
  if String.eqb sel (photoContainer (selectors CONFIG)) then
    if hasContainer p then Some Container else None
  else if String.eqb sel (deleteButton (selectors CONFIG)) then
    if hasSelection p then Some TrashButton else None
  else None.

Definition simQuerySelectorAll (sel : string) (p : Page) : list SimElem :=
  if String.eqb sel (checkbox (selectors CONFIG)) then visibleBoxes p
  else if String.eqb sel "button" then
    (if hasSelection p then [TrashButton] else [])
      ++ (if dialog p then [CancelButton; ConfirmButton] else [])
  else [].

Definition simTextContent (e : SimElem) (p : Page) : string :=
  match e with
  | CancelButton => "Cancel"
  | ConfirmButton => "Move to trash"
  | _ => EmptyString
  end.

Definition simClick (e : SimElem) (p : Page) : Page * option string :=
  match e with
  | Box i =>
      if existsb (Nat.eqb i) (stale p) then
        (p, Some "Cannot read properties of null")
      else
        ({| time := time p; hasContainer := hasContainer p;
            batches := batches p; loadAt := loadAt p;
            checked := i :: checked p; dialog := dialog p;
            loadDelay := loadDelay p; throttled := throttled p;
            stale := stale p |}, None)
  | TrashButton =>
      ({| time := time p; hasContainer := hasContainer p;
          batches := batches p; loadAt := loadAt p; checked := checked p;
          dialog := hasSelection p; loadDelay := loadDelay p;
          throttled := throttled p; stale := stale p |}, None)
  | CancelButton =>
      ({| time := time p; hasContainer := hasContainer p;
          batches := batches p; loadAt := loadAt p; checked := checked p;
          dialog := false; loadDelay := loadDelay p;
          throttled := throttled p; stale := stale p |}, None)
  | ConfirmButton =>
      if dialog p then
        if throttled p then
          ({| time := time p; hasContainer := hasContainer p;
              batches := batches p; loadAt := loadAt p; checked := [];
              dialog := false; loadDelay := loadDelay p;
              throttled := throttled p; stale := stale p |}, None)
        else
          ({| time := time p; hasContainer := hasContainer p;
              batches := tl (batches p); loadAt := time p + loadDelay p;
              checked := []; dialog := false; loadDelay := loadDelay p;
              throttled := throttled p; stale := stale p |}, None)
      else (p, None)
  | Container => (p, None)
  end.

#[export] Instance simBrowser : Browser := {|
  World := Page;
  Elem := SimElem;
  elapse := simElapse;
  querySelector := simQuerySelector;
  querySelectorAll := simQuerySelectorAll;
  textContent := simTextContent;
  click := simClick
|}.

(** A page in its initial condition: the first batch on screen, nothing
    checked, no dialog. *)
Definition page (sizes : list nat) (delay : Z) : Page :=
  {| time := 0; hasContainer := true; batches := sizes; loadAt := 0;
     checked := []; dialog := false; loadDelay := delay;
     throttled := false; stale := [] |}.

(** A page with a container, nothing checked and no dialog, at time [t],
    its head batch on screen from [a] on. *)
Definition shows (t a : Z) (sizes : list nat) (delay : Z) : Page :=
  {| time := t; hasContainer := true; batches := sizes; loadAt := a;
     checked := []; dialog := false; loadDelay := delay;
     throttled := false; stale := [] |}.

Definition withChecked (cs : list nat) (p : Page) : Page :=
  {| time := time p; hasContainer := hasContainer p; batches := batches p;
     loadAt := loadAt p; checked := cs; dialog := dialog p;
     loadDelay := loadDelay p; throttled := throttled p; stale := stale p |}.

(** The page once its dialog has been confirmed at time [t]. *)
Definition confirmedAt (t : Z) (p : Page) : Page :=
  {| time := t; hasContainer := hasContainer p; batches := tl (batches p);
     loadAt := t + loadDelay p; checked := []; dialog := false;
     loadDelay := loadDelay p; throttled := throttled p; stale := stale p |}.

(** Pages for particular runs: without items; without items and without
    the container; one batch of three with a box whose click throws; one
    batch of two whose boxes cannot be clicked; a page that removes
    nothing. *)
Definition emptyPage : Page := page [] 0.

Definition bare : Page :=
  {| time := 0; hasContainer := false; batches := []; loadAt := 0;
     checked := []; dialog := false; loadDelay := 0;
     throttled := false; stale := [] |}.

Definition brittle : Page :=
  {| time := 0; hasContainer := true; batches := [3%nat]; loadAt := 0;
     checked := []; dialog := false; loadDelay := 0;
     throttled := false; stale := [1%nat] |}.


Definition throttledPage : Page :=
  {| time := 0; hasContainer := true; batches := [2%nat]; loadAt := 0;
     checked := []; dialog := false; loadDelay := 0;
     throttled := true; stale := [] |}.

(** The page once its dialog has been confirmed at time [t], throttled or
    not. *)
Definition confirmAny (t : Z) (p : Page) : Page :=
  if throttled p then
    {| time := t; hasContainer := hasContainer p; batches := batches p;
       loadAt := loadAt p; checked := []; dialog := false;
       loadDelay := loadDelay p; throttled := throttled p; stale := stale p |}
  else confirmedAt t p.

(** A page that removes nothing, with one batch of [n] at time [t]. *)
Definition choked (t : Z) (n : nat) : Page :=
  {| time := t; hasContainer := true; batches := [n]; loadAt := 0;
     checked := []; dialog := false; loadDelay := 0;
     throttled := true; stale := [] |}.

(** The state the script starts in on a page. *)
Definition start (p : Page) : State :=
  {| clock := 0; dom := p; out := []; totalDeleted := 0; stallCounter := 0 |}.

End Sim.

(** A page that never changes: one element, found by every
    [querySelector]; no buttons; clicking does nothing. *)
Module Frozen.

Definition frozenBrowser : Browser := {|
  World := unit;
  Elem := unit;
  elapse := fun _ w => w;
  querySelector := fun _ _ => Some tt;
  querySelectorAll := fun _ _ => [];
  textContent := fun _ _ => EmptyString;
  click := fun _ w => (w, None)
|}.

Definition start : @State frozenBrowser :=
  @Build_State frozenBrowser 0 tt [] 0 0.

End Frozen.

(** A page like the frozen one, except that every click throws. *)
Module Broken.

Definition brokenBrowser : Browser := {|
  World := unit;
  Elem := unit;
  elapse := fun _ w => w;
  querySelector := fun _ _ => Some tt;
  querySelectorAll := fun _ _ => [];
  textContent := fun _ _ => EmptyString;
  click := fun _ w => (w, Some "Illegal invocation")
|}.

Definition start : @State brokenBrowser :=
  @Build_State brokenBrowser 0 tt [] 0 0.

(** A page with two buttons, the delete control ([true]) and a button
    with the confirmation text ([false]); only the click on the second
    throws. *)
Definition dialogBrowser : Browser := {|
  World := unit;
  Elem := bool;
  elapse := fun _ w => w;
  querySelector := fun _ _ => Some true;
  querySelectorAll := fun _ _ => [false];
  textContent := fun b _ =>
    if b then EmptyString else confirmationButtonText (selectors CONFIG);
  click := fun b w => (w, if b then None else Some "Illegal invocation")
|}.

Definition dialogStart : @State dialogBrowser :=
  @Build_State dialogBrowser 0 tt [] 0 0.

End Broken.

(** The state a computation ended in. *)
Definition stateOf {A} `{Browser} (r : Res A) : State :=
  match r with Ok _ s => s | Throw _ s => s | OutOfFuel s => s end.

Definition printed `{Browser} (l : list Event) : list Console :=
  flat_map (fun e => match e with Printed c => [c] | _ => [] end) l.

(** ** Reading a run off the console

    The stall-detection variant prints one verdict per completed attempt:
    the stall warning when the count did not decrease, the batch message
    when it did. *)
Definition verdicts `{Browser} (l : list Event) : list bool :=
  flat_map (fun e => match e with
                     | Printed (WarnStall _ _) => [true]
                     | Printed (LogBatchDeleted _ _) => [false]
                     | _ => []
                     end) l.

(** The counts the stall-detection loop compares, attempt by attempt, in
    a run of at most [fuel] turns from [s]: [photoCountBefore] and
    [photoCountAfter] of every attempt that reached the comparison, [None]
    for one that threw before it.  The list ends with the attempt after
    which the loop breaks, or with the last one the fuel allows. *)
Fixpoint comparisons `{Browser} (cfg : Config) (fuel : nat) (s : State)
    : list (option (Z * Z)) :=
  match fuel with
  | O => []
  | S fuel' =>
      let counts := match StallDetect.measured cfg s with
                    | Ok c _ => Some c
                    | _ => None
                    end in
      match StallDetect.iteration cfg s with
      | Ok true s' => counts :: comparisons cfg fuel' s'
      | _ => [counts]
      end
  end.

(** For every attempt that compared, whether its count failed to decrease:
    [photoCountAfter >= photoCountBefore]. *)
Definition stalled (h : list (option (Z * Z))) : list bool :=
  flat_map (fun c => match c with
                     | Some (before, after) => [after >=? before]
                     | None => []
                     end) h.

(** A computation that prints no verdict and leaves both counters alone,
    however it ends. *)
Definition quiet {A} `{Browser} (m : M A) : Prop :=
  forall s, exists evs,
    out (stateOf (m s)) = out s ++ evs /\ verdicts evs = [] /\
    totalDeleted (stateOf (m s)) = totalDeleted s /\
    stallCounter (stateOf (m s)) = stallCounter s.

(** The shape of what the stall-detection loop prints from a turn at which
    the counter stands at [c]: attempts that print no verdict end the
    output; a stall below the limit moves the counter up by one; a stall
    that reaches the limit is followed by the halt messages and nothing
    else; a success sets the counter back to 0.  The flag tells whether the
    loop came to its end, as opposed to being cut short for lack of fuel. *)
Inductive loop_trace `{Browser} (limit : Z) : Z -> list Event -> bool -> Prop :=
| trace_end c evs ended :
    verdicts evs = [] -> loop_trace limit c evs ended
| trace_stall c evs rest ended :
    verdicts evs = [] -> c + 1 < limit ->
    loop_trace limit (c + 1) rest ended ->
    loop_trace limit c (evs ++ Printed (WarnStall (c + 1) limit) :: rest) ended
| trace_halt c evs :
    verdicts evs = [] -> limit <= c + 1 ->
    loop_trace limit c
      (evs ++ [Printed (WarnStall (c + 1) limit);
               Printed (ErrHalted StallDetect.stallMessage);
               Printed LogRefreshHint]) true
| trace_progress c evs n total rest ended :
    verdicts evs = [] ->
    loop_trace limit 0 rest ended ->
    loop_trace limit c (evs ++ Printed (LogBatchDeleted n total) :: rest) ended.

(** Whether a computation came to an end. *)
Definition finished {A} `{Browser} (r : Res A) : bool :=
  match r with Ok _ _ => true | _ => false end.

(** A sequence of verdicts a stall limit allows when the counter stands at
    [c]: a stall that brings the counter to the limit is the last verdict,
    a success sets the counter back to 0. *)
Fixpoint allowed_by (limit c : Z) (v : list bool) : Prop :=
  match v with
  | [] => True
  | false :: v' => allowed_by limit 0 v'
  | true :: v' =>
      if c + 1 >=? limit then v' = [] else allowed_by limit (c + 1) v'
  end.


(** ** Sums and durations read off a run *)

(** The sum of a weight over a list of events. *)
Definition tally `{Browser} (w : Event -> Z) (l : list Event) : Z :=
  fold_right (fun e acc => w e + acc) 0 l.

(** The number in a "Found ... visible photos" message. *)
Definition foundCount `{Browser} (e : Event) : Z :=
  match e with Printed (LogFound n) => n | _ => 0 end.

(** The batch amount in a "Successfully deleted a batch" message. *)
Definition creditedCount `{Browser} (e : Event) : Z :=
  match e with Printed (LogBatchDeleted n _) => n | _ => 0 end.

(** A computation that prints nothing a weight counts and leaves the
    total alone, however it ends. *)
Definition hushed {A} `{Browser} (w : Event -> Z) (m : M A) : Prop :=
  forall s, exists evs,
    out (stateOf (m s)) = out s ++ evs /\
    Forall (fun e => w e = 0) evs /\
    totalDeleted (stateOf (m s)) = totalDeleted s.

(** A computation that moves the total by exactly what a weight counts in
    what it prints, however it ends. *)
Definition tallies {A} `{Browser} (w : Event -> Z) (m : M A) : Prop :=
  forall s, exists evs,
    out (stateOf (m s)) = out s ++ evs /\
    totalDeleted (stateOf (m s)) = totalDeleted s + tally w evs.

(** The success messages of a list of events, read from a total of
    [total]: each credits a positive amount and shows the total so far. *)
Fixpoint running `{Browser} (total : Z) (l : list Event) : Prop :=
  match l with
  | [] => True
  | Printed (LogBatchDeleted n shown) :: l' =>
      0 < n /\ shown = total + n /\ running (total + n) l'
  | _ :: l' => running total l'
  end.

(** A computation that only adds to what has been printed and clicked. *)
Definition appends {A} `{Browser} (m : M A) : Prop :=
  forall s, exists evs, out (stateOf (m s)) = out s ++ evs.

(** A computation that ends, however it ends, no later than [hi] ms after
    it began. *)
Definition within {A} `{Browser} (hi : Z) (m : M A) : Prop :=
  forall s, clock s <= clock (stateOf (m s)) <= clock s + hi.

(** A computation that takes [lo] ms or more whenever it returns a value. *)
Definition atLeast {A} `{Browser} (lo : Z) (m : M A) : Prop :=
  forall s a s', m s = Ok a s' -> clock s + lo <= clock s'.

(** A computation that never runs out of fuel. *)
Definition productive {A} `{Browser} (m : M A) : Prop :=
  forall s s', m s <> OutOfFuel s'.

(** The bookkeeping of the stall-detection loop on a list of batch sizes
    when each attempt sees, after the deletion, the next batch of the
    list (nothing after the last): whether the run is halted, the total,
    and the batches left on the page. *)
Fixpoint ledger (limit stalls total : Z) (sizes : list nat)
    : bool * Z * list nat :=
  match sizes with
  | [] => (false, total, [])
  | n :: rest =>
      let before := Z.of_nat n in
      let after := match rest with [] => 0 | m :: _ => Z.of_nat m end in
      if after >=? before then
        if stalls + 1 >=? limit then (true, total, rest)
        else ledger limit (stalls + 1) total rest
      else ledger limit 0 (total + (before - after)) rest
  end.

(** * Properties *)

(** ** Strings *)

Lemma prefix_app (p s : string) : String.prefix p (p ++ s)%string = true.
Proof.
  induction p as [|c p IH]; simpl.
  - destruct s; reflexivity.
  - destruct (ascii_dec c c) as [_|n]; [exact IH | now elim n].
Qed.

Lemma includes_prefix (s pat : string) :
  String.prefix pat s = true -> includes s pat = true.
Proof. intros H. destruct s; cbn [includes]; rewrite H; reflexivity. Qed.

Lemma includes_app_l (a s pat : string) :
  includes s pat = true -> includes (a ++ s)%string pat = true.
Proof.
  intros H. induction a as [|c a IH]; [exact H|].
  change (String c a ++ s)%string with (String c (a ++ s)%string).
  cbn [includes]. rewrite IH.
  now destruct (String.prefix pat (String c (a ++ s))).
Qed.

Lemma includes_middle (a pat b : string) :
  includes (a ++ pat ++ b)%string pat = true.
Proof. apply includes_app_l, includes_prefix, prefix_app. Qed.

(** A timeout message names what was waited for. *)
Lemma timeoutMessage_names (description : string) (t : Z) :
  includes (timeoutMessage description t) description = true.
Proof. unfold timeoutMessage. apply includes_middle. Qed.

(** A string that lacks a character of the pattern does not include the
    pattern. *)
Lemma lacks_app (c : ascii) (a b : string) :
  lacks c (a ++ b)%string = lacks c a && lacks c b.
Proof.
  induction a as [|x a IH]; [reflexivity|].
  change (String x a ++ b)%string with (String x (a ++ b)%string).
  cbn [lacks]. rewrite IH. now rewrite andb_assoc.
Qed.

Lemma prefix_lacks (c : ascii) (p : string) :
  forall s, String.prefix p s = true -> lacks c s = true -> lacks c p = true.
Proof.
  induction p as [|x p IH]; intros s Hp Hs; [reflexivity|].
  destruct s as [|y s]; [discriminate|]. cbn [String.prefix] in Hp.
  destruct (ascii_dec x y) as [->|]; [|discriminate].
  cbn [lacks] in *. apply andb_true_iff in Hs as [Hy Hs].
  rewrite Hy. exact (IH s Hp Hs).
Qed.

Lemma includes_lacks (c : ascii) (s pat : string) :
  lacks c s = true -> lacks c pat = false -> includes s pat = false.
Proof.
  intros Hs Hpat. induction s as [|x s IH].
  - cbn [includes]. destruct (String.prefix pat EmptyString) eqn:Hp; [|reflexivity].
    rewrite (prefix_lacks c pat _ Hp Hs) in Hpat. discriminate.
  - cbn [includes]. destruct (String.prefix pat (String x s)) eqn:Hp.
    + rewrite (prefix_lacks c pat _ Hp Hs) in Hpat. discriminate.
    + cbn [lacks] in Hs. apply andb_true_iff in Hs as [_ Hs]. exact (IH Hs).
Qed.

Lemma lacks_show_N (n : N) : lacks "y" (show_N n) = true.
Proof.
  unfold show_N.
  assert (H : forall d, lacks "y" (NilEmpty.string_of_uint d) = true)
    by (induction d; cbn; auto).
  destruct (N.to_uint n); try apply H. reflexivity.
Qed.

Lemma lacks_show_seconds (ms : Z) : lacks "y" (show_seconds ms) = true.
Proof.
  unfold show_seconds, show_thousandths.
  repeat match goal with
         | |- context [if ?b then _ else _] => destruct b
         end;
    repeat (rewrite lacks_app || rewrite lacks_show_N); reflexivity.
Qed.

(** The timeout message of the wait for the container does not contain
    the words the outer [catch] of the stall-detection variant looks for,
    whatever the timeout. *)
Lemma timeoutMessage_container (t : Z) :
  includes (timeoutMessage descContainer t) "any selectable photo" = false.
Proof.
  apply (includes_lacks "y"); [|reflexivity].
  unfold timeoutMessage. rewrite !lacks_app, lacks_show_seconds. reflexivity.
Qed.

(** ** The polling primitive *)

Section PollFacts.
Context `{B : Browser}.

Lemma clock_after_ticks k s :
  clock (after_ticks k s) = clock s + pollInterval * Z.of_nat k.
Proof.
  revert s. induction k as [|k IH]; intros s.
  - simpl. lia.
  - cbn [after_ticks]. rewrite IH. unfold tick, pollInterval. cbn [clock]. lia.
Qed.

Lemma out_after_ticks k s : out (after_ticks k s) = out s.
Proof. revert s. induction k as [|k IH]; intros s; [reflexivity|]. cbn [after_ticks]. now rewrite IH. Qed.

Lemma total_after_ticks k s : totalDeleted (after_ticks k s) = totalDeleted s.
Proof. revert s. induction k as [|k IH]; intros s; [reflexivity|]. cbn [after_ticks]. now rewrite IH. Qed.

Lemma stall_after_ticks k s : stallCounter (after_ticks k s) = stallCounter s.
Proof. revert s. induction k as [|k IH]; intros s; [reflexivity|]. cbn [after_ticks]. now rewrite IH. Qed.

Lemma after_ticks_add j k s :
  after_ticks (j + k) s = after_ticks k (after_ticks j s).
Proof. revert s. induction j as [|j IH]; intros s; [reflexivity|]. cbn [after_ticks Nat.add]. apply IH. Qed.

Lemma poll_step fuel condition description t start s :
  poll (S fuel) condition description t start s =
  if clock (tick s) - start >? t then
    Throw {| message := timeoutMessage description t |} (tick s)
  else if ready (condition (dom (tick s))) then
    Ok (condition (dom (tick s))) (tick s)
  else poll fuel condition description t start (tick s).
Proof. reflexivity. Qed.

Lemma settles_shift condition description t start s k r :
  clock (tick s) - start <= t ->
  ready (condition (dom (tick s))) = false ->
  settles condition description t start (tick s) k r ->
  settles condition description t start s (S k) r.
Proof.
  intros Hc Hr Hs.
  assert (Hprev : forall j, (1 <= j < S k)%nat ->
            clock (after_ticks j s) - start <= t /\
            ready (condition (dom (after_ticks j s))) = false).
  { intros j Hj. destruct j as [|j]; [lia|]. cbn [after_ticks].
    destruct j as [|j]; [now split|].
    inversion Hs; subst; match goal with H : forall _, _ -> _ /\ _ |- _ => apply H end; lia. }
  inversion Hs; subst.
  - change (after_ticks k (tick s)) with (after_ticks (S k) s).
    apply settles_resolve; auto; lia.
  - change (after_ticks k (tick s)) with (after_ticks (S k) s).
    apply settles_reject; auto; lia.
Qed.

(** With fuel for every firing up to the deadline, the timer settles. *)
Lemma poll_settles fuel condition description t start s :
  clock s + pollInterval * Z.of_nat (S fuel) - start > t ->
  exists k, (k <= S fuel)%nat /\
    settles condition description t start s k
      (poll (S fuel) condition description t start s).
Proof.
  revert s. induction fuel as [|fuel IH]; intros s Hfuel;
    rewrite poll_step;
    destruct (clock (tick s) - start >? t) eqn:Hc.
  - exists 1%nat. split; [lia|].
    apply (settles_reject _ _ _ _ s 1); [lia | intros; lia | cbn [after_ticks]; lia].
  - exfalso. unfold tick, pollInterval in *. cbn [clock] in Hc. lia.
  - exists 1%nat. split; [lia|].
    apply (settles_reject _ _ _ _ s 1); [lia | intros; lia | cbn [after_ticks]; lia].
  - destruct (ready (condition (dom (tick s)))) eqn:Hr.
    + exists 1%nat. split; [lia|].
      apply (settles_resolve _ _ _ _ s 1);
        [lia | intros; lia | cbn [after_ticks]; lia | exact Hr].
    + destruct (IH (tick s)) as [k [Hk Hs]].
      { unfold tick at 1. cbn [clock]. unfold pollInterval in *. lia. }
      exists (S k). split; [lia|].
      apply settles_shift; auto. lia.
Qed.

Lemma firings_deadline t :
  pollInterval * Z.of_nat (firings t) > t /\
  (0 <= t -> pollInterval * Z.of_nat (firings t) <= t + pollInterval).
Proof.
  unfold firings, pollInterval. rewrite Nat2Z.inj_succ.
  destruct (Z_lt_le_dec t 0) as [Hneg|Hpos].
  - assert (t / 250 < 0) by (apply Z.div_lt_upper_bound; lia).
    replace (Z.to_nat (t / 250)) with 0%nat by lia. lia.
  - assert (0 <= t / 250) by (apply Z.div_pos; lia).
    rewrite Z2Nat.id by lia.
    pose proof (Z.div_mod t 250 ltac:(lia)).
    pose proof (Z.mod_pos_bound t 250 ltac:(lia)). lia.
Qed.

(** The firing that rejects is the first one later than the timeout. *)
Lemma first_late_firing t k :
  (1 <= k)%nat ->
  pollInterval * Z.of_nat k > t ->
  (forall j, (1 <= j < k)%nat -> pollInterval * Z.of_nat j <= t) ->
  k = firings t.
Proof.
  intros Hk Hlate Hbefore. unfold firings, pollInterval in *.
  destruct (Nat.eq_dec k 1) as [->|Hk1].
  - destruct (Z_lt_le_dec t 0) as [Hneg|Hpos].
    + assert (t / 250 < 0) by (apply Z.div_lt_upper_bound; lia).
      replace (Z.to_nat (t / 250)) with 0%nat by lia. reflexivity.
    + rewrite Z.div_small by lia. reflexivity.
  - specialize (Hbefore (k - 1)%nat ltac:(lia)).
    assert (Hq : t / 250 = Z.of_nat (k - 1)).
    { symmetry. apply Z.div_unique with (r := t - 250 * Z.of_nat (k - 1)); lia. }
    rewrite Hq, Nat2Z.id. lia.
Qed.

(** [waitUntil] always settles, at one of its firings. *)
Lemma waitUntil_settles condition description t s :
  exists k, (k <= firings t)%nat /\
    settles condition description t (clock s) s k
      (waitUntil condition description t s).
Proof.
  unfold waitUntil. unfold firings at 2.
  apply poll_settles. fold (firings t).
  pose proof (firings_deadline t). lia.
Qed.

(** The two ways a wait ends. *)
Lemma waitUntil_cases condition description t s :
  (exists k, (1 <= k)%nat /\ pollInterval * Z.of_nat k <= t /\
     (forall j, (1 <= j < k)%nat ->
        ready (condition (dom (after_ticks j s))) = false) /\
     ready (condition (dom (after_ticks k s))) = true /\
     waitUntil condition description t s =
       Ok (condition (dom (after_ticks k s))) (after_ticks k s))
  \/
  ((forall j, (1 <= j)%nat -> pollInterval * Z.of_nat j <= t ->
      ready (condition (dom (after_ticks j s))) = false) /\
   waitUntil condition description t s =
     Throw {| message := timeoutMessage description t |}
           (after_ticks (firings t) s)).
Proof.
  destruct (waitUntil_settles condition description t s) as [k [Hk Hs]].
  inversion Hs as [k' H1 Hprev Hin Hready Heq | k' H1 Hprev Hlate Heq]; subst k'.
  - left. exists k. rewrite clock_after_ticks in Hin.
    repeat split; try lia; auto.
    intros j Hj. apply Hprev; lia.
  - right. rewrite clock_after_ticks in Hlate.
    assert (Hk' : k = firings t).
    { apply first_late_firing; [lia | lia |].
      intros j Hj. destruct (Hprev j Hj) as [Hc _].
      rewrite clock_after_ticks in Hc. lia. }
    split.
    + intros j Hj Hw.
      assert (j < k)%nat by (apply Nat.lt_nge; intros Hge; unfold pollInterval in *; nia).
      apply Hprev; lia.
    + now rewrite <- Hk'.
Qed.

(** A wait that succeeds resolved with a value that passes [ready], read
    from the page as it then was. *)
Lemma waitUntil_ok condition description t s v s' :
  waitUntil condition description t s = Ok v s' ->
  exists k, (1 <= k)%nat /\ pollInterval * Z.of_nat k <= t /\
    s' = after_ticks k s /\ v = condition (dom s') /\ ready v = true /\
    (forall j, (1 <= j < k)%nat ->
       ready (condition (dom (after_ticks j s))) = false).
Proof.
  intros H.
  destruct (waitUntil_cases condition description t s)
    as [[k (Hk & Hw & Hprev & Hr & Heq)] | [_ Heq]];
    rewrite Heq in H; [|discriminate].
  injection H as <- <-. exists k. repeat split; auto.
Qed.

(** A wait that fails threw the timeout error, at the first firing later
    than the timeout, and no firing before found the probe ready. *)
Lemma waitUntil_throw condition description t s e s' :
  waitUntil condition description t s = Throw e s' ->
  e = {| message := timeoutMessage description t |} /\
  s' = after_ticks (firings t) s /\
  (forall j, (1 <= j)%nat -> pollInterval * Z.of_nat j <= t ->
     ready (condition (dom (after_ticks j s))) = false).
Proof.
  intros H.
  destruct (waitUntil_cases condition description t s)
    as [[k (Hk & Hw & Hprev & Hr & Heq)] | [Hnever Heq]];
    rewrite Heq in H; [discriminate|].
  injection H as <- <-. auto.
Qed.

Lemma waitUntil_terminates condition description t s s' :
  waitUntil condition description t s <> OutOfFuel s'.
Proof.
  destruct (waitUntil_cases condition description t s)
    as [[k (_ & _ & _ & _ & Heq)] | [_ Heq]]; rewrite Heq; discriminate.
Qed.

(** The probe is ready at the first firing. *)
Lemma waitUntil_first condition description t s :
  pollInterval <= t ->
  ready (condition (dom (tick s))) = true ->
  waitUntil condition description t s =
    Ok (condition (dom (tick s))) (tick s).
Proof.
  intros Ht Hr. unfold waitUntil, firings. rewrite poll_step, Hr.
  replace (clock (tick s) - clock s >? t) with false; [reflexivity|].
  symmetry. rewrite Z.gtb_ltb. apply Z.ltb_ge. unfold tick. cbn [clock]. lia.
Qed.

(** The probe is never ready while the wait lasts. *)
Lemma waitUntil_never condition description t s :
  (forall j, (1 <= j)%nat -> pollInterval * Z.of_nat j <= t ->
     ready (condition (dom (after_ticks j s))) = false) ->
  waitUntil condition description t s =
    Throw {| message := timeoutMessage description t |}
          (after_ticks (firings t) s).
Proof.
  intros Hnever.
  destruct (waitUntil_cases condition description t s)
    as [[k (Hk & Hw & _ & Hr & _)] | [_ Heq]]; [|exact Heq].
  rewrite Hnever in Hr by assumption. discriminate.
Qed.

(** The probe is ready at some firing within the timeout: the wait
    resolves, at the first such firing. *)
Lemma waitUntil_finds condition description t s k :
  (1 <= k)%nat -> pollInterval * Z.of_nat k <= t ->
  ready (condition (dom (after_ticks k s))) = true ->
  exists k', (1 <= k' <= k)%nat /\
    ready (condition (dom (after_ticks k' s))) = true /\
    waitUntil condition description t s =
      Ok (condition (dom (after_ticks k' s))) (after_ticks k' s).
Proof.
  intros Hk Hw Hr.
  destruct (waitUntil_cases condition description t s)
    as [[k' (Hk' & Hw' & Hprev & Hr' & Heq)] | [Hnever _]].
  - exists k'. repeat split; auto.
    apply Nat.le_ngt. intros Hlt. rewrite Hprev in Hr by lia. discriminate.
  - rewrite Hnever in Hr by assumption. discriminate.
Qed.

End PollFacts.

(** ** Claims about the polling primitive *)

Section PollClaims.
Context `{B : Browser}.

(** A probe that returns [true] returns a truthy value at every call, yet
    the wait never resolves with it: [true] has neither a length nor a
    node type, so the test of the callback fails each time and the wait
    rejects with the timeout error at the first firing later than the
    timeout. *)
Lemma true_probe_never_resolves (description : string) (t : Z) (s : State) :
  truthy (JBool true) = true /\
  waitUntil (fun _ => JBool true) description t s =
    Throw {| message := timeoutMessage description t |}
          (after_ticks (firings t) s).
Proof.
  split; [reflexivity|].
  apply waitUntil_never. intros; reflexivity.
Qed.

(** C3, as the code has it.  The probe is called once per firing, one
    firing every [pollInterval], each call on the page as it then is.  The
    wait resolves at the first firing within the timeout at which the
    result passes the test of the callback, with that result; when no
    firing within the timeout does, it rejects with the timeout error,
    whose message contains the description.  A result that passes the test
    is truthy, but the test asks for more than truthiness: a positive
    length or a node type.  For the three probes of the script that look
    for one element the two coincide; for the probe that lists the
    selectable controls the test is that the list, truthy even when empty,
    is not empty. *)
Theorem C3_resolves_at_first_ready_result
    (condition : World -> JsVal) (description : string) (t : Z) (s : State) :
  ((exists k, (1 <= k)%nat /\ pollInterval * Z.of_nat k <= t /\
      (forall j, (1 <= j < k)%nat ->
         ready (condition (dom (after_ticks j s))) = false) /\
      ready (condition (dom (after_ticks k s))) = true /\
      waitUntil condition description t s =
        Ok (condition (dom (after_ticks k s))) (after_ticks k s))
   \/
   ((forall j, (1 <= j)%nat -> pollInterval * Z.of_nat j <= t ->
       ready (condition (dom (after_ticks j s))) = false) /\
    waitUntil condition description t s =
      Throw {| message := timeoutMessage description t |}
            (after_ticks (firings t) s) /\
    includes (timeoutMessage description t) description = true))
  /\
  (forall v, ready v = true -> truthy v = true)
  /\
  (forall cfg w,
     ready (deleteProbe cfg w) = truthy (deleteProbe cfg w) /\
     ready (confirmProbe cfg w) = truthy (confirmProbe cfg w) /\
     ready (containerProbe cfg w) = truthy (containerProbe cfg w) /\
     truthy (checkboxProbe cfg w) = true /\
     ready (checkboxProbe cfg w)
       = negb (Nat.eqb (List.length
                          (querySelectorAll (checkbox (selectors cfg)) w)) 0)).
Proof.
  split; [|split].
  - destruct (waitUntil_cases condition description t s)
      as [Hok | [Hnever Heq]]; [left; exact Hok|].
    right. split; [exact Hnever|]. split; [exact Heq|].
    apply timeoutMessage_names.
  - intros v H. unfold ready in H. now apply andb_true_iff in H as [H _].
  - intros cfg w. unfold deleteProbe, confirmProbe, containerProbe, checkboxProbe.
    split; [|split; [|split; [|split]]].
    + now destruct (querySelector (deleteButton (selectors cfg)) w).
    + now destruct (find _ _).
    + now destruct (querySelector (photoContainer (selectors cfg)) w).
    + reflexivity.
    + unfold ready. cbn [truthy has_positive_length has_nodeType andb].
      apply orb_false_r.
Qed.

(** C6: a wait whose probe is not ready at any firing within a timeout
    [t >= 0] rejects with the timeout error at the first firing whose
    elapsed time exceeds [t]; that moment is later than [t] and at most one
    poll interval later than [t] after the call. *)
Theorem C6_timeout_within_one_interval
    (condition : World -> JsVal) (description : string) (t : Z) (s : State) :
  0 <= t ->
  (forall j, (1 <= j)%nat -> pollInterval * Z.of_nat j <= t ->
     ready (condition (dom (after_ticks j s))) = false) ->
  exists k s',
    waitUntil condition description t s =
      Throw {| message := timeoutMessage description t |} s' /\
    s' = after_ticks k s /\
    clock s' - clock s = pollInterval * Z.of_nat k /\
    t < clock s' - clock s <= t + pollInterval /\
    (forall j, (j < k)%nat -> pollInterval * Z.of_nat j <= t).
Proof.
  intros Ht Hnever.
  exists (firings t), (after_ticks (firings t) s).
  pose proof (firings_deadline t) as [Hlate Hsoon].
  rewrite clock_after_ticks.
  repeat split; try lia.
  - now apply waitUntil_never.
  - intros j Hj. unfold firings, pollInterval in *.
    assert (0 <= t / 250) by (apply Z.div_pos; lia).
    assert (Z.of_nat j <= t / 250) by lia.
    pose proof (Z.div_mod t 250 ltac:(lia)).
    pose proof (Z.mod_pos_bound t 250 ltac:(lia)). lia.
Qed.

End PollClaims.

(** ** Steps of the monad *)

Section Steps.
Context `{B : Browser}.

Lemma bind_Ok {A C} (m : M A) (k : A -> M C) s a s' :
  m s = Ok a s' -> bind m k s = k a s'.
Proof. intros H. unfold bind. now rewrite H. Qed.

Lemma bind_Throw {A C} (m : M A) (k : A -> M C) s e s' :
  m s = Throw e s' -> bind m k s = Throw e s'.
Proof. intros H. unfold bind. now rewrite H. Qed.

Lemma bind_OutOfFuel {A C} (m : M A) (k : A -> M C) s s' :
  m s = OutOfFuel s' -> bind m k s = OutOfFuel s'.
Proof. intros H. unfold bind. now rewrite H. Qed.

Lemma console_eq c s : console c s = Ok tt (logged c s).
Proof. reflexivity. Qed.

Lemma pause_eq ms s : pause ms s = Ok tt (paused ms s).
Proof. reflexivity. Qed.

Lemma doClick_eq e s :
  doClick e s =
  match snd (click e (dom s)) with
  | Some msg => Throw {| message := msg |} (clickedOn e s)
  | None => Ok tt (clickedOn e s)
  end.
Proof.
  unfold doClick, clickedOn. destruct (click e (dom s)) as [w [msg|]]; reflexivity.
Qed.

Lemma dom_after_ticks_logged c k s :
  dom (after_ticks k (logged c s)) = dom (after_ticks k s).
Proof.
  revert s. induction k as [|k IH]; intros s; [reflexivity|].
  cbn [after_ticks]. exact (IH (tick s)).
Qed.

(** A wait resolves with what its probe read. *)
Lemma deleteProbe_ready cfg w :
  ready (deleteProbe cfg w) = true ->
  exists b, querySelector (deleteButton (selectors cfg)) w = Some b /\
            deleteProbe cfg w = JElem b.
Proof.
  unfold deleteProbe.
  destruct (querySelector (deleteButton (selectors cfg)) w) as [b|]; [eauto|discriminate].
Qed.

Lemma confirmProbe_ready cfg w :
  ready (confirmProbe cfg w) = true ->
  exists c,
    find (fun b => String.eqb (textContent b w)
                              (confirmationButtonText (selectors cfg)))
         (querySelectorAll "button" w) = Some c /\
    confirmProbe cfg w = JElem c.
Proof.
  unfold confirmProbe.
  destruct (find _ (querySelectorAll "button" w)) as [c|]; [eauto|discriminate].
Qed.

Lemma checkboxProbe_ready cfg w :
  ready (checkboxProbe cfg w) = true ->
  querySelectorAll (checkbox (selectors cfg)) w <> [].
Proof.
  unfold checkboxProbe, ready. cbn.
  destruct (querySelectorAll (checkbox (selectors cfg)) w); [discriminate|discriminate].
Qed.

End Steps.

Section Quiet.
Context `{B : Browser}.

Lemma verdicts_app (a b : list Event) : verdicts (a ++ b) = verdicts a ++ verdicts b.
Proof. apply flat_map_app. Qed.

Lemma quiet_ret {A} (a : A) : quiet (ret a).
Proof. intros s. exists []. cbn. rewrite app_nil_r. auto. Qed.

Lemma quiet_throw {A} (e : Error) : quiet (@throw _ A e).
Proof. intros s. exists []. cbn. rewrite app_nil_r. auto. Qed.

Lemma quiet_bind {A C} (m : M A) (k : A -> M C) :
  quiet m -> (forall a, quiet (k a)) -> quiet (bind m k).
Proof.
  intros Hm Hk s. destruct (Hm s) as (evs & Ho & Hv & Ht & Hs).
  unfold bind. destruct (m s) as [a s1|e s1|s1]; cbn [stateOf] in *.
  - destruct (Hk a s1) as (evs' & Ho' & Hv' & Ht' & Hs').
    exists (evs ++ evs'). rewrite Ho', Ho, app_assoc, verdicts_app, Hv, Hv'.
    repeat split; congruence.
  - exists evs. auto.
  - exists evs. auto.
Qed.

Lemma quiet_try_catch {A} (m : M A) (h : Error -> M A) :
  quiet m -> (forall e, quiet (h e)) -> quiet (try_catch m h).
Proof.
  intros Hm Hh s. destruct (Hm s) as (evs & Ho & Hv & Ht & Hs).
  unfold try_catch. destruct (m s) as [a s1|e s1|s1]; cbn [stateOf] in *.
  - exists evs. auto.
  - destruct (Hh e s1) as (evs' & Ho' & Hv' & Ht' & Hs').
    exists (evs ++ evs'). rewrite Ho', Ho, app_assoc, verdicts_app, Hv, Hv'.
    repeat split; congruence.
  - exists evs. auto.
Qed.

Lemma quiet_pause ms : quiet (pause ms).
Proof. intros s. exists []. cbn. rewrite app_nil_r. auto. Qed.

Lemma quiet_console c : verdicts [Printed c] = [] -> quiet (console c).
Proof. intros Hc s. exists [Printed c]. cbn [console stateOf out totalDeleted stallCounter]. auto. Qed.

Lemma quiet_doClick e : quiet (doClick e).
Proof.
  intros s. exists [Clicked e]. rewrite doClick_eq.
  destruct (snd (click e (dom s))); cbn; auto.
Qed.

Lemma quiet_waitUntil condition description t :
  quiet (waitUntil condition description t).
Proof.
  intros s. exists [].
  destruct (waitUntil_cases condition description t s)
    as [[k (_ & _ & _ & _ & Heq)] | [_ Heq]]; rewrite Heq; cbn [stateOf];
    rewrite out_after_ticks, total_after_ticks, stall_after_ticks, app_nil_r; auto.
Qed.

Lemma quiet_clickValue v : quiet (clickValue v).
Proof. destruct v; try apply quiet_throw. apply quiet_doClick. Qed.

Lemma quiet_nodeList v : quiet (nodeList v).
Proof. destruct v; try apply quiet_throw. apply quiet_ret. Qed.

Lemma quiet_selectAll boxes : quiet (selectAll boxes).
Proof.
  induction boxes as [|box rest IH]; [apply quiet_ret|].
  cbn [selectAll]. apply quiet_bind; [|intros _; exact IH].
  apply quiet_try_catch; [apply quiet_doClick|].
  intros _. now apply quiet_console.
Qed.

Lemma quiet_executeDeletion cfg : quiet (executeDeletion cfg).
Proof.
  unfold executeDeletion.
  repeat (first [ apply quiet_bind; [|intros ?]
                | apply quiet_waitUntil | apply quiet_clickValue
                | apply quiet_pause | now apply quiet_console ]).
Qed.

End Quiet.

(** ** The selection loop and the deletion sequence *)

Section Sequence.
Context `{B : Browser}.

(** Every box is clicked, in order, whether or not a click throws, and
    no exception leaves the loop. *)
Lemma selectAll_total (boxes : list Elem) (s : State) :
  exists s',
    selectAll boxes s = Ok tt s' /\
    clicks (out s') = clicks (out s) ++ boxes /\
    clock s' = clock s /\ totalDeleted s' = totalDeleted s.
Proof.
  revert s. induction boxes as [|box rest IH]; intros s.
  - exists s. cbn. rewrite app_nil_r. auto.
  - cbn [selectAll]. unfold bind at 1, try_catch. rewrite doClick_eq.
    destruct (snd (click box (dom s))) as [msg|].
    + rewrite console_eq.
      destruct (IH (logged WarnCouldNotClick (clickedOn box s)))
        as (s' & Hs & Hc & Hk & Ht).
      exists s'. rewrite Hs, Hc, Hk, Ht. cbn [logged clickedOn out clock totalDeleted].
      unfold clicks. rewrite !flat_map_app. cbn. rewrite app_nil_r, <- app_assoc. auto.
    + destruct (IH (clickedOn box s)) as (s' & Hs & Hc & Hk & Ht).
      exists s'. rewrite Hs, Hc, Hk, Ht. cbn [clickedOn out clock totalDeleted].
      unfold clicks. rewrite !flat_map_app. cbn. rewrite <- app_assoc. auto.
Qed.

(** C8: once the container and a non-empty list of selectable controls
    have been found, the selection loop clicks every control of the list in
    order and ends normally whichever clicks throw; both variants then go
    on from that state with the pause and the delete-confirm sequence. *)
Theorem C8_click_failures_do_not_abort
    (cfg : Config) (s0 s1 s2 : State) (v found : JsVal) :
  waitUntil (containerProbe cfg) descContainer (timeout cfg) s0 = Ok v s1 ->
  waitUntil (checkboxProbe cfg) descCheckbox (timeout cfg) s1 = Ok found s2 ->
  exists boxes s3,
    found = JList boxes /\ boxes <> [] /\
    selectAll boxes (logged (LogFound (Z.of_nat (List.length boxes))) s2)
      = Ok tt s3 /\
    clicks (out s3) = clicks (out s0) ++ boxes /\
    Plain.tryBody cfg s0 =
      (total <- getTotal ;;
       setTotal (total + Z.of_nat (List.length boxes)) ;;
       pause selectionDelay ;;
       executeDeletion cfg) s3 /\
    StallDetect.tryBody cfg s0 =
      (pause selectionDelay ;;
       executeDeletion cfg ;;
       photoCountAfter <- StallDetect.countAfter cfg ;;
       StallDetect.stallCheck cfg (Z.of_nat (List.length boxes))
                              photoCountAfter) s3.
Proof.
  intros H1 H2.
  destruct (waitUntil_ok _ _ _ _ _ _ H1) as (k1 & _ & _ & Hs1 & _).
  destruct (waitUntil_ok _ _ _ _ _ _ H2) as (k2 & _ & _ & Hs2 & Hv & Hr & _).
  set (boxes := querySelectorAll (checkbox (selectors cfg)) (dom s2)).
  assert (Hfound : found = JList boxes) by exact Hv.
  destruct (selectAll_total boxes
              (logged (LogFound (Z.of_nat (List.length boxes))) s2))
    as (s3 & Hsel & Hclicks & _ & _).
  exists boxes, s3. repeat split.
  - exact Hfound.
  - apply (checkboxProbe_ready cfg). now rewrite <- Hv.
  - exact Hsel.
  - rewrite Hclicks. cbn [logged out]. unfold clicks at 1. rewrite flat_map_app.
    cbn. rewrite app_nil_r. fold (clicks (out s2)).
    now rewrite Hs2, out_after_ticks, Hs1, out_after_ticks.
  - unfold Plain.tryBody.
    rewrite (bind_Ok _ _ _ _ _ H1), (bind_Ok _ _ _ _ _ H2), Hfound.
    cbn [nodeList]. unfold bind at 1, ret at 1. unfold bind at 1. rewrite console_eq.
    now rewrite (bind_Ok _ _ _ _ _ Hsel).
  - unfold StallDetect.tryBody.
    rewrite (bind_Ok _ _ _ _ _ H1), (bind_Ok _ _ _ _ _ H2), Hfound.
    cbn [nodeList]. unfold bind at 1, ret at 1. unfold bind at 1. rewrite console_eq.
    now rewrite (bind_Ok _ _ _ _ _ Hsel).
Qed.

End Sequence.

Section Deletion.
Context `{B : Browser}.
Variable cfg : Config.

(** The deletion sequence when both controls show up and both clicks go
    through: the state it ends in. *)
Lemma executeDeletion_ok (s : State) (k1 k2 : nat) (b c : Elem) :
  let s0 := logged LogInitiating s in
  let s1 := logged LogClickedMain (clickedOn b (after_ticks k1 s0)) in
  waitUntil (deleteProbe cfg) descDelete (timeout cfg) s0
    = Ok (JElem b) (after_ticks k1 s0) ->
  snd (click b (dom (after_ticks k1 s0))) = None ->
  waitUntil (confirmProbe cfg) descConfirm (timeout cfg) s1
    = Ok (JElem c) (after_ticks k2 s1) ->
  snd (click c (dom (after_ticks k2 s1))) = None ->
  executeDeletion cfg s =
    Ok tt (paused (actionDelay cfg)
             (logged LogClickedConfirm (clickedOn c (after_ticks k2 s1)))).
Proof.
  intros s0 s1 H1 Hb H2 Hc. unfold executeDeletion.
  unfold bind at 1. rewrite console_eq. fold s0.
  rewrite (bind_Ok _ _ _ _ _ H1). cbn [clickValue].
  unfold bind at 1. rewrite doClick_eq, Hb.
  unfold bind at 1. rewrite console_eq. fold s1.
  rewrite (bind_Ok _ _ _ _ _ H2). cbn [clickValue].
  unfold bind at 1. rewrite doClick_eq, Hc.
  unfold bind at 1. rewrite console_eq. apply pause_eq.
Qed.

(** C9: the deletion sequence.  (1) When it succeeds it has, in this
    order, waited until the delete control was there and clicked it, waited
    until a button whose text equals the configured confirmation text was
    there and clicked it, and paused for the action delay; nothing else was
    clicked.  (2) When the delete control is absent at every firing within
    the timeout it throws the timeout error naming that control, having
    clicked nothing.  (3) When, the delete control clicked, no button with
    the confirmation text is there at any firing within the timeout, it
    throws the timeout error naming the confirmation control. *)
Theorem C9_deletion_sequence (s : State) :
  let s0 := logged LogInitiating s in
  let waited b k1 := logged LogClickedMain (clickedOn b (after_ticks k1 s0)) in
  let isConfirm w b :=
    String.eqb (textContent b w) (confirmationButtonText (selectors cfg)) in
  (forall s', executeDeletion cfg s = Ok tt s' ->
     exists k1 b k2 c,
       pollInterval * Z.of_nat k1 <= timeout cfg /\
       querySelector (deleteButton (selectors cfg)) (dom (after_ticks k1 s0))
         = Some b /\
       pollInterval * Z.of_nat k2 <= timeout cfg /\
       In c (querySelectorAll "button" (dom (after_ticks k2 (waited b k1)))) /\
       textContent c (dom (after_ticks k2 (waited b k1)))
         = confirmationButtonText (selectors cfg) /\
       s' = paused (actionDelay cfg)
              (logged LogClickedConfirm
                 (clickedOn c (after_ticks k2 (waited b k1)))) /\
       out s' = out s ++ [Printed LogInitiating; Clicked b;
                          Printed LogClickedMain; Clicked c;
                          Printed LogClickedConfirm] /\
       clock s' = clock s + pollInterval * Z.of_nat k1
                  + pollInterval * Z.of_nat k2 + actionDelay cfg)
  /\
  ((forall j, (1 <= j)%nat -> pollInterval * Z.of_nat j <= timeout cfg ->
      querySelector (deleteButton (selectors cfg)) (dom (after_ticks j s0))
        = None) ->
   exists s',
     executeDeletion cfg s =
       Throw {| message := timeoutMessage descDelete (timeout cfg) |} s' /\
     out s' = out s ++ [Printed LogInitiating])
  /\
  (forall k1 b,
     waitUntil (deleteProbe cfg) descDelete (timeout cfg) s0
       = Ok (JElem b) (after_ticks k1 s0) ->
     snd (click b (dom (after_ticks k1 s0))) = None ->
     (forall j, (1 <= j)%nat -> pollInterval * Z.of_nat j <= timeout cfg ->
        find (isConfirm (dom (after_ticks j (waited b k1))))
             (querySelectorAll "button" (dom (after_ticks j (waited b k1))))
          = None) ->
     exists s',
       executeDeletion cfg s =
         Throw {| message := timeoutMessage descConfirm (timeout cfg) |} s' /\
       out s' = out s ++ [Printed LogInitiating; Clicked b;
                          Printed LogClickedMain]).
Proof.
  intros s0 waited isConfirm. split; [|split].
  - intros s' H. unfold executeDeletion in H.
    unfold bind at 1 in H. rewrite console_eq in H. fold s0 in H.
    unfold bind at 1 in H.
    destruct (waitUntil (deleteProbe cfg) descDelete (timeout cfg) s0)
      as [v1 t1|e t1|t1] eqn:H1; try discriminate.
    destruct (waitUntil_ok _ _ _ _ _ _ H1) as (k1 & _ & Hw1 & Ht1 & Hv1 & Hr1 & _).
    rewrite Hv1 in Hr1. destruct (deleteProbe_ready _ _ Hr1) as (b & Hq & Hb).
    rewrite Hv1, Hb in H. cbn [clickValue] in H.
    unfold bind at 1 in H. rewrite doClick_eq in H.
    destruct (snd (click b (dom t1))); try discriminate.
    unfold bind at 1 in H. rewrite console_eq in H.
    unfold bind at 1 in H.
    destruct (waitUntil (confirmProbe cfg) descConfirm (timeout cfg)
                (logged LogClickedMain (clickedOn b t1)))
      as [v2 t2|e t2|t2] eqn:H2; try discriminate.
    destruct (waitUntil_ok _ _ _ _ _ _ H2) as (k2 & _ & Hw2 & Ht2 & Hv2 & Hr2 & _).
    rewrite Hv2 in Hr2. destruct (confirmProbe_ready _ _ Hr2) as (c & Hf & Hc).
    rewrite Hv2, Hc in H. cbn [clickValue] in H.
    unfold bind at 1 in H. rewrite doClick_eq in H.
    destruct (snd (click c (dom t2))); try discriminate.
    unfold bind at 1 in H. rewrite console_eq, pause_eq in H.
    injection H as <-. subst t1.
    assert (Et2 : t2 = after_ticks k2 (waited b k1)) by exact Ht2.
    destruct (find_some _ _ Hf) as [Hin Htext]. apply String.eqb_eq in Htext.
    exists k1, b, k2, c. rewrite <- Et2.
    repeat split; auto.
    + cbn [paused logged clickedOn out]. rewrite Et2.
      rewrite out_after_ticks. unfold waited. cbn [logged clickedOn out].
      rewrite out_after_ticks. unfold s0. cbn [logged out].
      now rewrite <- !app_assoc.
    + cbn [paused logged clickedOn clock]. rewrite Et2.
      rewrite clock_after_ticks. unfold waited. cbn [logged clickedOn clock].
      rewrite clock_after_ticks. unfold s0. cbn [logged clock]. lia.
  - intros Hnever.
    exists (after_ticks (firings (timeout cfg)) s0). split.
    + unfold executeDeletion. unfold bind at 1. rewrite console_eq. fold s0.
      apply bind_Throw, waitUntil_never.
      intros j Hj Hw. unfold deleteProbe. now rewrite Hnever.
    + rewrite out_after_ticks. reflexivity.
  - intros k1 b H1 Hb Hnever.
    exists (after_ticks (firings (timeout cfg)) (waited b k1)). split.
    + unfold executeDeletion. unfold bind at 1. rewrite console_eq. fold s0.
      rewrite (bind_Ok _ _ _ _ _ H1). cbn [clickValue].
      unfold bind at 1. rewrite doClick_eq, Hb.
      unfold bind at 1. rewrite console_eq.
      apply bind_Throw, waitUntil_never.
      intros j Hj Hw. unfold confirmProbe. fold (waited b k1).
      unfold isConfirm in Hnever. now rewrite Hnever.
    + rewrite out_after_ticks. unfold waited. cbn [logged clickedOn out].
      rewrite out_after_ticks. unfold s0. cbn [logged out].
      now rewrite <- !app_assoc.
Qed.

End Deletion.

(** ** The stall-detection variant, one attempt at a time *)

Section Attempt.
Context `{B : Browser}.
Variable cfg : Config.

Lemma dom_after_ticks k s : dom (after_ticks k s) = ticks k (dom s).
Proof.
  revert s. induction k as [|k IH]; intros s; [reflexivity|].
  cbn [after_ticks ticks]. now rewrite IH.
Qed.

Lemma ticks_add j k w : ticks (j + k) w = ticks k (ticks j w).
Proof. revert w. induction j as [|j IH]; intros w; [reflexivity|]. cbn [ticks Nat.add]. apply IH. Qed.

Lemma quiet_upToDeletion : quiet (StallDetect.upToDeletion cfg).
Proof.
  unfold StallDetect.upToDeletion.
  repeat (first [ apply quiet_executeDeletion | apply quiet_selectAll
                | apply quiet_waitUntil | apply quiet_nodeList
                | apply quiet_pause | apply quiet_ret
                | now apply quiet_console
                | apply quiet_bind; [|intros ?] ]).
Qed.

Lemma quiet_countAfter : quiet (StallDetect.countAfter cfg).
Proof.
  unfold StallDetect.countAfter.
  apply quiet_try_catch; [|intros ?; apply quiet_ret].
  repeat (first [ apply quiet_bind; [|intros ?]
                | apply quiet_waitUntil | apply quiet_nodeList
                | apply quiet_ret ]).
Qed.

Lemma quiet_measured : quiet (StallDetect.measured cfg).
Proof.
  unfold StallDetect.measured.
  apply quiet_bind; [apply quiet_upToDeletion|intros ?].
  apply quiet_bind; [apply quiet_countAfter|intros ?]. apply quiet_ret.
Qed.

(** The body of [try] is the measuring part followed by the comparison. *)
Lemma tryBody_measured s :
  StallDetect.tryBody cfg s =
  (p <- StallDetect.measured cfg ;;
   StallDetect.stallCheck cfg (fst p) (snd p)) s.
Proof.
  unfold StallDetect.tryBody, StallDetect.measured, StallDetect.upToDeletion.
  unfold bind, ret.
  repeat match goal with
         | |- context [match ?x with Ok _ _ => _ | Throw _ _ => _ | OutOfFuel _ => _ end] =>
             destruct x
         end; reflexivity.
Qed.

(** The count before the deletion is that of a non-empty list. *)
Lemma upToDeletion_positive s n s' :
  StallDetect.upToDeletion cfg s = Ok n s' -> 0 < n.
Proof.
  unfold StallDetect.upToDeletion. intros H.
  unfold bind at 1 in H.
  destruct (waitUntil (containerProbe cfg) descContainer (timeout cfg) s)
    as [v1 s1|e s1|s1]; try discriminate.
  unfold bind at 1 in H.
  destruct (waitUntil (checkboxProbe cfg) descCheckbox (timeout cfg) s1)
    as [found s2|e s2|s2] eqn:H2; try discriminate.
  destruct (waitUntil_ok _ _ _ _ _ _ H2) as (k & _ & _ & _ & Hv & Hr & _).
  rewrite Hv in Hr. apply checkboxProbe_ready in Hr.
  rewrite Hv in H. cbn [checkboxProbe nodeList] in H.
  unfold bind at 1, ret at 1 in H.
  set (boxes := querySelectorAll (checkbox (selectors cfg)) (dom s2)) in *.
  unfold bind in H.
  destruct (console _ s2); try discriminate.
  destruct (selectAll boxes s0); try discriminate.
  destruct (pause selectionDelay s3); try discriminate.
  destruct (executeDeletion cfg s4); try discriminate.
  unfold ret in H. injection H as <- _.
  destruct boxes; [congruence|]. cbn [List.length]. lia.
Qed.

(** The comparison, case by case. *)
Lemma stallCheck_decreased before after s :
  after < before ->
  StallDetect.stallCheck cfg before after s =
    Ok tt (logged (LogBatchDeleted (before - after)
                                   (totalDeleted s + (before - after)))
             (withCounters (totalDeleted s + (before - after)) 0 s)).
Proof.
  intros Hlt. unfold StallDetect.stallCheck.
  replace (after >=? before) with false by (symmetry; rewrite Z.geb_leb; apply Z.leb_gt; lia).
  reflexivity.
Qed.

Lemma stallCheck_stalled before after s :
  before <= after ->
  StallDetect.stallCheck cfg before after s =
    let s' := logged (WarnStall (stallCounter s + 1) (stallLimit cfg))
                (withCounters (totalDeleted s) (stallCounter s + 1) s) in
    if stallCounter s + 1 >=? stallLimit cfg
    then Throw {| message := StallDetect.stallMessage |} s'
    else Ok tt s'.
Proof.
  intros Hle. unfold StallDetect.stallCheck.
  replace (after >=? before) with true by (symmetry; rewrite Z.geb_leb; apply Z.leb_le; lia).
  unfold bind, getStall, setStall, console, logged, withCounters.
  cbn [stallCounter clock dom out totalDeleted].
  destruct (stallCounter s + 1 >=? stallLimit cfg); reflexivity.
Qed.

Lemma iteration_of_tryBody s :
  StallDetect.iteration cfg s =
  match StallDetect.tryBody cfg s with
  | Ok _ s' => Ok true s'
  | Throw e s' => (StallDetect.onError e ;; ret false) s'
  | OutOfFuel s' => OutOfFuel s'
  end.
Proof.
  unfold StallDetect.iteration, try_catch. unfold bind at 1.
  destruct (StallDetect.tryBody cfg s); reflexivity.
Qed.

End Attempt.

(** ** The stall-detection loop *)

Section StallLoop.
Context `{B : Browser}.
Variable cfg : Config.

(** An attempt whose count decreased: the loop goes on, the counter at 0
    and the decrease added to the total. *)
Lemma iteration_decreased s before after s1 :
  StallDetect.measured cfg s = Ok (before, after) s1 ->
  after < before ->
  StallDetect.iteration cfg s =
    Ok true (logged (LogBatchDeleted (before - after)
                                     (totalDeleted s + (before - after)))
               (withCounters (totalDeleted s + (before - after)) 0 s1)).
Proof.
  intros Hm Hlt.
  rewrite iteration_of_tryBody, tryBody_measured, (bind_Ok _ _ _ _ _ Hm).
  cbn [fst snd]. rewrite stallCheck_decreased by assumption.
  destruct (quiet_measured cfg s) as (evs & _ & _ & Ht & _).
  rewrite Hm in Ht. cbn [stateOf] in Ht. now rewrite Ht.
Qed.

(** An attempt whose count did not decrease. *)
Lemma iteration_stalled s before after s1 :
  StallDetect.measured cfg s = Ok (before, after) s1 ->
  before <= after ->
  let s' := logged (WarnStall (stallCounter s + 1) (stallLimit cfg))
              (withCounters (totalDeleted s) (stallCounter s + 1) s1) in
  StallDetect.iteration cfg s =
    if stallCounter s + 1 >=? stallLimit cfg
    then Ok false (logged LogRefreshHint
                     (logged (ErrHalted StallDetect.stallMessage) s'))
    else Ok true s'.
Proof.
  intros Hm Hle.
  rewrite iteration_of_tryBody, tryBody_measured, (bind_Ok _ _ _ _ _ Hm).
  cbn [fst snd]. rewrite stallCheck_stalled by assumption.
  destruct (quiet_measured cfg s) as (evs & _ & _ & Ht & Hs).
  rewrite Hm in Ht, Hs. cbn [stateOf] in Ht, Hs. rewrite Ht, Hs. cbv zeta.
  destruct (stallCounter s + 1 >=? stallLimit cfg); reflexivity.
Qed.

(** An attempt that threw before the comparison: the [catch] ends the
    loop, as done or as halted. *)
Lemma iteration_threw s e s1 :
  StallDetect.measured cfg s = Throw e s1 ->
  StallDetect.iteration cfg s =
    Ok false (if includes (message e) "any selectable photo"
              then logged LogMissionAccomplished s1
              else logged LogRefreshHint (logged (ErrHalted (message e)) s1)).
Proof.
  intros Hm.
  rewrite iteration_of_tryBody, tryBody_measured, (bind_Throw _ _ _ _ _ Hm).
  unfold StallDetect.onError, bind.
  destruct (includes (message e) "any selectable photo"); reflexivity.
Qed.

Lemma onError_quiet e : quiet (StallDetect.onError e).
Proof.
  unfold StallDetect.onError.
  destruct (includes (message e) "any selectable photo").
  - now apply quiet_console.
  - apply quiet_bind; [|intros ?]; now apply quiet_console.
Qed.

Lemma loop_step fuel s :
  StallDetect.loop cfg (S fuel) s =
  match StallDetect.iteration cfg s with
  | Ok true s' => StallDetect.loop cfg fuel s'
  | Ok false s' => Ok tt s'
  | Throw e s' => Throw e s'
  | OutOfFuel s' => OutOfFuel s'
  end.
Proof.
  cbn [StallDetect.loop]. unfold bind.
  destruct (StallDetect.iteration cfg s) as [[|] s'|e s'|s']; reflexivity.
Qed.

(** What the loop prints. *)
Lemma loop_prints fuel s :
  0 <= stallCounter s ->
  exists evs,
    out (stateOf (StallDetect.loop cfg fuel s)) = out s ++ evs /\
    loop_trace (stallLimit cfg) (stallCounter s) evs
               (finished (StallDetect.loop cfg fuel s)).
Proof.
  revert s. induction fuel as [|fuel IH]; intros s Hc.
  - exists []. cbn. rewrite app_nil_r. split; [reflexivity|]. now apply trace_end.
  - rewrite loop_step.
    destruct (quiet_measured cfg s) as (evs & Ho & Hv & Ht & Hs).
    destruct (StallDetect.measured cfg s) as [[before after] s1|e s1|s1] eqn:Hm;
      cbn [stateOf] in Ho, Ht, Hs.
    + destruct (Z_lt_le_dec after before) as [Hlt|Hle].
      * rewrite (iteration_decreased _ _ _ _ Hm Hlt).
        set (s2 := logged _ _).
        destruct (IH s2) as (rest & Ho2 & Htr); [cbn; lia|].
        exists (evs ++ Printed (LogBatchDeleted (before - after)
                   (totalDeleted s + (before - after))) :: rest).
        split.
        -- rewrite Ho2. unfold s2. cbn [logged withCounters out].
           rewrite Ho, <- !app_assoc. reflexivity.
        -- apply trace_progress; [exact Hv|exact Htr].
      * rewrite (iteration_stalled _ _ _ _ Hm Hle). cbv zeta.
        destruct (stallCounter s + 1 >=? stallLimit cfg) eqn:Hlim.
        -- exists (evs ++ [Printed (WarnStall (stallCounter s + 1) (stallLimit cfg));
                           Printed (ErrHalted StallDetect.stallMessage);
                           Printed LogRefreshHint]).
           split.
           ++ cbn [stateOf logged withCounters out].
              rewrite Ho, <- !app_assoc. reflexivity.
           ++ cbn [finished]. apply trace_halt; [exact Hv|].
              rewrite Z.geb_leb in Hlim. apply Z.leb_le in Hlim. lia.
        -- set (s2 := logged _ _).
           destruct (IH s2) as (rest & Ho2 & Htr); [cbn; lia|].
           exists (evs ++ Printed (WarnStall (stallCounter s + 1) (stallLimit cfg)) :: rest).
           split.
           ++ rewrite Ho2. unfold s2. cbn [logged withCounters out].
              rewrite Ho, <- !app_assoc. reflexivity.
           ++ apply trace_stall; [exact Hv| |exact Htr].
              rewrite Z.geb_leb in Hlim. apply Z.leb_gt in Hlim. lia.
    + rewrite (iteration_threw _ _ _ Hm). cbn [stateOf finished].
      destruct (includes (message e) "any selectable photo").
      * exists (evs ++ [Printed LogMissionAccomplished]). split.
        -- cbn [logged out]. now rewrite Ho, <- app_assoc.
        -- apply trace_end. now rewrite verdicts_app, Hv.
      * exists (evs ++ [Printed (ErrHalted (message e)); Printed LogRefreshHint]).
        split.
        -- cbn [logged out]. now rewrite Ho, <- !app_assoc.
        -- apply trace_end. now rewrite verdicts_app, Hv.
    + rewrite iteration_of_tryBody, tryBody_measured, (bind_OutOfFuel _ _ _ _ Hm).
      exists evs. cbn [stateOf finished]. split; [exact Ho|]. now apply trace_end.
Qed.

Lemma comparisons_step fuel s :
  comparisons cfg (S fuel) s =
  match StallDetect.iteration cfg s with
  | Ok true s' =>
      match StallDetect.measured cfg s with Ok c _ => Some c | _ => None end
      :: comparisons cfg fuel s'
  | _ => [match StallDetect.measured cfg s with Ok c _ => Some c | _ => None end]
  end.
Proof. reflexivity. Qed.

(** The verdicts the loop prints are the outcomes of its comparisons, one
    for one and in order: a stall warning for an attempt whose count did
    not decrease, a batch message for one whose count did. *)
Lemma loop_counts fuel s :
  exists evs,
    out (stateOf (StallDetect.loop cfg fuel s)) = out s ++ evs /\
    verdicts evs = stalled (comparisons cfg fuel s).
Proof.
  revert s. induction fuel as [|fuel IH]; intros s.
  - exists []. cbn. now rewrite app_nil_r.
  - rewrite loop_step, comparisons_step.
    destruct (quiet_measured cfg s) as (evs & Ho & Hv & _ & _).
    destruct (StallDetect.measured cfg s) as [[before after] s1|e s1|s1] eqn:Hm;
      cbn [stateOf] in Ho.
    + destruct (Z_lt_le_dec after before) as [Hlt|Hle].
      * rewrite (iteration_decreased _ _ _ _ Hm Hlt).
        set (s2 := logged _ _).
        destruct (IH s2) as (rest & Ho2 & Hv2).
        exists (evs ++ Printed (LogBatchDeleted (before - after)
                   (totalDeleted s + (before - after))) :: rest).
        split.
        -- rewrite Ho2. unfold s2. cbn [logged withCounters out].
           rewrite Ho, <- !app_assoc. reflexivity.
        -- rewrite verdicts_app, Hv. cbn [app verdicts flat_map stalled].
           fold (verdicts rest). rewrite Hv2.
           replace (after >=? before) with false
             by (symmetry; rewrite Z.geb_leb; apply Z.leb_gt; lia).
           reflexivity.
      * pose proof (iteration_stalled _ _ _ _ Hm Hle) as Hit. cbv zeta in Hit.
        rewrite Hit.
        assert (Hge : (after >=? before) = true)
          by (rewrite Z.geb_leb; apply Z.leb_le; lia).
        destruct (stallCounter s + 1 >=? stallLimit cfg).
        -- exists (evs ++ [Printed (WarnStall (stallCounter s + 1) (stallLimit cfg));
                           Printed (ErrHalted StallDetect.stallMessage);
                           Printed LogRefreshHint]).
           split.
           ++ cbn [stateOf logged withCounters out].
              rewrite Ho, <- !app_assoc. reflexivity.
           ++ rewrite verdicts_app, Hv. cbn. now rewrite Hge.
        -- set (s2 := logged _ _).
           destruct (IH s2) as (rest & Ho2 & Hv2).
           exists (evs ++ Printed (WarnStall (stallCounter s + 1) (stallLimit cfg))
                       :: rest).
           split.
           ++ rewrite Ho2. unfold s2. cbn [logged withCounters out].
              rewrite Ho, <- !app_assoc. reflexivity.
           ++ rewrite verdicts_app, Hv. cbn [app verdicts flat_map stalled].
              fold (verdicts rest). rewrite Hv2, Hge. reflexivity.
    + rewrite (iteration_threw _ _ _ Hm). cbn [stateOf stalled flat_map app].
      destruct (includes (message e) "any selectable photo").
      * exists (evs ++ [Printed LogMissionAccomplished]). split.
        -- cbn [logged out]. now rewrite Ho, <- app_assoc.
        -- now rewrite verdicts_app, Hv.
      * exists (evs ++ [Printed (ErrHalted (message e)); Printed LogRefreshHint]).
        split.
        -- cbn [logged out]. now rewrite Ho, <- !app_assoc.
        -- now rewrite verdicts_app, Hv.
    + rewrite iteration_of_tryBody, tryBody_measured, (bind_OutOfFuel _ _ _ _ Hm).
      exists evs. cbn [stateOf stalled flat_map app]. split; [exact Ho|exact Hv].
Qed.

End StallLoop.

(** ** Runs of stalls in a sequence of verdicts *)

Lemma runs_nil (l1 l2 : list bool) (k : nat) :
  [] = l1 ++ repeat true k ++ l2 -> l1 = [] /\ k = 0%nat /\ l2 = [].
Proof.
  destruct l1; [|discriminate]. destruct k; [|discriminate].
  cbn. intros <-. auto.
Qed.

Lemma runs_cons (x : bool) (v l1 l2 : list bool) (k : nat) :
  x :: v = l1 ++ repeat true k ++ l2 ->
  (l1 = [] /\ k = 0%nat /\ l2 = x :: v) \/
  (l1 = [] /\ x = true /\ exists k', k = S k' /\ v = repeat true k' ++ l2) \/
  (exists l1', l1 = x :: l1' /\ v = l1' ++ repeat true k ++ l2).
Proof.
  destruct l1 as [|y l1].
  - destruct k as [|k]; cbn.
    + intros <-. now left.
    + intros H. injection H as -> ->. right. left. eauto.
  - cbn. intros H. injection H as -> ->. right. right. eauto.
Qed.

Section StallClaims.
Context `{B : Browser}.

Lemma loop_trace_bound limit c evs ended :
  loop_trace limit c evs ended -> 0 <= c < limit ->
  forall l1 k l2, verdicts evs = l1 ++ repeat true k ++ l2 ->
    (l1 = [] -> c + Z.of_nat k <= limit) /\
    Z.of_nat k <= limit /\
    ((Z.of_nat k = limit \/
      (l1 = [] /\ (1 <= k)%nat /\ c + Z.of_nat k = limit)) ->
     l2 = [] /\ ended = true /\
     exists pre, evs = pre ++ [Printed (WarnStall limit limit);
                               Printed (ErrHalted StallDetect.stallMessage);
                               Printed LogRefreshHint]).
Proof.
  induction 1 as [c evs ended Hv
                 |c evs rest ended Hv Hlt Hrest IH
                 |c evs Hv Hge
                 |c evs n total rest ended Hv Hrest IH];
    intros Hc l1 k l2 Heq.
  - rewrite Hv in Heq. destruct (runs_nil _ _ _ Heq) as (-> & -> & ->).
    cbn. split; [lia|]. split; [lia|]. intros [H|(_ & H & _)]; lia.
  - rewrite verdicts_app, Hv in Heq. cbn in Heq.
    destruct (runs_cons _ _ _ _ _ Heq)
      as [(-> & -> & ->) | [(-> & _ & k' & -> & Hk') | (l1' & -> & Hk')]].
    + cbn. split; [lia|]. split; [lia|]. intros [H|(_ & H & _)]; lia.
    + destruct (IH ltac:(lia) [] k' l2 Hk') as (Ha & Hb & Hhalt).
      specialize (Ha eq_refl). rewrite Nat2Z.inj_succ.
      split; [lia|]. split; [lia|]. intros Hpre.
      destruct Hhalt as (-> & -> & pre & ->).
      { right. split; [reflexivity|]. destruct k'; cbn in *; lia. }
      split; [reflexivity|]. split; [reflexivity|].
      exists (evs ++ Printed (WarnStall (c + 1) limit) :: pre).
      now rewrite <- app_assoc.
    + destruct (IH ltac:(lia) l1' k l2 Hk') as (_ & Hb & Hhalt).
      split; [discriminate|]. split; [exact Hb|].
      intros [Hk|(Hnil & _)]; [|discriminate].
      destruct (Hhalt (or_introl Hk)) as (-> & -> & pre & ->).
      split; [reflexivity|]. split; [reflexivity|].
      exists (evs ++ Printed (WarnStall (c + 1) limit) :: pre).
      now rewrite <- app_assoc.
  - rewrite verdicts_app, Hv in Heq. cbn in Heq.
    destruct (runs_cons _ _ _ _ _ Heq)
      as [(-> & -> & ->) | [(-> & _ & k' & -> & Hk') | (l1' & -> & Hk')]].
    + cbn. split; [lia|]. split; [lia|]. intros [H|(_ & H & _)]; lia.
    + destruct (runs_nil [] _ _ Hk') as (_ & -> & ->).
      cbn. split; [lia|]. split; [lia|]. intros _.
      split; [reflexivity|]. split; [reflexivity|].
      exists evs. replace (c + 1) with limit by lia. reflexivity.
    + destruct (runs_nil _ _ _ Hk') as (-> & -> & ->).
      cbn. split; [discriminate|]. split; [lia|].
      intros [H|(H & _)]; [lia|discriminate].
  - rewrite verdicts_app, Hv in Heq. cbn in Heq.
    destruct (runs_cons _ _ _ _ _ Heq)
      as [(-> & -> & ->) | [(-> & Hx & _) | (l1' & -> & Hk')]].
    + cbn. split; [lia|]. split; [lia|]. intros [H|(_ & H & _)]; lia.
    + discriminate.
    + destruct (IH ltac:(lia) l1' k l2 Hk') as (_ & Hb & Hhalt).
      split; [discriminate|]. split; [exact Hb|].
      intros [Hk|(Hnil & _)]; [|discriminate].
      destruct (Hhalt (or_introl Hk)) as (-> & -> & pre & ->).
      split; [reflexivity|]. split; [reflexivity|].
      exists (evs ++ Printed (LogBatchDeleted n total) :: pre).
      now rewrite <- app_assoc.
Qed.

End StallClaims.

Section StallTheorems.
Context `{B : Browser}.
Variable cfg : Config.

Lemma run_unfold fuel s :
  StallDetect.runPhotoDeleter cfg fuel s =
  match StallDetect.loop cfg fuel
          (logged WarnSafety (logged LogInitialized (withCounters 0 0 s))) with
  | Ok _ s' => Ok tt (logged (LogFinished (totalDeleted s')) s')
  | Throw e s' => Throw e s'
  | OutOfFuel s' => OutOfFuel s'
  end.
Proof.
  unfold StallDetect.runPhotoDeleter, bind, setTotal, setStall, console,
    getTotal, logged, withCounters.
  cbn [clock dom out totalDeleted stallCounter].
  destruct (StallDetect.loop cfg fuel _); reflexivity.
Qed.

(** C2: in any run of the stall-detection variant, cut short or not, take
    the counts the loop compared, attempt by attempt.  The console shows
    their outcomes one for one: a stall warning for every attempt whose
    count did not decrease, a batch message for every other.  No more than
    [stallLimit] attempts in a row have a count that did not decrease; and
    when [stallLimit] in a row have, the last of them is the last attempt
    of the run: the loop halts there, the halt messages and the final
    total come next and the run is over. *)
Theorem C2_stall_limit_halts (fuel : nat) (s : State) :
  1 <= stallLimit cfg ->
  let s0 := logged WarnSafety (logged LogInitialized (withCounters 0 0 s)) in
  let stalls := stalled (comparisons cfg fuel s0) in
  exists evs,
    out (stateOf (StallDetect.runPhotoDeleter cfg fuel s)) = out s ++ evs /\
    verdicts evs = stalls /\
    forall l1 k l2,
      stalls = l1 ++ repeat true k ++ l2 ->
      Z.of_nat k <= stallLimit cfg /\
      (Z.of_nat k = stallLimit cfg ->
       l2 = [] /\
       exists pre s',
         StallDetect.runPhotoDeleter cfg fuel s = Ok tt s' /\
         evs = pre ++ [Printed (WarnStall (stallLimit cfg) (stallLimit cfg));
                       Printed (ErrHalted StallDetect.stallMessage);
                       Printed LogRefreshHint;
                       Printed (LogFinished (totalDeleted s'))]).
Proof.
  intros Hlimit s0 stalls. rewrite run_unfold. fold s0.
  destruct (loop_prints cfg fuel s0) as (evs & Ho & Htr); [cbn; lia|].
  destruct (loop_counts cfg fuel s0) as (evs' & Ho' & Hcounts).
  assert (evs' = evs) by (apply (app_inv_head (out s0)); congruence).
  subst evs'. fold stalls in Hcounts.
  change (stallCounter s0) with 0 in Htr.
  pose proof (loop_trace_bound _ _ _ _ Htr ltac:(lia)) as Hbound.
  assert (Hout0 : out s0 = out s ++ [Printed LogInitialized; Printed WarnSafety]).
  { unfold s0. cbn [logged withCounters out]. now rewrite <- app_assoc. }
  destruct (StallDetect.loop cfg fuel s0) as [[] s'|e s'|s'];
    cbn [stateOf finished] in Ho, Htr, Hbound.
  - exists ([Printed LogInitialized; Printed WarnSafety] ++ evs
              ++ [Printed (LogFinished (totalDeleted s'))]).
    split; [|split].
    + cbn [stateOf logged out]. rewrite Ho, Hout0, <- !app_assoc. reflexivity.
    + rewrite !verdicts_app. cbn. now rewrite app_nil_r.
    + intros l1 k l2 Heq. rewrite <- Hcounts in Heq.
      destruct (Hbound l1 k l2 Heq) as (_ & Hk & Hhalt).
      split; [exact Hk|]. intros Hfull.
      destruct (Hhalt (or_introl Hfull)) as (-> & _ & pre & ->).
      split; [reflexivity|].
      exists ([Printed LogInitialized; Printed WarnSafety] ++ pre), (logged (LogFinished (totalDeleted s')) s').
      split; [reflexivity|]. cbn [logged totalDeleted].
      rewrite <- !app_assoc. reflexivity.
  - exists ([Printed LogInitialized; Printed WarnSafety] ++ evs). split; [|split].
    + cbn [stateOf]. rewrite Ho, Hout0, <- !app_assoc. reflexivity.
    + rewrite verdicts_app. exact Hcounts.
    + intros l1 k l2 Heq. rewrite <- Hcounts in Heq.
      destruct (Hbound l1 k l2 Heq) as (_ & Hk & Hhalt).
      split; [exact Hk|]. intros Hfull.
      destruct (Hhalt (or_introl Hfull)) as (_ & Hended & _). discriminate.
  - exists ([Printed LogInitialized; Printed WarnSafety] ++ evs). split; [|split].
    + cbn [stateOf]. rewrite Ho, Hout0, <- !app_assoc. reflexivity.
    + rewrite verdicts_app. exact Hcounts.
    + intros l1 k l2 Heq. rewrite <- Hcounts in Heq.
      destruct (Hbound l1 k l2 Heq) as (_ & Hk & Hhalt).
      split; [exact Hk|]. intros Hfull.
      destruct (Hhalt (or_introl Hfull)) as (_ & Hended & _). discriminate.
Qed.

(** C7: an attempt of the stall-detection variant whose count after the
    deletion is smaller than the count before ends with the stall counter
    at 0 and the difference added to the total, and the loop goes on. *)
Theorem C7_decrease_resets_and_credits
    (s s1 : State) (before after : Z) :
  StallDetect.measured cfg s = Ok (before, after) s1 ->
  after < before ->
  exists s',
    StallDetect.iteration cfg s = Ok true s' /\
    stallCounter s' = 0 /\
    totalDeleted s' = totalDeleted s + (before - after) /\
    out s' = out s1 ++ [Printed (LogBatchDeleted (before - after)
                                  (totalDeleted s + (before - after)))].
Proof.
  intros Hm Hlt. eexists. split.
  - apply (iteration_decreased cfg _ _ _ _ Hm Hlt).
  - repeat split.
Qed.

(** C10: when the re-poll after the deletion times out, the error stays
    inside the attempt: the count after is taken to be 0, the loop goes on,
    the stall counter is 0 and the whole count found before the deletion
    is added to the total. *)
Theorem C10_verification_timeout_counts_as_success
    (s s3 s4 : State) (before : Z) (e : Error) :
  StallDetect.upToDeletion cfg s = Ok before s3 ->
  waitUntil (checkboxProbe cfg) descCheckbox verifyTimeout s3 = Throw e s4 ->
  StallDetect.countAfter cfg s3 = Ok 0 s4 /\
  exists s',
    StallDetect.iteration cfg s = Ok true s' /\
    stallCounter s' = 0 /\
    totalDeleted s' = totalDeleted s + before /\
    out s' = out s4 ++ [Printed (LogBatchDeleted before
                                  (totalDeleted s + before))].
Proof.
  intros Hup Hwait.
  assert (Hcount : StallDetect.countAfter cfg s3 = Ok 0 s4).
  { unfold StallDetect.countAfter, try_catch.
    now rewrite (bind_Throw _ _ _ _ _ Hwait). }
  split; [exact Hcount|].
  assert (Hm : StallDetect.measured cfg s = Ok (before, 0) s4).
  { unfold StallDetect.measured.
    rewrite (bind_Ok _ _ _ _ _ Hup), (bind_Ok _ _ _ _ _ Hcount). reflexivity. }
  pose proof (upToDeletion_positive cfg _ _ _ Hup) as Hpos.
  eexists. split.
  - apply (iteration_decreased cfg _ _ _ _ Hm Hpos).
  - rewrite Z.sub_0_r. repeat split.
Qed.

End StallTheorems.

(** ** Errors at the outer [catch], and the empty page *)

Section OuterCatch.
Context `{B : Browser}.
Variable cfg : Config.

Lemma plain_iteration_of_tryBody s :
  Plain.iteration cfg s =
  match Plain.tryBody cfg s with
  | Ok _ s' => Ok true s'
  | Throw _ s' => Ok false (logged LogMissionAccomplished s')
  | OutOfFuel s' => OutOfFuel s'
  end.
Proof.
  unfold Plain.iteration, try_catch. unfold bind at 1.
  destruct (Plain.tryBody cfg s); reflexivity.
Qed.

Lemma plain_loop_step fuel s :
  Plain.loop cfg (S fuel) s =
  match Plain.iteration cfg s with
  | Ok true s' => Plain.loop cfg fuel s'
  | Ok false s' => Ok tt s'
  | Throw e s' => Throw e s'
  | OutOfFuel s' => OutOfFuel s'
  end.
Proof.
  cbn [Plain.loop]. unfold bind.
  destruct (Plain.iteration cfg s) as [[|] s'|e s'|s']; reflexivity.
Qed.

Lemma plain_run_unfold fuel s :
  Plain.runPhotoDeleter cfg fuel s =
  match Plain.loop cfg fuel
          (logged WarnSafety
             (logged LogInitialized (withCounters 0 (stallCounter s) s))) with
  | Ok _ s' => Ok tt (logged (LogFinished (totalDeleted s')) s')
  | Throw e s' => Throw e s'
  | OutOfFuel s' => OutOfFuel s'
  end.
Proof.
  unfold Plain.runPhotoDeleter, bind, setTotal, console, getTotal, logged,
    withCounters.
  cbn [clock dom out totalDeleted stallCounter].
  destruct (Plain.loop cfg fuel _); reflexivity.
Qed.

(** The plain loop ends as done on any error of the body. *)
Lemma plain_loop_threw fuel s e s1 :
  Plain.tryBody cfg s = Throw e s1 ->
  Plain.loop cfg (S fuel) s = Ok tt (logged LogMissionAccomplished s1).
Proof.
  intros H. now rewrite plain_loop_step, plain_iteration_of_tryBody, H.
Qed.

(** The stall-detection loop ends on any error of the body, as done or
    as halted according to the message. *)
Lemma stall_loop_threw fuel s e s1 :
  StallDetect.tryBody cfg s = Throw e s1 ->
  StallDetect.loop cfg (S fuel) s =
    Ok tt (if includes (message e) "any selectable photo"
           then logged LogMissionAccomplished s1
           else logged LogRefreshHint (logged (ErrHalted (message e)) s1)).
Proof.
  intros H. rewrite loop_step, iteration_of_tryBody, H.
  unfold StallDetect.onError, bind.
  destruct (includes (message e) "any selectable photo"); reflexivity.
Qed.


(** On a page where no selectable control ever shows, the body of the
    plain loop throws without having printed or counted anything. *)
Lemma plain_tryBody_empty s :
  (forall j, querySelectorAll (checkbox (selectors cfg)) (ticks j (dom s)) = []) ->
  exists e s1, Plain.tryBody cfg s = Throw e s1 /\
               out s1 = out s /\ totalDeleted s1 = totalDeleted s.
Proof.
  intros Hempty. unfold Plain.tryBody. unfold bind at 1.
  destruct (waitUntil_cases (containerProbe cfg) descContainer (timeout cfg) s)
    as [[k (_ & _ & _ & _ & Heq)] | [_ Heq]]; rewrite Heq.
  - eexists _, _. split.
    + apply bind_Throw, waitUntil_never. intros j _ _.
      rewrite dom_after_ticks, dom_after_ticks, <- ticks_add.
      unfold checkboxProbe. now rewrite Hempty.
    + now rewrite !out_after_ticks, !total_after_ticks.
  - eexists _, _. split; [reflexivity|].
    now rewrite !out_after_ticks, !total_after_ticks.
Qed.

(** The same for the stall-detection variant when the container shows
    within the timeout: the error is the timeout of the wait for selectable
    controls. *)
Lemma stall_tryBody_empty s k :
  (forall j, querySelectorAll (checkbox (selectors cfg)) (ticks j (dom s)) = []) ->
  (1 <= k)%nat -> pollInterval * Z.of_nat k <= timeout cfg ->
  querySelector (photoContainer (selectors cfg)) (ticks k (dom s)) <> None ->
  exists s1,
    StallDetect.tryBody cfg s =
      Throw {| message := timeoutMessage descCheckbox (timeout cfg) |} s1 /\
    out s1 = out s /\ totalDeleted s1 = totalDeleted s.
Proof.
  intros Hempty Hk Hw Hcontainer. unfold StallDetect.tryBody.
  destruct (waitUntil_finds (containerProbe cfg) descContainer (timeout cfg) s k)
    as (k' & _ & _ & Heq); auto.
  { rewrite dom_after_ticks. unfold containerProbe.
    destruct (querySelector _ _); [reflexivity|congruence]. }
  rewrite (bind_Ok _ _ _ _ _ Heq).
  eexists. split.
  - apply bind_Throw, waitUntil_never. intros j _ _.
    rewrite dom_after_ticks, dom_after_ticks, <- ticks_add.
    unfold checkboxProbe. now rewrite Hempty.
  - now rewrite !out_after_ticks, !total_after_ticks.
Qed.

(** The stall-detection variant when the container shows at no firing
    within the timeout: the error is the timeout of the wait for the
    container. *)
Lemma stall_tryBody_no_container s :
  (forall k, (1 <= k)%nat -> pollInterval * Z.of_nat k <= timeout cfg ->
     querySelector (photoContainer (selectors cfg)) (ticks k (dom s)) = None) ->
  exists s1,
    StallDetect.tryBody cfg s =
      Throw {| message := timeoutMessage descContainer (timeout cfg) |} s1 /\
    out s1 = out s /\ totalDeleted s1 = totalDeleted s.
Proof.
  intros Hnone. eexists. split.
  - unfold StallDetect.tryBody. apply bind_Throw, waitUntil_never.
    intros j Hj Hw. rewrite dom_after_ticks. unfold containerProbe.
    now rewrite Hnone.
  - now rewrite out_after_ticks, total_after_ticks.
Qed.

(** C5, as the code has it: on a page where no selectable control ever
    shows, both variants come to their end with a total of 0.  The plain
    variant ends done.  The stall-detection variant ends done when the
    container shows at some firing within the timeout of its wait, and
    halted, with the timeout message of that wait, when it shows at
    none. *)
Theorem C5_empty_page (fuel : nat) (s : State) :
  (forall j, querySelectorAll (checkbox (selectors cfg)) (ticks j (dom s)) = []) ->
  (exists s',
     Plain.runPhotoDeleter cfg (S fuel) s = Ok tt s' /\
     totalDeleted s' = 0 /\
     out s' = out s ++ [Printed LogInitialized; Printed WarnSafety;
                        Printed LogMissionAccomplished;
                        Printed (LogFinished 0)])
  /\
  (exists s',
     StallDetect.runPhotoDeleter cfg (S fuel) s = Ok tt s' /\
     totalDeleted s' = 0 /\
     (((exists k, (1 <= k)%nat /\ pollInterval * Z.of_nat k <= timeout cfg /\
          querySelector (photoContainer (selectors cfg)) (ticks k (dom s))
            <> None) /\
       out s' = out s ++ [Printed LogInitialized; Printed WarnSafety;
                          Printed LogMissionAccomplished;
                          Printed (LogFinished 0)])
      \/
      ((forall k, (1 <= k)%nat -> pollInterval * Z.of_nat k <= timeout cfg ->
          querySelector (photoContainer (selectors cfg)) (ticks k (dom s))
            = None) /\
       out s' = out s ++ [Printed LogInitialized; Printed WarnSafety;
                          Printed (ErrHalted (timeoutMessage descContainer
                                                             (timeout cfg)));
                          Printed LogRefreshHint;
                          Printed (LogFinished 0)]))).
Proof.
  intros Hempty. split.
  - rewrite plain_run_unfold.
    set (s0 := logged WarnSafety (logged LogInitialized _)).
    destruct (plain_tryBody_empty s0 Hempty) as (e & s1 & Hbody & Ho & Ht).
    rewrite (plain_loop_threw _ _ _ _ Hbody).
    eexists. split; [reflexivity|].
    cbn [logged out totalDeleted]. rewrite Ho, Ht. unfold s0.
    cbn [logged withCounters out totalDeleted].
    split; [reflexivity|]. now rewrite <- !app_assoc.
  - rewrite run_unfold.
    set (s0 := logged WarnSafety (logged LogInitialized _)).
    assert (Hfound : (exists k, (1 <= k)%nat /\
                        pollInterval * Z.of_nat k <= timeout cfg /\
                        querySelector (photoContainer (selectors cfg))
                                      (ticks k (dom s)) <> None)
                     \/
                     (forall k, (1 <= k)%nat ->
                        pollInterval * Z.of_nat k <= timeout cfg ->
                        querySelector (photoContainer (selectors cfg))
                                      (ticks k (dom s)) = None)).
    { destruct (waitUntil_cases (containerProbe cfg) descContainer (timeout cfg) s)
        as [(k & Hk & Hw & _ & Hr & _) | [Hnever _]].
      - left. exists k. split; [exact Hk|]. split; [exact Hw|].
        rewrite dom_after_ticks in Hr. unfold containerProbe in Hr.
        destruct (querySelector _ _); [discriminate|discriminate].
      - right. intros k Hk Hw. specialize (Hnever k Hk Hw).
        rewrite dom_after_ticks in Hnever. unfold containerProbe in Hnever.
        destruct (querySelector _ _); [discriminate|reflexivity]. }
    destruct Hfound as [(k & Hk & Hw & Hcontainer) | Hnone].
    + destruct (stall_tryBody_empty s0 k Hempty Hk Hw Hcontainer)
        as (s1 & Hbody & Ho & Ht).
      rewrite (stall_loop_threw _ _ _ _ Hbody). cbn [message].
      rewrite (timeoutMessage_names descCheckbox).
      eexists. split; [reflexivity|].
      cbn [logged out totalDeleted]. rewrite Ho, Ht. unfold s0.
      cbn [logged withCounters out totalDeleted].
      split; [reflexivity|]. left. split; [eauto|].
      now rewrite <- !app_assoc.
    + destruct (stall_tryBody_no_container s0 Hnone) as (s1 & Hbody & Ho & Ht).
      rewrite (stall_loop_threw _ _ _ _ Hbody). cbn [message].
      rewrite timeoutMessage_container.
      eexists. split; [reflexivity|].
      cbn [logged out totalDeleted]. rewrite Ho, Ht. unfold s0.
      cbn [logged withCounters out totalDeleted].
      split; [reflexivity|]. right. split; [exact Hnone|].
      now rewrite <- !app_assoc.
Qed.

End OuterCatch.

(** * The script on the simulated page *)

Import Sim.

(** ** What the probes read on the simulated page *)

Lemma sim_ticks (k : nat) (p : Page) :
  ticks k p = simElapse (pollInterval * Z.of_nat k) p.
Proof.
  revert p. induction k as [|k IH]; intros p.
  - destruct p. unfold simElapse. cbn. f_equal. lia.
  - cbn [ticks]. rewrite IH. unfold simElapse, elapse. cbn -[Z.mul Z.of_nat].
    f_equal. unfold pollInterval. lia.
Qed.

Lemma sim_container (p : Page) :
  containerProbe CONFIG p =
  if hasContainer p then JElem Container else JNull.
Proof. unfold containerProbe. cbn. destruct (hasContainer p); reflexivity. Qed.

Lemma sim_checkboxes (p : Page) :
  checkboxProbe CONFIG p = JList (visibleBoxes p).
Proof. reflexivity. Qed.

Lemma sim_delete (p : Page) :
  deleteProbe CONFIG p = if hasSelection p then JElem TrashButton else JNull.
Proof. unfold deleteProbe. cbn. destruct (hasSelection p); reflexivity. Qed.

Lemma sim_confirm (p : Page) :
  confirmProbe CONFIG p = if dialog p then JElem ConfirmButton else JUndefined.
Proof.
  unfold confirmProbe. cbn.
  destruct (hasSelection p), (dialog p); reflexivity.
Qed.

(** ** The deletion sequence on the simulated page *)

Lemma hasSelection_elapse ms p : hasSelection (simElapse ms p) = hasSelection p.
Proof. reflexivity. Qed.

Lemma sim_executeDeletion (s : State) :
  hasSelection (dom s) = true -> throttled (dom s) = false ->
  exists s',
    executeDeletion CONFIG s = Ok tt s' /\
    dom s' = simElapse 1000 (confirmedAt (time (dom s) + 500) (dom s)) /\
    clock s' = clock s + 1500 /\
    totalDeleted s' = totalDeleted s /\ stallCounter s' = stallCounter s /\
    exists evs, out s' = out s ++ evs.
Proof.
  intros Hsel Hthr.
  set (s0 := logged LogInitiating s).
  set (s1 := logged LogClickedMain
               (@clickedOn simBrowser TrashButton (after_ticks 1 s0))).
  assert (H1 : waitUntil (deleteProbe CONFIG) descDelete (timeout CONFIG) s0
               = Ok (@JElem simBrowser TrashButton) (after_ticks 1 s0)).
  { rewrite waitUntil_first.
    - rewrite sim_delete. cbn. now rewrite hasSelection_elapse, Hsel.
    - unfold pollInterval. cbn. lia.
    - rewrite sim_delete. cbn. now rewrite hasSelection_elapse, Hsel. }
  assert (H2 : waitUntil (confirmProbe CONFIG) descConfirm (timeout CONFIG) s1
               = Ok (@JElem simBrowser ConfirmButton) (after_ticks 1 s1)).
  { rewrite waitUntil_first.
    - rewrite sim_confirm. cbn. now rewrite hasSelection_elapse, Hsel.
    - unfold pollInterval. cbn. lia.
    - rewrite sim_confirm. cbn. now rewrite hasSelection_elapse, Hsel. }
  eexists. split.
  - apply (@executeDeletion_ok simBrowser CONFIG s 1 1
             TrashButton ConfirmButton H1);
      [reflexivity | exact H2 |].
    cbn. rewrite hasSelection_elapse, Hsel. cbn. rewrite Hthr. reflexivity.
  - cbn. rewrite hasSelection_elapse, Hsel. cbn. rewrite Hthr. cbn.
    unfold confirmedAt, simElapse. cbn.
    repeat split.
    + rewrite Hthr. f_equal; unfold pollInterval; lia.
    + unfold pollInterval; lia.
    + eexists. rewrite <- !app_assoc. reflexivity.
Qed.

(** ** Finding and selecting a batch on the simulated page *)

Lemma filter_unchecked (l : list nat) :
  filter (fun i => negb (existsb (Nat.eqb i) [])) l = l.
Proof.
  induction l as [|i l IH]; [reflexivity|].
  change (i :: filter (fun i => negb (existsb (Nat.eqb i) [])) l = i :: l).
  now rewrite IH.
Qed.

Lemma visible_shown (p : Page) (n : nat) (rest : list nat) :
  batches p = n :: rest -> checked p = [] ->
  visibleBoxes p = if loadAt p <=? time p then map Box (seq 0 n) else [].
Proof.
  intros Hb Hc. unfold visibleBoxes. rewrite Hb, Hc.
  now rewrite filter_unchecked.
Qed.

Lemma visible_none (p : Page) : batches p = [] -> visibleBoxes p = [].
Proof. intros Hb. unfold visibleBoxes. now rewrite Hb. Qed.

Lemma ready_boxes (n : nat) :
  (0 < n)%nat -> ready (@JList simBrowser (map Box (seq 0 n))) = true.
Proof. intros Hn. destruct n; [lia|reflexivity]. Qed.

(** The two waits at the head of an attempt: the container is there at
    the first firing, the batch at the first firing from [loadAt] on. *)
Lemma sim_seek (s : State) (n : nat) (rest : list nat) :
  hasContainer (dom s) = true -> batches (dom s) = n :: rest ->
  checked (dom s) = [] -> (0 < n)%nat ->
  loadAt (dom s) <= time (dom s) + 30250 ->
  exists k,
    waitUntil (containerProbe CONFIG) descContainer (timeout CONFIG) s
      = Ok (@JElem simBrowser Container) (tick s) /\
    waitUntil (checkboxProbe CONFIG) descCheckbox (timeout CONFIG) (tick s)
      = Ok (JList (map Box (seq 0 n))) (after_ticks k (tick s)) /\
    dom (after_ticks k (tick s))
      = simElapse (pollInterval * Z.of_nat k + pollInterval) (dom s) /\
    loadAt (dom s) <= time (dom s) + pollInterval * Z.of_nat k + pollInterval.
Proof.
  intros Hcont Hb Hc Hn Hload.
  assert (H1 : waitUntil (containerProbe CONFIG) descContainer (timeout CONFIG) s
               = Ok (@JElem simBrowser Container) (tick s)).
  { rewrite waitUntil_first.
    - rewrite sim_container. cbn. now rewrite Hcont.
    - unfold pollInterval. cbn. lia.
    - rewrite sim_container. cbn. now rewrite Hcont. }
  assert (Hdom : forall k, dom (after_ticks k (tick s))
            = simElapse (pollInterval * Z.of_nat k + pollInterval) (dom s)).
  { intros k. rewrite dom_after_ticks, sim_ticks. cbn -[Z.mul Z.of_nat].
    unfold simElapse. cbn -[Z.mul Z.of_nat]. f_equal. lia. }
  assert (Hvis : forall k, checkboxProbe CONFIG (dom (after_ticks k (tick s)))
            = JList (if loadAt (dom s) <=?
                          time (dom s) + (pollInterval * Z.of_nat k + pollInterval)
                     then map Box (seq 0 n) else [])).
  { intros k. rewrite sim_checkboxes, Hdom.
    now rewrite (visible_shown _ n rest) by assumption. }
  destruct (waitUntil_finds (checkboxProbe CONFIG) descCheckbox
              (timeout CONFIG) (tick s) 120) as (k & Hk & Hr & Heq).
  - lia.
  - unfold pollInterval. cbn. lia.
  - rewrite Hvis.
    replace (loadAt (dom s) <=? _) with true
      by (symmetry; apply Z.leb_le; unfold pollInterval; lia).
    now apply ready_boxes.
  - exists k. rewrite Hvis in Hr, Heq.
    destruct (loadAt (dom s) <=? _) eqn:Hle; [|discriminate].
    apply Z.leb_le in Hle. repeat split; auto. lia.
Qed.

Lemma sim_selectAll (l : list nat) (s : State) :
  stale (dom s) = [] ->
  exists s',
    selectAll (map Box l) s = Ok tt s' /\
    dom s' = withChecked (rev l ++ checked (dom s)) (dom s) /\
    clock s' = clock s /\ totalDeleted s' = totalDeleted s /\
    stallCounter s' = stallCounter s /\
    exists evs, out s' = out s ++ evs.
Proof.
  revert s. induction l as [|i l IH]; intros s Hstale.
  - exists s. cbn. repeat split.
    + destruct (dom s); reflexivity.
    + exists []. now rewrite app_nil_r.
  - cbn [map selectAll]. unfold bind at 1, try_catch. rewrite doClick_eq.
    cbn [click simBrowser simClick]. rewrite Hstale. cbn [existsb snd].
    destruct (IH (@clickedOn simBrowser (Box i) s))
      as (s' & Hs & Hd & Hk & Ht & Hst & evs & Ho).
    { cbn. rewrite Hstale. reflexivity. }
    exists s'. rewrite Hs, Hd, Hk, Ht, Hst. repeat split.
    + cbn. rewrite Hstale. cbn. unfold withChecked. cbn.
      now rewrite Hstale, <- app_assoc.
    + exists (@Clicked simBrowser (Box i) :: evs). rewrite Ho. cbn.
      now rewrite <- app_assoc.
Qed.

Lemma hasSelection_checked (l cs : list nat) (p : Page) :
  l <> [] -> hasSelection (withChecked (rev l ++ cs) p) = true.
Proof.
  intros Hl. unfold hasSelection, withChecked. cbn [checked].
  destruct l as [|i l]; [congruence|]. cbn [rev].
  destruct (rev l); reflexivity.
Qed.

Lemma seq_nonempty (n : nat) : (0 < n)%nat -> seq 0 n <> [].
Proof. destruct n; [lia|discriminate]. Qed.

(** An attempt up to the end of the selection, on a page whose head batch
    shows in time. *)
Lemma sim_selected (s : State) (t a : Z) (n : nat) (rest : list nat) (d : Z) :
  dom s = shows t a (n :: rest) d -> (0 < n)%nat -> a <= t + 30250 ->
  exists k s3,
    waitUntil (containerProbe CONFIG) descContainer (timeout CONFIG) s
      = Ok (@JElem simBrowser Container) (tick s) /\
    waitUntil (checkboxProbe CONFIG) descCheckbox (timeout CONFIG) (tick s)
      = Ok (JList (map Box (seq 0 n))) (after_ticks k (tick s)) /\
    selectAll (map Box (seq 0 n))
      (logged (LogFound (Z.of_nat (List.length (map Box (seq 0 n)))))
              (after_ticks k (tick s))) = Ok tt s3 /\
    dom s3 = withChecked (rev (seq 0 n))
               (shows (t + pollInterval * Z.of_nat k + pollInterval) a
                      (n :: rest) d) /\
    a <= t + pollInterval * Z.of_nat k + pollInterval /\
    totalDeleted s3 = totalDeleted s /\ stallCounter s3 = stallCounter s /\
    exists evs, out s3 = out s ++ evs.
Proof.
  intros Hdom Hn Hload.
  destruct (sim_seek s n rest) as (k & H1 & H2 & Hd & Hle);
    try (rewrite Hdom; reflexivity); auto.
  { rewrite Hdom. exact Hload. }
  rewrite Hdom in Hd, Hle. cbn [shows loadAt time] in Hle.
  pose (s2 := logged (LogFound (Z.of_nat (List.length
                        (map (Box : nat -> @Elem simBrowser) (seq 0 n)))))
                     (after_ticks k (tick s))).
  destruct (sim_selectAll (seq 0 n) s2)
    as (s3 & Hsel & Hd3 & _ & Ht & Hst & evs & Ho).
  { unfold s2. cbn [logged dom]. rewrite Hd. reflexivity. }
  exists k, s3. repeat split; auto.
  - rewrite Hd3. unfold s2. cbn [logged dom]. rewrite Hd.
    unfold withChecked, simElapse, shows. cbn -[Z.mul Z.of_nat].
    rewrite app_nil_r. f_equal. lia.
  - rewrite Ht. unfold s2. cbn [logged totalDeleted].
    now rewrite total_after_ticks.
  - rewrite Hst. unfold s2. cbn [logged stallCounter].
    now rewrite stall_after_ticks.
  - exists (Printed (LogFound (Z.of_nat (List.length (map Box (seq 0 n))))) :: evs).
    rewrite Ho. unfold s2. cbn [logged out]. rewrite out_after_ticks.
    cbn [tick out]. now rewrite <- app_assoc.
Qed.


Lemma sim_no_boxes (p : Page) :
  batches p = [] ->
  forall j, querySelectorAll (checkbox (selectors CONFIG)) (ticks j p) = [].
Proof.
  intros Hb j. rewrite sim_ticks.
  change (visibleBoxes (simElapse (pollInterval * Z.of_nat j) p) = []).
  now apply visible_none.
Qed.


(** ** The stall-detection loop on the simulated page *)

Lemma firings_verify : firings verifyTimeout = 21%nat.
Proof. reflexivity. Qed.

(** An attempt up to the end of the deletion sequence. *)
Lemma sim_upToDeletion (s : State) (t a : Z) (n : nat) (rest : list nat)
    (d : Z) :
  dom s = shows t a (n :: rest) d -> (0 < n)%nat -> a <= t + 30250 ->
  exists s' t',
    StallDetect.upToDeletion CONFIG s = Ok (Z.of_nat n) s' /\
    dom s' = shows t' (t' - 1000 + d) rest d /\
    totalDeleted s' = totalDeleted s /\
    exists evs, out s' = out s ++ evs.
Proof.
  intros Hdom Hn Hload.
  destruct (sim_selected s t a n rest d Hdom Hn Hload)
    as (k & s3 & H1 & H2 & Hsel & Hd3 & Hle & Ht3 & _ & evs3 & Ho3).
  set (s4 := paused selectionDelay s3).
  destruct (sim_executeDeletion s4) as (s5 & Hdel & Hd5 & _ & Ht5 & _ & evs5 & Ho5).
  { unfold s4. cbn [paused dom elapse simBrowser].
    rewrite hasSelection_elapse, Hd3, <- (app_nil_r (rev (seq 0 n))).
    apply hasSelection_checked. now apply seq_nonempty. }
  { unfold s4. cbn [paused dom elapse simBrowser]. rewrite Hd3. reflexivity. }
  exists s5, (t + pollInterval * Z.of_nat k + pollInterval + 2000).
  split; [|split; [|split]].
  - unfold StallDetect.upToDeletion.
    rewrite (bind_Ok _ _ _ _ _ H1), (bind_Ok _ _ _ _ _ H2).
    cbn [nodeList]. unfold bind at 1, ret at 1. unfold bind at 1.
    rewrite console_eq, (bind_Ok _ _ _ _ _ Hsel).
    unfold bind at 1. rewrite pause_eq. fold s4.
    rewrite (bind_Ok _ _ _ _ _ Hdel). unfold ret.
    now rewrite length_map, length_seq.
  - rewrite Hd5. unfold s4. cbn [paused dom elapse simBrowser].
    rewrite Hd3. unfold confirmedAt, simElapse, withChecked, shows, selectionDelay.
    cbn -[Z.mul Z.of_nat]. f_equal; lia.
  - rewrite Ht5. unfold s4. cbn [paused totalDeleted]. exact Ht3.
  - exists (evs3 ++ evs5). rewrite Ho5. unfold s4. cbn [paused out].
    now rewrite Ho3, <- app_assoc.
Qed.

(** The re-poll after the deletion finds nothing when no batch is left or
    the next one takes more than six seconds to show. *)
Lemma sim_verify_timeout (s : State) (t : Z) (rest : list nat) (d : Z) :
  dom s = shows t (t - 1000 + d) rest d ->
  rest = [] \/ 6000 < d ->
  waitUntil (checkboxProbe CONFIG) descCheckbox verifyTimeout s =
    Throw {| message := timeoutMessage descCheckbox verifyTimeout |}
          (after_ticks 21 s).
Proof.
  intros Hdom Hlate. rewrite <- firings_verify. apply waitUntil_never.
  intros j Hj Hw. rewrite dom_after_ticks, sim_ticks, sim_checkboxes, Hdom.
  destruct rest as [|m rest].
  - now rewrite visible_none.
  - destruct Hlate as [|Hlate]; [discriminate|].
    rewrite (visible_shown _ m rest) by reflexivity.
    cbn [simElapse shows loadAt time].
    replace (_ <=? _) with false; [reflexivity|].
    symmetry. apply Z.leb_gt. unfold verifyTimeout in Hw. lia.
Qed.

Lemma measured_verify_timeout `{B : Browser} (cfg : Config)
    (s s3 s4 : State) (before : Z) (e : Error) :
  StallDetect.upToDeletion cfg s = Ok before s3 ->
  waitUntil (checkboxProbe cfg) descCheckbox verifyTimeout s3 = Throw e s4 ->
  StallDetect.measured cfg s = Ok (before, 0) s4.
Proof.
  intros Hup Hwait. unfold StallDetect.measured.
  rewrite (bind_Ok _ _ _ _ _ Hup).
  assert (Hcount : StallDetect.countAfter cfg s3 = Ok 0 s4).
  { unfold StallDetect.countAfter, try_catch.
    now rewrite (bind_Throw _ _ _ _ _ Hwait). }
  now rewrite (bind_Ok _ _ _ _ _ Hcount).
Qed.

(** An attempt up to the comparison when the re-poll finds nothing: the
    count after is 0. *)
Lemma sim_measured (s : State) (t a : Z) (n : nat) (rest : list nat) (d : Z) :
  dom s = shows t a (n :: rest) d -> (0 < n)%nat -> a <= t + 30250 ->
  rest = [] \/ 6000 < d ->
  exists s' t',
    StallDetect.measured CONFIG s = Ok (Z.of_nat n, 0) s' /\
    dom s' = shows t' (t' - 6250 + d) rest d /\
    exists evs, out s' = out s ++ evs.
Proof.
  intros Hdom Hn Hload Hlate.
  destruct (sim_upToDeletion s t a n rest d Hdom Hn Hload)
    as (s5 & t5 & Hup & Hd5 & Ht5 & evs5 & Ho5).
  pose proof (sim_verify_timeout s5 t5 rest d Hd5 Hlate) as Hwait.
  pose proof (measured_verify_timeout CONFIG _ _ _ _ _ Hup Hwait) as Hm.
  exists (after_ticks 21 s5), (t5 + 5250). split; [exact Hm|]. split.
  - rewrite dom_after_ticks, sim_ticks, Hd5.
    unfold simElapse, shows, pollInterval.
    cbn [time hasContainer batches loadAt checked dialog loadDelay throttled stale].
    f_equal; lia.
  - exists evs5. rewrite out_after_ticks. exact Ho5.
Qed.




(** * Runs on particular pages *)



(** A page that removes nothing: five stall warnings in a row, then the
    halt. *)
Lemma throttled_run :
  printed (out (stateOf
    (StallDetect.runPhotoDeleter CONFIG 10 (start throttledPage)))) =
  [LogInitialized; WarnSafety;
   LogFound 2; LogInitiating; LogClickedMain; LogClickedConfirm; WarnStall 1 5;
   LogFound 2; LogInitiating; LogClickedMain; LogClickedConfirm; WarnStall 2 5;
   LogFound 2; LogInitiating; LogClickedMain; LogClickedConfirm; WarnStall 3 5;
   LogFound 2; LogInitiating; LogClickedMain; LogClickedConfirm; WarnStall 4 5;
   LogFound 2; LogInitiating; LogClickedMain; LogClickedConfirm; WarnStall 5 5;
   ErrHalted StallDetect.stallMessage; LogRefreshHint; LogFinished 0].
Proof. vm_compute. reflexivity. Qed.

Lemma C2_witness :
  let s := start throttledPage in
  let s0 := logged WarnSafety (logged LogInitialized (withCounters 0 0 s)) in
  comparisons CONFIG 10 s0 = repeat (Some (2, 2)) 5 /\
  exists evs pre s',
    StallDetect.runPhotoDeleter CONFIG 10 s = Ok tt s' /\
    out s' = out s ++ evs /\
    verdicts evs = repeat true 5 /\
    evs = pre ++ [Printed (WarnStall 5 5);
                  Printed (ErrHalted StallDetect.stallMessage);
                  Printed LogRefreshHint;
                  Printed (LogFinished (totalDeleted s'))].
Proof.
  intros s s0.
  assert (Hcounts : comparisons CONFIG 10 s0 = repeat (Some (2, 2)) 5)
    by (vm_compute; reflexivity).
  split; [exact Hcounts|].
  assert (Hlimit : 1 <= stallLimit CONFIG) by (vm_compute; discriminate).
  pose proof (C2_stall_limit_halts CONFIG 10 s Hlimit) as H.
  cbv zeta in H. fold s0 in H. rewrite Hcounts in H.
  destruct H as (evs & Ho & Hv & Hbound).
  destruct (Hbound [] 5%nat [] eq_refl) as (_ & Hhalt).
  destruct (Hhalt eq_refl) as (_ & pre & s' & Hrun & Hevs).
  exists evs, pre, s'. rewrite Hrun in Ho. cbn [stateOf] in Ho.
  split; [exact Hrun|]. split; [exact Ho|]. split; [exact Hv|exact Hevs].
Defined.

(** A probe that answers [true]: the wait of one second rejects at 1250 ms. *)
Lemma true_probe_run :
  waitUntil (fun _ => JBool true) "a flag" 1000 (start emptyPage) =
  Throw {| message := "Timeout: Could not find a flag after 1 seconds." |}
        (after_ticks 5 (start emptyPage)).
Proof. vm_compute. reflexivity. Qed.

(** Truthy results on which a wait does not resolve.  A probe that answers
    [true] is truthy at every call, and the wait of one second rejects at
    1250 ms.  On the page without items the probe of the script that lists
    the selectable controls returns the empty list, truthy as every object
    is, at every firing, and the re-poll of five seconds rejects at
    5250 ms. *)
Lemma C3_truthy_results_do_not_resolve :
  (truthy (@JBool simBrowser true) = true /\
   waitUntil (fun _ => JBool true) "a flag" 1000 (start emptyPage) =
     Throw {| message := "Timeout: Could not find a flag after 1 seconds." |}
           (after_ticks 5 (start emptyPage)))
  /\
  (Forall (fun j => truthy (checkboxProbe CONFIG
                             (dom (after_ticks j (start emptyPage)))) = true)
          (seq 1 20) /\
   waitUntil (checkboxProbe CONFIG) descCheckbox verifyTimeout (start emptyPage) =
     Throw {| message :=
                "Timeout: Could not find any selectable photo after 5 seconds." |}
           (after_ticks 21 (start emptyPage))).
Proof.
  split; split.
  - reflexivity.
  - vm_compute. reflexivity.
  - repeat constructor.
  - vm_compute. reflexivity.
Qed.



(** The stall-detection variant on a page with neither items nor
    container: the wait for the container times out and the run is halted,
    not done. *)
Lemma C5_no_container_halts :
  (forall j, querySelectorAll (checkbox (selectors CONFIG)) (ticks j bare) = []) /\
  printed (out (stateOf
    (StallDetect.runPhotoDeleter CONFIG 3 (start bare)))) =
  [LogInitialized; WarnSafety;
   ErrHalted "Timeout: Could not find main photo container after 30 seconds.";
   LogRefreshHint; LogFinished 0].
Proof.
  split; [now apply sim_no_boxes|]. vm_compute. reflexivity.
Qed.

Lemma C5_witness :
  (exists s',
     Plain.runPhotoDeleter CONFIG 1 (start emptyPage) = Ok tt s' /\
     totalDeleted s' = 0 /\
     out s' = out (start emptyPage)
              ++ [Printed LogInitialized; Printed WarnSafety;
                  Printed LogMissionAccomplished; Printed (LogFinished 0)])
  /\
  (exists s',
     StallDetect.runPhotoDeleter CONFIG 1 (start emptyPage) = Ok tt s' /\
     totalDeleted s' = 0 /\
     out s' = out (start emptyPage)
              ++ [Printed LogInitialized; Printed WarnSafety;
                  Printed LogMissionAccomplished; Printed (LogFinished 0)])
  /\
  (exists s',
     StallDetect.runPhotoDeleter CONFIG 1 (start bare) = Ok tt s' /\
     totalDeleted s' = 0 /\
     out s' = out (start bare)
              ++ [Printed LogInitialized; Printed WarnSafety;
                  Printed (ErrHalted (timeoutMessage descContainer
                                                     (timeout CONFIG)));
                  Printed LogRefreshHint; Printed (LogFinished 0)]).
Proof.
  destruct (C5_empty_page CONFIG 0 (start emptyPage)) as [Hplain Hstall];
    [now apply sim_no_boxes|].
  destruct (C5_empty_page CONFIG 0 (start bare)) as [_ Hbare];
    [now apply sim_no_boxes|].
  split; [exact Hplain|]. split.
  - destruct Hstall as (s' & Hrun & Ht & [(_ & Ho) | (Hnone & _)]).
    + exists s'. split; [exact Hrun|]. split; [exact Ht|exact Ho].
    + specialize (Hnone 1%nat ltac:(lia) ltac:(vm_compute; discriminate)).
      vm_compute in Hnone. discriminate.
  - destruct Hbare as (s' & Hrun & Ht & [((k & _ & _ & Hc) & _) | (_ & Ho)]).
    + exfalso. apply Hc. rewrite sim_ticks. reflexivity.
    + exists s'. split; [exact Hrun|]. split; [exact Ht|exact Ho].
Defined.

Lemma C6_witness :
  exists k s',
    waitUntil (checkboxProbe CONFIG) descCheckbox verifyTimeout
              (start emptyPage) =
      Throw {| message := timeoutMessage descCheckbox verifyTimeout |} s' /\
    s' = after_ticks k (start emptyPage) /\
    clock s' - clock (start emptyPage) = pollInterval * Z.of_nat k /\
    verifyTimeout < clock s' - clock (start emptyPage)
      <= verifyTimeout + pollInterval /\
    (forall j, (j < k)%nat -> pollInterval * Z.of_nat j <= verifyTimeout).
Proof.
  apply (C6_timeout_within_one_interval (checkboxProbe CONFIG) descCheckbox
           verifyTimeout (start emptyPage)).
  - unfold verifyTimeout. lia.
  - intros j _ _. rewrite dom_after_ticks. unfold checkboxProbe.
    now rewrite sim_no_boxes.
Defined.

Lemma C7_witness :
  let s := start (page [5; 3]%nat 0) in
  let s1 := stateOf (StallDetect.measured CONFIG s) in
  exists s',
    StallDetect.iteration CONFIG s = Ok true s' /\
    stallCounter s' = 0 /\
    totalDeleted s' = totalDeleted s + (5 - 3) /\
    out s' = out s1 ++ [Printed (LogBatchDeleted (5 - 3)
                                  (totalDeleted s + (5 - 3)))].
Proof.
  intros s s1.
  apply (C7_decrease_resets_and_credits CONFIG s s1 5 3).
  - vm_compute. reflexivity.
  - lia.
Defined.

(** On the page whose second box throws when clicked, all three boxes are
    clicked and the deletion sequence follows. *)
Lemma brittle_run :
  out (stateOf (StallDetect.runPhotoDeleter CONFIG 2 (start brittle))) =
  [Printed LogInitialized; Printed WarnSafety; Printed (LogFound 3);
   Clicked (Box 0); Clicked (Box 1); Printed WarnCouldNotClick;
   Clicked (Box 2);
   Printed LogInitiating; Clicked TrashButton; Printed LogClickedMain;
   Clicked ConfirmButton; Printed LogClickedConfirm;
   Printed (LogBatchDeleted 3 3);
   Printed LogMissionAccomplished; Printed (LogFinished 3)].
Proof. vm_compute. reflexivity. Qed.

Lemma C8_witness :
  let s0 := start brittle in
  let s2 := after_ticks 1 (tick s0) in
  exists boxes s3,
    @JList simBrowser [Box 0; Box 1; Box 2] = JList boxes /\ boxes <> [] /\
    selectAll boxes (logged (LogFound (Z.of_nat (List.length boxes))) s2)
      = Ok tt s3 /\
    clicks (out s3) = clicks (out s0) ++ boxes /\
    Plain.tryBody CONFIG s0 =
      (total <- getTotal ;;
       setTotal (total + Z.of_nat (List.length boxes)) ;;
       pause selectionDelay ;;
       executeDeletion CONFIG) s3 /\
    StallDetect.tryBody CONFIG s0 =
      (pause selectionDelay ;;
       executeDeletion CONFIG ;;
       photoCountAfter <- StallDetect.countAfter CONFIG ;;
       StallDetect.stallCheck CONFIG (Z.of_nat (List.length boxes))
                              photoCountAfter) s3.
Proof.
  intros s0 s2.
  apply (C8_click_failures_do_not_abort CONFIG s0 (tick s0) s2
           (@JElem simBrowser Container)
           (@JList simBrowser [Box 0; Box 1; Box 2])).
  - vm_compute. reflexivity.
  - vm_compute. reflexivity.
Defined.

Lemma C9_witness :
  let s := stateOf (selectAll [Box 0; Box 1] (start (page [2%nat] 0))) in
  (exists k1 b k2 c,
     let s' := stateOf (executeDeletion CONFIG s) in
     out s' = out s ++ [Printed LogInitiating; Clicked b;
                        Printed LogClickedMain; Clicked c;
                        Printed LogClickedConfirm] /\
     clock s' = clock s + pollInterval * Z.of_nat k1
                + pollInterval * Z.of_nat k2 + actionDelay CONFIG)
  /\
  (exists s',
     executeDeletion CONFIG (start emptyPage) =
       Throw {| message := timeoutMessage descDelete (timeout CONFIG) |} s' /\
     out s' = out (start emptyPage) ++ [Printed LogInitiating])
  /\
  (exists s',
     @executeDeletion Frozen.frozenBrowser CONFIG Frozen.start =
       Throw {| message := timeoutMessage descConfirm (timeout CONFIG) |} s' /\
     out s' = out Frozen.start
              ++ [Printed LogInitiating;
                  @Clicked Frozen.frozenBrowser tt;
                  Printed LogClickedMain]).
Proof.
  intros s. split; [|split].
  - pose proof (C9_deletion_sequence CONFIG s) as H. cbv zeta in H.
    destruct H as (Hok & _ & _).
    destruct (Hok (stateOf (executeDeletion CONFIG s)))
      as (k1 & b & k2 & c & _ & _ & _ & _ & _ & _ & Hout & Hclock).
    { vm_compute. reflexivity. }
    exists k1, b, k2, c. split; [exact Hout|exact Hclock].
  - pose proof (C9_deletion_sequence CONFIG (start emptyPage)) as H.
    cbv zeta in H. destruct H as (_ & Hnever & _).
    apply Hnever. intros j _ _.
    rewrite dom_after_ticks, sim_ticks. reflexivity.
  - pose proof (@C9_deletion_sequence Frozen.frozenBrowser CONFIG Frozen.start)
      as H.
    cbv zeta in H. destruct H as (_ & _ & Hconfirm).
    apply (Hconfirm 1%nat tt).
    + vm_compute. reflexivity.
    + reflexivity.
    + intros j _ _. reflexivity.
Defined.

Lemma C10_witness :
  let s := start (page [2%nat] 0) in
  let s3 := stateOf (StallDetect.upToDeletion CONFIG s) in
  let s4 := after_ticks 21 s3 in
  StallDetect.countAfter CONFIG s3 = Ok 0 s4 /\
  exists s',
    StallDetect.iteration CONFIG s = Ok true s' /\
    stallCounter s' = 0 /\
    totalDeleted s' = totalDeleted s + 2 /\
    out s' = out s4 ++ [Printed (LogBatchDeleted 2 (totalDeleted s + 2))].
Proof.
  intros s s3 s4.
  apply (C10_verification_timeout_counts_as_success CONFIG s s3 s4 2
           {| message := timeoutMessage descCheckbox verifyTimeout |}).
  - vm_compute. reflexivity.
  - vm_compute. reflexivity.
Defined.

(** Six batches of one item, each on screen as soon as the one before is
    gone: every attempt of the stall-detection variant sees one box before
    and one after, so the fifth attempt halts the run with a total of 0
    and one batch still on the page. *)
Lemma equal_batches_halt :
  exists s',
    StallDetect.runPhotoDeleter CONFIG 7
      (start (page [1; 1; 1; 1; 1; 1]%nat 0)) = Ok tt s' /\
    totalDeleted s' = 0 /\
    batches (dom s') = [1%nat] /\
    verdicts (out s') = [true; true; true; true; true] /\
    exists pre,
      printed (out s') =
        pre ++ [WarnStall 5 5; ErrHalted StallDetect.stallMessage;
                LogRefreshHint; LogFinished 0].
Proof.
  eexists. split; [vm_compute; reflexivity|].
  split; [reflexivity|]. split; [reflexivity|]. split; [reflexivity|].
  eexists. cbn [out printed flat_map app].
  match goal with
  | |- ?l = _ =>
      rewrite <- (firstn_skipn (List.length l - 4) l)
  end.
  reflexivity.
Qed.

(** * Further properties of the code *)

(** ** The polling primitive *)

Section PollMore.
Context `{B : Browser}.

(** X1: a wait resolves at the first firing, within the timeout, at which
    the probe's result passes the test of the callback: with that result,
    after that many poll intervals. *)
Theorem X1_resolves_at_first_ready_firing
    (condition : World -> JsVal) (description : string) (t : Z) (s : State)
    (k : nat) :
  (1 <= k)%nat -> pollInterval * Z.of_nat k <= t ->
  (forall j, (1 <= j < k)%nat ->
     ready (condition (dom (after_ticks j s))) = false) ->
  ready (condition (dom (after_ticks k s))) = true ->
  waitUntil condition description t s =
    Ok (condition (dom (after_ticks k s))) (after_ticks k s).
Proof.
  intros Hk Hw Hbefore Hready.
  destruct (waitUntil_finds condition description t s k Hk Hw Hready)
    as (k' & Hk' & Hr' & Heq).
  assert (k' = k) as ->; [|exact Heq].
  apply Nat.le_antisymm; [lia|].
  apply Nat.le_ngt. intros Hlt.
  rewrite Hbefore in Hr' by lia. discriminate.
Qed.

(** X2: with a timeout shorter than the poll interval the wait rejects at
    its first firing without consulting the probe, whatever the page
    holds. *)
Theorem X2_short_timeout_always_rejects
    (condition : World -> JsVal) (description : string) (t : Z) (s : State) :
  t < pollInterval ->
  waitUntil condition description t s =
    Throw {| message := timeoutMessage description t |} (tick s).
Proof.
  intros Ht. unfold waitUntil, firings. rewrite poll_step.
  replace (clock (tick s) - clock s >? t) with true; [reflexivity|].
  symmetry. rewrite Z.gtb_ltb. apply Z.ltb_lt. unfold tick. cbn [clock]. lia.
Qed.

(** X3: a wait does nothing but let time pass: however it ends, the state
    is the one [k] poll intervals later for some [k] between 1 and the
    number of firings the timeout allows, so nothing is printed or
    clicked, the counters stand, and no wait settles sooner than one poll
    interval after the call. *)
Theorem X3_wait_only_passes_time
    (condition : World -> JsVal) (description : string) (t : Z) (s : State) :
  exists k,
    (1 <= k <= firings t)%nat /\
    stateOf (waitUntil condition description t s) = after_ticks k s /\
    out (stateOf (waitUntil condition description t s)) = out s /\
    totalDeleted (stateOf (waitUntil condition description t s))
      = totalDeleted s /\
    stallCounter (stateOf (waitUntil condition description t s))
      = stallCounter s /\
    clock (stateOf (waitUntil condition description t s))
      = clock s + pollInterval * Z.of_nat k.
Proof.
  destruct (waitUntil_settles condition description t s) as (k & Hk & Hs).
  assert (Hst : stateOf (waitUntil condition description t s) = after_ticks k s
                /\ (1 <= k)%nat).
  { inversion Hs; subst; cbn [stateOf]; auto. }
  destruct Hst as [Hst H1]. exists k. rewrite Hst.
  rewrite out_after_ticks, total_after_ticks, stall_after_ticks,
    clock_after_ticks.
  repeat split; auto.
Qed.

End PollMore.

(** ** The deletion sequence when a click throws *)

Section ClickThrows.
Context `{B : Browser}.
Variable cfg : Config.

(** X4: an exception thrown by the click on the delete control, or by the
    click on the confirmation control, leaves [executeDeletion] as it is:
    after the first, no confirmation control is sought; after the second,
    the closing pause is skipped; in both cases nothing further is
    printed. *)
Theorem X4_click_exception_propagates (s : State) :
  let s0 := logged LogInitiating s in
  let waited b k1 := logged LogClickedMain (clickedOn b (after_ticks k1 s0)) in
  (forall k1 b msg,
     waitUntil (deleteProbe cfg) descDelete (timeout cfg) s0
       = Ok (JElem b) (after_ticks k1 s0) ->
     snd (click b (dom (after_ticks k1 s0))) = Some msg ->
     executeDeletion cfg s =
       Throw {| message := msg |} (clickedOn b (after_ticks k1 s0)))
  /\
  (forall k1 b k2 c msg,
     waitUntil (deleteProbe cfg) descDelete (timeout cfg) s0
       = Ok (JElem b) (after_ticks k1 s0) ->
     snd (click b (dom (after_ticks k1 s0))) = None ->
     waitUntil (confirmProbe cfg) descConfirm (timeout cfg) (waited b k1)
       = Ok (JElem c) (after_ticks k2 (waited b k1)) ->
     snd (click c (dom (after_ticks k2 (waited b k1)))) = Some msg ->
     executeDeletion cfg s =
       Throw {| message := msg |}
             (clickedOn c (after_ticks k2 (waited b k1)))).
Proof.
  intros s0 waited. split.
  - intros k1 b msg H1 Hb. unfold executeDeletion.
    unfold bind at 1. rewrite console_eq. fold s0.
    rewrite (bind_Ok _ _ _ _ _ H1). cbn [clickValue].
    unfold bind at 1. now rewrite doClick_eq, Hb.
  - intros k1 b k2 c msg H1 Hb H2 Hc. unfold executeDeletion.
    unfold bind at 1. rewrite console_eq. fold s0.
    rewrite (bind_Ok _ _ _ _ _ H1). cbn [clickValue].
    unfold bind at 1. rewrite doClick_eq, Hb.
    unfold bind at 1. rewrite console_eq. fold (waited b k1).
    rewrite (bind_Ok _ _ _ _ _ H2). cbn [clickValue].
    unfold bind at 1. now rewrite doClick_eq, Hc.
Qed.

(** X5: the re-poll after the deletion never throws and never runs out of
    fuel.  Its count is 0 exactly when the wait of [verifyTimeout] timed
    out; otherwise it is the number, not 0, of selectable controls on the
    page at the firing that found them. *)
Theorem X5_countAfter_total (s : State) :
  exists n s',
    StallDetect.countAfter cfg s = Ok n s' /\
    ((n = 0 /\ s' = after_ticks (firings verifyTimeout) s /\
      forall j, (1 <= j)%nat -> pollInterval * Z.of_nat j <= verifyTimeout ->
        querySelectorAll (checkbox (selectors cfg)) (dom (after_ticks j s))
          = [])
     \/
     (0 < n /\
      exists k, (1 <= k)%nat /\ pollInterval * Z.of_nat k <= verifyTimeout /\
        s' = after_ticks k s /\
        n = Z.of_nat (List.length
              (querySelectorAll (checkbox (selectors cfg)) (dom s'))))).
Proof.
  unfold StallDetect.countAfter, try_catch.
  destruct (waitUntil_cases (checkboxProbe cfg) descCheckbox verifyTimeout s)
    as [[k (Hk & Hw & _ & Hr & Heq)] | [Hnever Heq]].
  - rewrite (bind_Ok _ _ _ _ _ Heq). cbn [checkboxProbe nodeList].
    unfold bind, ret. eexists _, _. split; [reflexivity|]. right.
    apply checkboxProbe_ready in Hr. split.
    + destruct (querySelectorAll _ _); [congruence|]. cbn [List.length]. lia.
    + exists k. repeat split; auto.
  - rewrite (bind_Throw _ _ _ _ _ Heq). unfold ret.
    eexists _, _. split; [reflexivity|]. left. repeat split.
    intros j Hj Hw. specialize (Hnever j Hj Hw).
    unfold checkboxProbe, ready in Hnever. cbn in Hnever.
    destruct (querySelectorAll _ _); [reflexivity|discriminate].
Qed.

End ClickThrows.

(** ** What always returns *)

Section Productive.
Context `{B : Browser}.

Lemma productive_ret {A} (a : A) : productive (ret a).
Proof. intros s s'. discriminate. Qed.

Lemma productive_throw {A} (e : Error) : productive (@throw _ A e).
Proof. intros s s'. discriminate. Qed.

Lemma productive_bind {A C} (m : M A) (k : A -> M C) :
  productive m -> (forall a, productive (k a)) -> productive (bind m k).
Proof.
  intros Hm Hk s s'. unfold bind.
  destruct (m s) as [a s1|e s1|s1] eqn:E; [apply Hk|discriminate|].
  now elim (Hm s s1).
Qed.

Lemma productive_try_catch {A} (m : M A) (h : Error -> M A) :
  productive m -> (forall e, productive (h e)) -> productive (try_catch m h).
Proof.
  intros Hm Hh s s'. unfold try_catch.
  destruct (m s) as [a s1|e s1|s1] eqn:E; [discriminate|apply Hh|].
  now elim (Hm s s1).
Qed.

Lemma productive_pause ms : productive (pause ms).
Proof. intros s s'. discriminate. Qed.

Lemma productive_console c : productive (console c).
Proof. intros s s'. discriminate. Qed.

Lemma productive_doClick e : productive (doClick e).
Proof.
  intros s s'. rewrite doClick_eq.
  destruct (snd (click e (dom s))); discriminate.
Qed.

Lemma productive_waitUntil condition description t :
  productive (waitUntil condition description t).
Proof. intros s s'. apply waitUntil_terminates. Qed.

Lemma productive_clickValue v : productive (clickValue v).
Proof. destruct v; try apply productive_throw. apply productive_doClick. Qed.

Lemma productive_nodeList v : productive (nodeList v).
Proof. destruct v; try apply productive_throw. apply productive_ret. Qed.

Lemma productive_selectAll boxes : productive (selectAll boxes).
Proof.
  induction boxes as [|box rest IH]; [apply productive_ret|].
  cbn [selectAll]. apply productive_bind; [|intros _; exact IH].
  apply productive_try_catch; [apply productive_doClick|].
  intros _. apply productive_console.
Qed.

Lemma productive_getTotal : productive getTotal.
Proof. intros s s'. discriminate. Qed.

Lemma productive_setTotal n : productive (setTotal n).
Proof. intros s s'. discriminate. Qed.

Lemma productive_getStall : productive getStall.
Proof. intros s s'. discriminate. Qed.

Lemma productive_setStall n : productive (setStall n).
Proof. intros s s'. discriminate. Qed.

Ltac solve_productive :=
  repeat (first [ apply productive_selectAll | apply productive_waitUntil
                | apply productive_clickValue | apply productive_nodeList
                | apply productive_pause | apply productive_console
                | apply productive_ret | apply productive_throw
                | apply productive_getTotal | apply productive_setTotal
                | apply productive_getStall | apply productive_setStall
                | apply productive_bind; [|intros ?]
                | apply productive_try_catch; [|intros ?] ]).

Lemma productive_executeDeletion cfg : productive (executeDeletion cfg).
Proof. unfold executeDeletion. solve_productive. Qed.

Lemma productive_plain_tryBody cfg : productive (Plain.tryBody cfg).
Proof.
  unfold Plain.tryBody.
  repeat (first [ apply productive_executeDeletion
                | apply productive_selectAll | apply productive_waitUntil
                | apply productive_nodeList | apply productive_pause
                | apply productive_console | apply productive_getTotal
                | apply productive_setTotal
                | apply productive_bind; [|intros ?] ]).
Qed.

Lemma productive_stallCheck cfg before after :
  productive (StallDetect.stallCheck cfg before after).
Proof.
  unfold StallDetect.stallCheck. destruct (after >=? before).
  - apply productive_bind; [apply productive_getStall|intros ?].
    apply productive_bind; [apply productive_setStall|intros ?].
    apply productive_bind; [apply productive_getStall|intros stalls].
    apply productive_bind; [apply productive_console|intros ?].
    destruct (stalls >=? stallLimit cfg);
      [apply productive_throw|apply productive_ret].
  - solve_productive.
Qed.

Lemma productive_countAfter cfg : productive (StallDetect.countAfter cfg).
Proof. unfold StallDetect.countAfter. solve_productive. Qed.

Lemma productive_stall_tryBody cfg : productive (StallDetect.tryBody cfg).
Proof.
  unfold StallDetect.tryBody.
  repeat (first [ apply productive_executeDeletion
                | apply productive_countAfter | apply productive_stallCheck
                | apply productive_selectAll | apply productive_waitUntil
                | apply productive_nodeList | apply productive_pause
                | apply productive_console
                | apply productive_bind; [|intros ?] ]).
Qed.

End Productive.

(** ** How a run can end *)

Section Endings.
Context `{B : Browser}.
Variable cfg : Config.

(** A turn of either loop returns a value: the [catch] takes every error
    and the body cannot be left hanging. *)
Lemma plain_iteration_returns s :
  exists again s', Plain.iteration cfg s = Ok again s'.
Proof.
  rewrite plain_iteration_of_tryBody.
  destruct (Plain.tryBody cfg s) as [[] s'|e s'|s'] eqn:E; eauto.
  now elim (productive_plain_tryBody cfg s s').
Qed.

Lemma stall_iteration_returns s :
  exists again s', StallDetect.iteration cfg s = Ok again s'.
Proof.
  rewrite iteration_of_tryBody.
  destruct (StallDetect.tryBody cfg s) as [[] s'|e s'|s'] eqn:E; eauto.
  - unfold StallDetect.onError, bind.
    destruct (includes (message e) "any selectable photo");
      do 2 eexists; reflexivity.
  - now elim (productive_stall_tryBody cfg s s').
Qed.

Lemma appends_ret {A} (a : A) : appends (ret a).
Proof. intros s. exists []. cbn. now rewrite app_nil_r. Qed.

Lemma appends_bind {A C} (m : M A) (k : A -> M C) :
  appends m -> (forall a, appends (k a)) -> appends (bind m k).
Proof.
  intros Hm Hk s. destruct (Hm s) as (evs & Ho).
  unfold bind. destruct (m s) as [a s1|e s1|s1]; cbn [stateOf] in *; eauto.
  destruct (Hk a s1) as (evs' & Ho').
  exists (evs ++ evs'). now rewrite Ho', Ho, app_assoc.
Qed.

Lemma appends_try_catch {A} (m : M A) (h : Error -> M A) :
  appends m -> (forall e, appends (h e)) -> appends (try_catch m h).
Proof.
  intros Hm Hh s. destruct (Hm s) as (evs & Ho).
  unfold try_catch. destruct (m s) as [a s1|e s1|s1]; cbn [stateOf] in *; eauto.
  destruct (Hh e s1) as (evs' & Ho').
  exists (evs ++ evs'). now rewrite Ho', Ho, app_assoc.
Qed.

Lemma appends_quiet {A} (m : M A) : quiet m -> appends m.
Proof. intros Hm s. destruct (Hm s) as (evs & Ho & _). eauto. Qed.

Lemma appends_console c : appends (console c).
Proof. intros s. exists [Printed c]. reflexivity. Qed.

Lemma appends_getTotal : appends getTotal.
Proof. intros s. exists []. cbn. now rewrite app_nil_r. Qed.

Lemma appends_setTotal n : appends (setTotal n).
Proof. intros s. exists []. cbn. now rewrite app_nil_r. Qed.

Lemma appends_plain_tryBody : appends (Plain.tryBody cfg).
Proof.
  unfold Plain.tryBody.
  repeat (first [ apply appends_quiet;
                  first [ apply quiet_executeDeletion | apply quiet_selectAll
                        | apply quiet_waitUntil | apply quiet_nodeList
                        | apply quiet_pause ]
                | apply appends_console | apply appends_getTotal
                | apply appends_setTotal
                | apply appends_bind; [|intros ?] ]).
Qed.

Lemma plain_loop_cases fuel s :
  match Plain.loop cfg fuel s with
  | Ok _ s' => exists pre, out s' = out s ++ pre ++ [Printed LogMissionAccomplished]
  | Throw _ _ => False
  | OutOfFuel _ => True
  end.
Proof.
  revert s. induction fuel as [|fuel IH]; intros s; [exact I|].
  rewrite plain_loop_step, plain_iteration_of_tryBody.
  destruct (appends_plain_tryBody s) as (evs & Hevs).
  destruct (Plain.tryBody cfg s) as [[] s1|e s1|s1]; cbn [stateOf] in Hevs.
  - specialize (IH s1).
    destruct (Plain.loop cfg fuel s1) as [[] s'|e s'|s']; auto.
    destruct IH as [pre Hpre].
    exists (evs ++ pre). rewrite Hpre, Hevs, <- !app_assoc. reflexivity.
  - exists evs. cbn [logged out]. now rewrite Hevs, <- app_assoc.
  - exact I.
Qed.

Lemma stall_loop_cases fuel s :
  match StallDetect.loop cfg fuel s with
  | Ok _ s' =>
      (exists pre, out s' = out s ++ pre ++ [Printed LogMissionAccomplished])
      \/
      (exists pre msg,
         includes msg "any selectable photo" = false /\
         out s' = out s ++ pre ++ [Printed (ErrHalted msg);
                                   Printed LogRefreshHint])
  | Throw _ _ => False
  | OutOfFuel _ => True
  end.
Proof.
  revert s. induction fuel as [|fuel IH]; intros s; [exact I|].
  rewrite loop_step, iteration_of_tryBody.
  assert (Happ : appends (StallDetect.tryBody cfg)).
  { intros s0. destruct (quiet_measured cfg s0) as (e1 & H1 & _).
    rewrite tryBody_measured. unfold bind.
    destruct (StallDetect.measured cfg s0) as [[b a] s1|e s1|s1];
      cbn [stateOf fst snd] in *; eauto.
    destruct (Z_lt_le_dec a b) as [Hlt|Hle].
    - rewrite stallCheck_decreased by assumption. cbn [stateOf logged withCounters out].
      eexists. rewrite H1, <- app_assoc. reflexivity.
    - rewrite stallCheck_stalled by assumption. cbv zeta.
      destruct (stallCounter s1 + 1 >=? stallLimit cfg);
        cbn [stateOf logged withCounters out];
        eexists; rewrite H1, <- app_assoc; reflexivity. }
  destruct (Happ s) as (evs & Hevs).
  destruct (StallDetect.tryBody cfg s) as [[] s1|e s1|s1]; cbn [stateOf] in Hevs.
  - specialize (IH s1).
    destruct (StallDetect.loop cfg fuel s1) as [[] s'|e s'|s']; auto.
    destruct IH as [[pre Hpre]|(pre & msg & Hmsg & Hpre)].
    + left. exists (evs ++ pre). rewrite Hpre, Hevs, <- !app_assoc. reflexivity.
    + right. exists (evs ++ pre), msg. split; [exact Hmsg|].
      rewrite Hpre, Hevs, <- !app_assoc. reflexivity.
  - unfold StallDetect.onError, bind.
    destruct (includes (message e) "any selectable photo") eqn:Hinc.
    + left. exists evs. cbn [console ret out]. now rewrite Hevs, <- app_assoc.
    + right. exists evs, (message e). split; [exact Hinc|].
      cbn [console ret out]. now rewrite Hevs, <- !app_assoc.
  - exact I.
Qed.

(** X6: the plain variant has one ending.  A run never throws; when it
    returns, the last two messages are "Mission accomplished" and the final
    total, whatever error stopped the loop; and every turn of its loop
    returns, so that only the fuel of the model can cut a run short. *)
Theorem X6_plain_run_ends_done (fuel : nat) (s : State) :
  match Plain.runPhotoDeleter cfg fuel s with
  | Ok _ s' =>
      exists pre,
        out s' = out s ++ pre ++ [Printed LogMissionAccomplished;
                                  Printed (LogFinished (totalDeleted s'))]
  | Throw _ _ => False
  | OutOfFuel _ => True
  end
  /\ forall s0, exists again s1, Plain.iteration cfg s0 = Ok again s1.
Proof.
  split; [|apply plain_iteration_returns].
  rewrite plain_run_unfold.
  set (s0 := logged WarnSafety (logged LogInitialized _)).
  pose proof (plain_loop_cases fuel s0) as H.
  destruct (Plain.loop cfg fuel s0) as [[] s'|e s'|s']; auto.
  destruct H as [pre Hpre].
  exists ([Printed LogInitialized; Printed WarnSafety] ++ pre).
  cbn [logged out totalDeleted]. rewrite Hpre. unfold s0.
  cbn [logged withCounters out]. rewrite <- !app_assoc. reflexivity.
Qed.

(** X7: the stall-detection variant has two endings, for the errors of
    this model: [Error]s, each with its string [message], which is what
    the [catch] of the loop reads.  Whatever [Error] is thrown in a turn,
    a run does not throw; when it returns, its last messages are either
    "Mission accomplished" and the final total, or the halt message with
    an error text that does not contain "any selectable photo", the advice
    to refresh, and the final total; and every turn of its loop returns.
    (A thrown value without a string [message] is outside the model; see
    [Error].) *)
Theorem X7_stall_run_ends_done_or_halted (fuel : nat) (s : State) :
  match StallDetect.runPhotoDeleter cfg fuel s with
  | Ok _ s' =>
      (exists pre,
         out s' = out s ++ pre ++ [Printed LogMissionAccomplished;
                                   Printed (LogFinished (totalDeleted s'))])
      \/
      (exists pre msg,
         includes msg "any selectable photo" = false /\
         out s' = out s ++ pre ++ [Printed (ErrHalted msg);
                                   Printed LogRefreshHint;
                                   Printed (LogFinished (totalDeleted s'))])
  | Throw _ _ => False
  | OutOfFuel _ => True
  end
  /\ forall s0, exists again s1, StallDetect.iteration cfg s0 = Ok again s1.
Proof.
  split; [|apply stall_iteration_returns].
  rewrite run_unfold.
  set (s0 := logged WarnSafety (logged LogInitialized _)).
  pose proof (stall_loop_cases fuel s0) as H.
  destruct (StallDetect.loop cfg fuel s0) as [[] s'|e s'|s']; auto.
  destruct H as [[pre Hpre]|(pre & msg & Hmsg & Hpre)].
  - left. exists ([Printed LogInitialized; Printed WarnSafety] ++ pre).
    cbn [logged out totalDeleted]. rewrite Hpre. unfold s0.
    cbn [logged withCounters out]. rewrite <- !app_assoc. reflexivity.
  - right. exists ([Printed LogInitialized; Printed WarnSafety] ++ pre), msg.
    split; [exact Hmsg|].
    cbn [logged out totalDeleted]. rewrite Hpre. unfold s0.
    cbn [logged withCounters out]. rewrite <- !app_assoc. reflexivity.
Qed.

(** X8: as long as what is thrown is an [Error] (a value with a string
    [message], as every thrown value of this model is), the [catch] of the
    script's last statement is not entered: in both variants
    [runPhotoDeleter] takes every [Error] itself, so a script that comes
    to its end prints "Script Execution Complete".  The plain variant does
    not read what it catches; the stall-detection variant reads the
    [message], which is why the statement is about [Error]s. *)
Theorem X8_script_never_critical (fuel : nat) (s : State) :
  match Plain.script cfg fuel s with
  | Ok ending _ => ending = Complete
  | Throw _ _ => False
  | OutOfFuel _ => True
  end
  /\
  match StallDetect.script cfg fuel s with
  | Ok ending _ => ending = Complete
  | Throw _ _ => False
  | OutOfFuel _ => True
  end.
Proof.
  split.
  - unfold Plain.script, try_catch, bind, ret.
    rewrite plain_run_unfold.
    set (s0 := logged WarnSafety (logged LogInitialized _)).
    pose proof (plain_loop_cases fuel s0) as H.
    destruct (Plain.loop cfg fuel s0) as [[] s'|e s'|s'];
      cbv beta iota; auto; contradiction.
  - unfold StallDetect.script, try_catch, bind, ret.
    rewrite run_unfold.
    set (s0 := logged WarnSafety (logged LogInitialized _)).
    pose proof (stall_loop_cases fuel s0) as H.
    destruct (StallDetect.loop cfg fuel s0) as [[] s'|e s'|s'];
      cbv beta iota; auto; contradiction.
Qed.

End Endings.

(** ** What the totals count *)

Section Hushed.
Context `{B : Browser}.
Variable w : Event -> Z.
Hypothesis w_click : forall e, w (Clicked e) = 0.

Lemma tally_app (a b : list Event) : tally w (a ++ b) = tally w a + tally w b.
Proof.
  induction a as [|e a IH]; [reflexivity|].
  change (w e + tally w (a ++ b) = w e + tally w a + tally w b).
  rewrite IH. lia.
Qed.

Lemma tally_zero (l : list Event) : Forall (fun e => w e = 0) l -> tally w l = 0.
Proof.
  induction 1 as [|e l He _ IH]; [reflexivity|].
  change (w e + tally w l = 0). lia.
Qed.

Lemma hushed_ret {A} (a : A) : hushed w (ret a).
Proof. intros s. exists []. cbn. rewrite app_nil_r. auto. Qed.

Lemma hushed_throw {A} (e : Error) : hushed w (@throw _ A e).
Proof. intros s. exists []. cbn. rewrite app_nil_r. auto. Qed.

Lemma hushed_bind {A C} (m : M A) (k : A -> M C) :
  hushed w m -> (forall a, hushed w (k a)) -> hushed w (bind m k).
Proof.
  intros Hm Hk s. destruct (Hm s) as (evs & Ho & Hv & Ht).
  unfold bind. destruct (m s) as [a s1|e s1|s1]; cbn [stateOf] in *; eauto.
  destruct (Hk a s1) as (evs' & Ho' & Hv' & Ht').
  exists (evs ++ evs'). rewrite Ho', Ho, app_assoc.
  repeat split; [now apply Forall_app|congruence].
Qed.

Lemma hushed_try_catch {A} (m : M A) (h : Error -> M A) :
  hushed w m -> (forall e, hushed w (h e)) -> hushed w (try_catch m h).
Proof.
  intros Hm Hh s. destruct (Hm s) as (evs & Ho & Hv & Ht).
  unfold try_catch. destruct (m s) as [a s1|e s1|s1]; cbn [stateOf] in *; eauto.
  destruct (Hh e s1) as (evs' & Ho' & Hv' & Ht').
  exists (evs ++ evs'). rewrite Ho', Ho, app_assoc.
  repeat split; [now apply Forall_app|congruence].
Qed.

Lemma hushed_pause ms : hushed w (pause ms).
Proof. intros s. exists []. cbn. rewrite app_nil_r. auto. Qed.

Lemma hushed_console c : w (Printed c) = 0 -> hushed w (console c).
Proof.
  intros Hc s. exists [Printed c].
  cbn [console stateOf out totalDeleted]. auto.
Qed.

Lemma hushed_doClick e : hushed w (doClick e).
Proof.
  intros s. exists [Clicked e]. rewrite doClick_eq.
  destruct (snd (click e (dom s))); cbn; auto.
Qed.

Lemma hushed_waitUntil condition description t :
  hushed w (waitUntil condition description t).
Proof.
  intros s. exists [].
  destruct (waitUntil_cases condition description t s)
    as [[k (_ & _ & _ & _ & Heq)] | [_ Heq]]; rewrite Heq; cbn [stateOf];
    rewrite out_after_ticks, total_after_ticks, app_nil_r; auto.
Qed.

Lemma hushed_clickValue v : hushed w (clickValue v).
Proof. destruct v; try apply hushed_throw. apply hushed_doClick. Qed.

Lemma hushed_nodeList v : hushed w (nodeList v).
Proof. destruct v; try apply hushed_throw. apply hushed_ret. Qed.

Hypothesis w_warn : w (Printed WarnCouldNotClick) = 0.
Hypothesis w_initiating : w (Printed LogInitiating) = 0.
Hypothesis w_main : w (Printed LogClickedMain) = 0.
Hypothesis w_confirm : w (Printed LogClickedConfirm) = 0.

Lemma hushed_selectAll boxes : hushed w (selectAll boxes).
Proof.
  induction boxes as [|box rest IH]; [apply hushed_ret|].
  cbn [selectAll]. apply hushed_bind; [|intros _; exact IH].
  apply hushed_try_catch; [apply hushed_doClick|].
  intros _. now apply hushed_console.
Qed.

Lemma hushed_executeDeletion cfg : hushed w (executeDeletion cfg).
Proof.
  unfold executeDeletion.
  repeat (first [ apply hushed_waitUntil | apply hushed_clickValue
                | apply hushed_pause | now apply hushed_console
                | apply hushed_bind; [|intros ?] ]).
Qed.

Lemma tallies_hushed {A} (m : M A) : hushed w m -> tallies w m.
Proof.
  intros Hm s. destruct (Hm s) as (evs & Ho & Hv & Ht).
  exists evs. rewrite (tally_zero _ Hv). split; [exact Ho|lia].
Qed.

Lemma tallies_bind {A C} (m : M A) (k : A -> M C) :
  tallies w m -> (forall a, tallies w (k a)) -> tallies w (bind m k).
Proof.
  intros Hm Hk s. destruct (Hm s) as (evs & Ho & Ht).
  unfold bind. destruct (m s) as [a s1|e s1|s1]; cbn [stateOf] in *; eauto.
  destruct (Hk a s1) as (evs' & Ho' & Ht').
  exists (evs ++ evs'). rewrite Ho', Ho, app_assoc, tally_app.
  split; [reflexivity|lia].
Qed.

Lemma tallies_try_catch {A} (m : M A) (h : Error -> M A) :
  tallies w m -> (forall e, tallies w (h e)) -> tallies w (try_catch m h).
Proof.
  intros Hm Hh s. destruct (Hm s) as (evs & Ho & Ht).
  unfold try_catch. destruct (m s) as [a s1|e s1|s1]; cbn [stateOf] in *; eauto.
  destruct (Hh e s1) as (evs' & Ho' & Ht').
  exists (evs ++ evs'). rewrite Ho', Ho, app_assoc, tally_app.
  split; [reflexivity|lia].
Qed.

End Hushed.

Section PlainTotal.
Context `{B : Browser}.
Variable cfg : Config.

Lemma found_click : forall e : Elem, foundCount (Clicked e) = 0.
Proof. reflexivity. Qed.

(** From the "Found" message to the addition: the total moves by the
    number found, whatever the clicks do. *)
Lemma tallies_counting (boxes : list Elem) {A} (k : M A) :
  tallies foundCount k ->
  tallies foundCount
    (console (LogFound (Z.of_nat (List.length boxes))) ;;
     selectAll boxes ;;
     total <- getTotal ;;
     setTotal (total + Z.of_nat (List.length boxes)) ;;
     k).
Proof.
  intros Hk s.
  pose (s1 := logged (LogFound (Z.of_nat (List.length boxes))) s).
  destruct (hushed_selectAll foundCount found_click eq_refl boxes s1)
    as (evs & Ho & Hv & Ht).
  destruct (selectAll_total boxes s1) as (s2 & Hsel & _).
  rewrite Hsel in Ho, Ht. cbn [stateOf] in Ho, Ht.
  pose (s3 := withCounters (totalDeleted s2 + Z.of_nat (List.length boxes))
                           (stallCounter s2) s2).
  assert (Heq : (console (LogFound (Z.of_nat (List.length boxes))) ;;
                 selectAll boxes ;;
                 total <- getTotal ;;
                 setTotal (total + Z.of_nat (List.length boxes)) ;;
                 k) s = k s3).
  { unfold bind at 1. rewrite console_eq. fold s1.
    now rewrite (bind_Ok _ _ _ _ _ Hsel). }
  rewrite Heq.
  destruct (Hk s3) as (evs' & Ho' & Ht').
  exists (Printed (LogFound (Z.of_nat (List.length boxes))) :: evs ++ evs').
  rewrite Ho', Ht'. unfold s3. cbn [withCounters out totalDeleted].
  rewrite Ho, Ht. unfold s1. cbn [logged out totalDeleted]. split.
  - rewrite <- !app_assoc. reflexivity.
  - change (tally foundCount (Printed (LogFound (Z.of_nat (List.length boxes)))
                               :: evs ++ evs'))
      with (Z.of_nat (List.length boxes) + tally foundCount (evs ++ evs')).
    rewrite tally_app, (tally_zero _ _ Hv). lia.
Qed.

Lemma tallies_plain_tryBody : tallies foundCount (Plain.tryBody cfg).
Proof.
  unfold Plain.tryBody.
  apply tallies_bind;
    [apply tallies_hushed, hushed_waitUntil|intros _].
  apply tallies_bind;
    [apply tallies_hushed, hushed_waitUntil|intros found].
  apply tallies_bind;
    [apply tallies_hushed, hushed_nodeList|intros boxes].
  apply tallies_counting.
  apply tallies_bind; [apply tallies_hushed, hushed_pause|intros _].
  apply tallies_hushed, hushed_executeDeletion; auto using found_click.
Qed.

Lemma tallies_plain_loop fuel : tallies foundCount (Plain.loop cfg fuel).
Proof.
  induction fuel as [|fuel IH].
  - intros s. exists []. cbn. rewrite app_nil_r. split; [reflexivity|lia].
  - cbn [Plain.loop]. apply tallies_bind.
    + unfold Plain.iteration. apply tallies_try_catch.
      * apply tallies_bind; [apply tallies_plain_tryBody|intros _].
        apply tallies_hushed, hushed_ret.
      * intros _. apply tallies_bind.
        -- apply tallies_hushed, hushed_console. reflexivity.
        -- intros _. apply tallies_hushed, hushed_ret.
    + intros [|]; [exact IH|apply tallies_hushed, hushed_ret].
Qed.

(** X9: the total of the plain variant is the number of controls found,
    not the number removed.  In any run, from any state, finished or cut
    short, the total stands at the sum of the counts in the "Found"
    messages the run has printed: nothing is carried over from before the
    run, and a batch counts even when its deletion fails. *)
Theorem X9_plain_total_is_sum_of_found (fuel : nat) (s : State) :
  exists evs,
    out (stateOf (Plain.runPhotoDeleter cfg fuel s)) = out s ++ evs /\
    totalDeleted (stateOf (Plain.runPhotoDeleter cfg fuel s))
      = tally foundCount evs.
Proof.
  rewrite plain_run_unfold.
  set (s0 := logged WarnSafety (logged LogInitialized _)).
  destruct (tallies_plain_loop fuel s0) as (evs & Ho & Ht).
  assert (H0 : totalDeleted s0 = 0) by reflexivity.
  assert (Hout0 : out s0 = out s ++ [Printed LogInitialized; Printed WarnSafety]).
  { unfold s0. cbn [logged withCounters out]. now rewrite <- app_assoc. }
  destruct (Plain.loop cfg fuel s0) as [[] s'|e s'|s'];
    cbn [stateOf] in Ho, Ht |- *.
  - exists ([Printed LogInitialized; Printed WarnSafety] ++ evs
              ++ [Printed (LogFinished (totalDeleted s'))]).
    cbn [logged out totalDeleted]. rewrite Ho, Hout0, Ht, H0. split.
    + rewrite <- !app_assoc. reflexivity.
    + rewrite !(tally_app foundCount). cbn. lia.
  - exists ([Printed LogInitialized; Printed WarnSafety] ++ evs).
    rewrite Ho, Hout0, Ht, H0. split.
    + rewrite <- !app_assoc. reflexivity.
    + rewrite !(tally_app foundCount). cbn. lia.
  - exists ([Printed LogInitialized; Printed WarnSafety] ++ evs).
    rewrite Ho, Hout0, Ht, H0. split.
    + rewrite <- !app_assoc. reflexivity.
    + rewrite !(tally_app foundCount). cbn. lia.
Qed.

End PlainTotal.

Section StallTotal.
Context `{B : Browser}.
Variable cfg : Config.

Lemma credited_click : forall e : Elem, creditedCount (Clicked e) = 0.
Proof. reflexivity. Qed.

Lemma quiet_running (evs : list Event) :
  verdicts evs = [] ->
  tally creditedCount evs = 0 /\ forall c, running c evs.
Proof.
  induction evs as [|e evs IH]; intros Hv; [split; [reflexivity|intros; exact I]|].
  destruct e as [c|x].
  - destruct c; cbn in Hv; try discriminate;
      destruct (IH Hv) as [Ht Hr];
      (split; [change (0 + tally creditedCount evs = 0); lia
              |intros c0; exact (Hr c0)]).
  - destruct (IH Hv) as [Ht Hr].
    split; [change (0 + tally creditedCount evs = 0); lia|intros c0; exact (Hr c0)].
Qed.

Lemma running_app (a b : list Event) :
  forall c, running c a -> running (c + tally creditedCount a) b ->
            running c (a ++ b).
Proof.
  induction a as [|e a IH]; intros c Ha Hb.
  - cbn in Hb. now rewrite Z.add_0_r in Hb.
  - destruct e as [m|x].
    + destruct m;
        try (change (running c (a ++ b)); apply IH; [exact Ha|];
             change (running (c + (0 + tally creditedCount a)) b) in Hb;
             now rewrite Z.add_0_l in Hb).
      destruct Ha as (Hn & Hshown & Ha).
      change (0 < n /\ total = c + n /\ running (c + n) (a ++ b)).
      split; [exact Hn|]. split; [exact Hshown|].
      apply IH; [exact Ha|].
      change (running (c + (n + tally creditedCount a)) b) in Hb.
      now rewrite Z.add_assoc in Hb.
    + change (running c (a ++ b)). apply IH; [exact Ha|].
      change (running (c + (0 + tally creditedCount a)) b) in Hb.
      now rewrite Z.add_0_l in Hb.
Qed.

Lemma stall_loop_running fuel s :
  exists evs,
    out (stateOf (StallDetect.loop cfg fuel s)) = out s ++ evs /\
    running (totalDeleted s) evs /\
    totalDeleted (stateOf (StallDetect.loop cfg fuel s))
      = totalDeleted s + tally creditedCount evs.
Proof.
  revert s. induction fuel as [|fuel IH]; intros s.
  - exists []. cbn. rewrite app_nil_r. repeat split. lia.
  - rewrite loop_step.
    destruct (quiet_measured cfg s) as (evs & Ho & Hv & Ht & Hs).
    destruct (quiet_running evs Hv) as [Hz Hrun].
    destruct (StallDetect.measured cfg s) as [[before after] s1|e s1|s1] eqn:Hm;
      cbn [stateOf] in Ho, Ht, Hs.
    + destruct (Z_lt_le_dec after before) as [Hlt|Hle].
      * rewrite (iteration_decreased _ _ _ _ _ Hm Hlt).
        set (d := before - after).
        set (s2 := logged _ _).
        destruct (IH s2) as (rest & Ho2 & Hr2 & Ht2).
        exists (evs ++ Printed (LogBatchDeleted d (totalDeleted s + d)) :: rest).
        rewrite Ho2, Ht2. unfold s2. cbn [logged withCounters out totalDeleted].
        rewrite Ho, <- !app_assoc. split; [reflexivity|]. split.
        -- apply running_app; [apply Hrun|]. rewrite Hz, Z.add_0_r.
           change (0 < d /\ totalDeleted s + d = totalDeleted s + d /\
                   running (totalDeleted s + d) rest).
           repeat split; [unfold d; lia|exact Hr2].
        -- rewrite tally_app, Hz.
           change (tally creditedCount
                     (Printed (LogBatchDeleted d (totalDeleted s + d)) :: rest))
             with (d + tally creditedCount rest). lia.
      * rewrite (iteration_stalled _ _ _ _ _ Hm Hle). cbv zeta.
        destruct (stallCounter s + 1 >=? stallLimit cfg).
        -- exists (evs ++ [Printed (WarnStall (stallCounter s + 1) (stallLimit cfg));
                           Printed (ErrHalted StallDetect.stallMessage);
                           Printed LogRefreshHint]).
           cbn [stateOf logged withCounters out totalDeleted].
           rewrite Ho, <- !app_assoc. split; [reflexivity|]. split.
           ++ apply running_app; [apply Hrun|exact I].
           ++ rewrite tally_app, Hz. cbn. lia.
        -- set (s2 := logged _ _).
           destruct (IH s2) as (rest & Ho2 & Hr2 & Ht2).
           exists (evs ++ Printed (WarnStall (stallCounter s + 1) (stallLimit cfg))
                       :: rest).
           rewrite Ho2, Ht2. unfold s2 in *.
           cbn [logged withCounters out totalDeleted] in *.
           rewrite Ho, <- !app_assoc. split; [reflexivity|]. split.
           ++ apply running_app; [apply Hrun|]. rewrite Hz, Z.add_0_r. exact Hr2.
           ++ rewrite tally_app, Hz.
              change (tally creditedCount
                        (Printed (WarnStall (stallCounter s + 1) (stallLimit cfg))
                           :: rest))
                with (0 + tally creditedCount rest). lia.
    + rewrite (iteration_threw _ _ _ _ Hm). cbn [stateOf].
      destruct (includes (message e) "any selectable photo").
      * exists (evs ++ [Printed LogMissionAccomplished]).
        cbn [logged out totalDeleted]. rewrite Ho, <- app_assoc.
        split; [reflexivity|]. split.
        -- apply running_app; [apply Hrun|exact I].
        -- rewrite tally_app, Hz. cbn. lia.
      * exists (evs ++ [Printed (ErrHalted (message e)); Printed LogRefreshHint]).
        cbn [logged out totalDeleted]. rewrite Ho, <- !app_assoc.
        split; [reflexivity|]. split.
        -- apply running_app; [apply Hrun|exact I].
        -- rewrite tally_app, Hz. cbn. lia.
    + rewrite iteration_of_tryBody, tryBody_measured, (bind_OutOfFuel _ _ _ _ Hm).
      exists evs. cbn [stateOf]. split; [exact Ho|]. split; [apply Hrun|lia].
Qed.

Lemma running_nonneg (evs : list Event) :
  forall c, running c evs -> 0 <= tally creditedCount evs.
Proof.
  induction evs as [|e evs IH]; intros c Hr; [cbn; lia|].
  destruct e as [m|x].
  - destruct m;
      try (change (0 <= 0 + tally creditedCount evs);
           specialize (IH c Hr); lia).
    destruct Hr as (Hn & _ & Hr).
    change (0 <= n + tally creditedCount evs).
    specialize (IH _ Hr). lia.
  - change (0 <= 0 + tally creditedCount evs). specialize (IH c Hr). lia.
Qed.

(** X10: the total of the stall-detection variant is the sum of the
    amounts in its success messages.  In any run, from any state, finished
    or cut short, every such message credits an amount greater than 0 and
    shows the sum of the amounts so far, starting from 0, and the total
    stands at the sum of all of them; a stall or an error adds nothing. *)
Theorem X10_stall_total_is_sum_of_credits (fuel : nat) (s : State) :
  exists evs,
    out (stateOf (StallDetect.runPhotoDeleter cfg fuel s)) = out s ++ evs /\
    running 0 evs /\
    totalDeleted (stateOf (StallDetect.runPhotoDeleter cfg fuel s))
      = tally creditedCount evs /\
    0 <= totalDeleted (stateOf (StallDetect.runPhotoDeleter cfg fuel s)).
Proof.
  rewrite run_unfold.
  set (s0 := logged WarnSafety (logged LogInitialized _)).
  destruct (stall_loop_running fuel s0) as (evs & Ho & Hr & Ht).
  change (totalDeleted s0) with 0 in Hr, Ht.
  pose proof (running_nonneg _ _ Hr) as Hpos.
  assert (Hout0 : out s0 = out s ++ [Printed LogInitialized; Printed WarnSafety]).
  { unfold s0. cbn [logged withCounters out]. now rewrite <- app_assoc. }
  assert (Hpre : forall tail, running 0 tail ->
            running 0 ([Printed LogInitialized; Printed WarnSafety] ++ tail))
    by (intros tail Htail; exact Htail).
  assert (Htally : forall tail,
            tally creditedCount
              ([Printed LogInitialized; Printed WarnSafety] ++ tail)
            = tally creditedCount tail)
    by (intros tail; change (0 + (0 + tally creditedCount tail)
                             = tally creditedCount tail); lia).
  destruct (StallDetect.loop cfg fuel s0) as [[] s'|e s'|s'];
    cbn [stateOf] in Ho, Ht |- *.
  - exists ([Printed LogInitialized; Printed WarnSafety]
              ++ (evs ++ [Printed (LogFinished (totalDeleted s'))])).
    cbn [logged out totalDeleted]. rewrite Ho, Hout0, Ht, Htally.
    split; [now rewrite <- !app_assoc|]. split.
    + apply Hpre, running_app; [exact Hr|exact I].
    + rewrite tally_app. cbn. split; lia.
  - exists ([Printed LogInitialized; Printed WarnSafety] ++ evs).
    rewrite Ho, Hout0, Ht, Htally.
    split; [now rewrite <- !app_assoc|]. split; [now apply Hpre|]. split; lia.
  - exists ([Printed LogInitialized; Printed WarnSafety] ++ evs).
    rewrite Ho, Hout0, Ht, Htally.
    split; [now rewrite <- !app_assoc|]. split; [now apply Hpre|]. split; lia.
Qed.

(** X11: an attempt whose count after the deletion is not smaller than the
    count before leaves the total as it was.  Below the limit the loop goes
    on with the stall counter one higher; at the limit the loop ends with
    the halt message carrying the stall error. *)
Theorem X11_stalled_attempt (s s1 : State) (before after : Z) :
  StallDetect.measured cfg s = Ok (before, after) s1 ->
  before <= after ->
  exists again s',
    StallDetect.iteration cfg s = Ok again s' /\
    totalDeleted s' = totalDeleted s /\
    stallCounter s' = stallCounter s + 1 /\
    again = negb (stallCounter s + 1 >=? stallLimit cfg) /\
    out s' = out s1
             ++ Printed (WarnStall (stallCounter s + 1) (stallLimit cfg))
             :: (if again then []
                 else [Printed (ErrHalted StallDetect.stallMessage);
                       Printed LogRefreshHint]).
Proof.
  intros Hm Hle. rewrite (iteration_stalled _ _ _ _ _ Hm Hle). cbv zeta.
  destruct (stallCounter s + 1 >=? stallLimit cfg).
  - eexists false, _. split; [reflexivity|].
    cbn [logged withCounters totalDeleted stallCounter out negb].
    repeat split. now rewrite <- !app_assoc.
  - eexists true, _. split; [reflexivity|].
    cbn [logged withCounters totalDeleted stallCounter out negb].
    repeat split.
Qed.

End StallTotal.

(** ** How long a turn of the loop takes *)

Section Durations.
Context `{B : Browser}.

Lemma within_weaken {A} (m : M A) hi hi' :
  within hi m -> hi <= hi' -> within hi' m.
Proof. intros Hm Hle s. specialize (Hm s). lia. Qed.

Lemma within_ret {A} (a : A) : within 0 (ret a).
Proof. intros s. cbn. lia. Qed.

Lemma within_throw {A} (e : Error) : within 0 (@throw _ A e).
Proof. intros s. cbn. lia. Qed.

Lemma within_bind {A C} (m : M A) (k : A -> M C) h1 h2 :
  within h1 m -> (forall a, within h2 (k a)) -> 0 <= h2 ->
  within (h1 + h2) (bind m k).
Proof.
  intros Hm Hk H2 s. specialize (Hm s). unfold bind.
  destruct (m s) as [a s1|e s1|s1]; cbn [stateOf] in *; try lia.
  specialize (Hk a s1). lia.
Qed.

Lemma within_try_catch {A} (m : M A) (h : Error -> M A) h1 h2 :
  within h1 m -> (forall e, within h2 (h e)) -> 0 <= h2 ->
  within (h1 + h2) (try_catch m h).
Proof.
  intros Hm Hh H2 s. specialize (Hm s). unfold try_catch.
  destruct (m s) as [a s1|e s1|s1]; cbn [stateOf] in *; try lia.
  specialize (Hh e s1). lia.
Qed.

Lemma within_pause ms : 0 <= ms -> within ms (pause ms).
Proof. intros Hms s. cbn. lia. Qed.

Lemma within_console c : within 0 (console c).
Proof. intros s. cbn. lia. Qed.

Lemma within_doClick e : within 0 (doClick e).
Proof.
  intros s. rewrite doClick_eq.
  destruct (snd (click e (dom s))); cbn; lia.
Qed.

Lemma within_clickValue v : within 0 (clickValue v).
Proof. destruct v; try apply within_throw. apply within_doClick. Qed.

Lemma within_nodeList v : within 0 (nodeList v).
Proof. destruct v; try apply within_throw. apply within_ret. Qed.

Lemma within_waitUntil condition description t :
  0 <= t -> within (t + pollInterval) (waitUntil condition description t).
Proof.
  intros Ht s.
  destruct (waitUntil_cases condition description t s)
    as [[k (Hk & Hw & _ & _ & Heq)] | [_ Heq]]; rewrite Heq; cbn [stateOf];
    rewrite clock_after_ticks.
  - unfold pollInterval in *. lia.
  - pose proof (firings_deadline t) as [Hlate Hsoon]. specialize (Hsoon Ht).
    unfold pollInterval in *. lia.
Qed.

Lemma within_selectAll boxes : within 0 (selectAll boxes).
Proof.
  induction boxes as [|box rest IH]; [apply within_ret|].
  cbn [selectAll]. change 0 with (0 + 0 + 0).
  apply within_bind; [|intros _; exact IH|lia].
  apply within_try_catch; [apply within_doClick| |lia].
  intros _. apply within_console.
Qed.

Lemma within_executeDeletion cfg :
  0 <= timeout cfg -> 0 <= actionDelay cfg ->
  within (2 * (timeout cfg + pollInterval) + actionDelay cfg)
         (executeDeletion cfg).
Proof.
  intros Ht Ha. unfold executeDeletion.
  eapply within_weaken.
  - eapply within_bind; [apply within_console|intros ?|].
    + eapply within_bind; [apply within_waitUntil; exact Ht|intros ?|].
      * eapply within_bind; [apply within_clickValue|intros ?|].
        -- eapply within_bind; [apply within_console|intros ?|].
           ++ eapply within_bind; [apply within_waitUntil; exact Ht|intros ?|].
              ** eapply within_bind; [apply within_clickValue|intros ?|].
                 --- eapply within_bind; [apply within_console|intros ?|].
                     +++ apply within_pause. exact Ha.
                     +++ exact Ha.
                 --- lia.
              ** lia.
           ++ unfold pollInterval. lia.
        -- unfold pollInterval. lia.
      * unfold pollInterval. lia.
    + unfold pollInterval. lia.
  - unfold pollInterval. lia.
Qed.

Lemma atLeast_weaken {A} (m : M A) lo lo' :
  atLeast lo m -> lo' <= lo -> atLeast lo' m.
Proof. intros Hm Hle s a s' H. specialize (Hm s a s' H). lia. Qed.

Lemma atLeast_bind {A C} (m : M A) (k : A -> M C) l1 l2 :
  atLeast l1 m -> (forall a, atLeast l2 (k a)) -> atLeast (l1 + l2) (bind m k).
Proof.
  intros Hm Hk s c s' H. unfold bind in H.
  destruct (m s) as [a s1|e s1|s1] eqn:E; try discriminate.
  specialize (Hm s a s1 E). specialize (Hk a s1 c s' H). lia.
Qed.

Lemma atLeast_same {A} (m : M A) :
  (forall s a s', m s = Ok a s' -> clock s' = clock s) -> atLeast 0 m.
Proof. intros Hm s a s' H. rewrite (Hm s a s' H). lia. Qed.

Lemma atLeast_ret {A} (a : A) : atLeast 0 (ret a).
Proof. apply atLeast_same. intros s x s' H. now injection H as _ <-. Qed.

Lemma atLeast_console c : atLeast 0 (console c).
Proof. apply atLeast_same. intros s x s' H. now injection H as _ <-. Qed.

Lemma atLeast_pause ms : atLeast ms (pause ms).
Proof. intros s x s' H. injection H as _ <-. cbn. lia. Qed.

Lemma atLeast_clickValue v : atLeast 0 (clickValue v).
Proof.
  apply atLeast_same. intros s x s' H.
  destruct v; try discriminate. cbn [clickValue] in H.
  rewrite doClick_eq in H. destruct (snd (click e (dom s))); try discriminate.
  now injection H as _ <-.
Qed.

Lemma atLeast_nodeList v : atLeast 0 (nodeList v).
Proof.
  apply atLeast_same. intros s x s' H.
  destruct v; try discriminate. now injection H as _ <-.
Qed.

Lemma atLeast_selectAll boxes : atLeast 0 (selectAll boxes).
Proof.
  apply atLeast_same. intros s x s' H.
  destruct (selectAll_total boxes s) as (s2 & Hsel & _ & Hclock & _).
  rewrite Hsel in H. injection H as H. subst s'. exact Hclock.
Qed.

Lemma atLeast_waitUntil condition description t :
  atLeast pollInterval (waitUntil condition description t).
Proof.
  intros s v s' H.
  destruct (waitUntil_ok _ _ _ _ _ _ H) as (k & Hk & _ & -> & _).
  rewrite clock_after_ticks. unfold pollInterval. lia.
Qed.

Lemma atLeast_executeDeletion cfg :
  atLeast (2 * pollInterval + actionDelay cfg) (executeDeletion cfg).
Proof.
  unfold executeDeletion. eapply atLeast_weaken.
  - eapply atLeast_bind; [apply atLeast_console|intros ?].
    eapply atLeast_bind; [apply atLeast_waitUntil|intros ?].
    eapply atLeast_bind; [apply atLeast_clickValue|intros ?].
    eapply atLeast_bind; [apply atLeast_console|intros ?].
    eapply atLeast_bind; [apply atLeast_waitUntil|intros ?].
    eapply atLeast_bind; [apply atLeast_clickValue|intros ?].
    eapply atLeast_bind; [apply atLeast_console|intros ?].
    apply atLeast_pause.
  - lia.
Qed.

End Durations.

Section TurnDurations.
Context `{B : Browser}.
Variable cfg : Config.
Hypothesis timeout_nonneg : 0 <= timeout cfg.
Hypothesis delay_nonneg : 0 <= actionDelay cfg.

Lemma within_getTotal : within 0 getTotal.
Proof. intros s. cbn. lia. Qed.

Lemma within_setTotal n : within 0 (setTotal n).
Proof. intros s. cbn. lia. Qed.

Lemma within_plain_tryBody :
  within (4 * (timeout cfg + pollInterval) + selectionDelay + actionDelay cfg)
         (Plain.tryBody cfg).
Proof.
  unfold Plain.tryBody. eapply within_weaken.
  - eapply within_bind; [now apply within_waitUntil|intros ?|].
    + eapply within_bind; [now apply within_waitUntil|intros ?|].
      * eapply within_bind; [apply within_nodeList|intros ?|].
        -- eapply within_bind; [apply within_console|intros ?|].
           ++ eapply within_bind; [apply within_selectAll|intros ?|].
              ** eapply within_bind; [apply within_getTotal|intros ?|].
                 --- eapply within_bind; [apply within_setTotal|intros ?|].
                     +++ eapply within_bind;
                           [apply (within_pause selectionDelay);
                            unfold selectionDelay; lia|intros ?|].
                         *** now apply within_executeDeletion.
                         *** unfold pollInterval. lia.
                     +++ unfold pollInterval, selectionDelay. lia.
                 --- unfold pollInterval, selectionDelay. lia.
              ** unfold pollInterval, selectionDelay. lia.
           ++ unfold pollInterval, selectionDelay. lia.
        -- unfold pollInterval, selectionDelay. lia.
      * unfold pollInterval, selectionDelay. lia.
    + unfold pollInterval, selectionDelay. lia.
  - unfold pollInterval, selectionDelay. lia.
Qed.

Lemma within_countAfter :
  within (verifyTimeout + pollInterval) (StallDetect.countAfter cfg).
Proof.
  unfold StallDetect.countAfter. eapply within_weaken.
  - eapply within_try_catch; [|intros ?; apply within_ret|lia].
    eapply within_bind;
      [apply within_waitUntil; unfold verifyTimeout; lia|intros ?|].
    + eapply within_bind; [apply within_nodeList|intros ?; apply within_ret|lia].
    + lia.
  - lia.
Qed.

Lemma within_stallCheck before after :
  within 0 (StallDetect.stallCheck cfg before after).
Proof.
  intros s. unfold StallDetect.stallCheck.
  destruct (after >=? before).
  - unfold bind, getStall, setStall, console.
    cbn [stallCounter clock].
    destruct (stallCounter s + 1 >=? stallLimit cfg); cbn; lia.
  - cbn. lia.
Qed.

Lemma within_stall_tryBody :
  within (4 * (timeout cfg + pollInterval) + selectionDelay + actionDelay cfg
          + (verifyTimeout + pollInterval))
         (StallDetect.tryBody cfg).
Proof.
  unfold StallDetect.tryBody. eapply within_weaken.
  - eapply within_bind; [now apply within_waitUntil|intros ?|].
    + eapply within_bind; [now apply within_waitUntil|intros ?|].
      * eapply within_bind; [apply within_nodeList|intros ?|].
        -- eapply within_bind; [apply within_console|intros ?|].
           ++ eapply within_bind; [apply within_selectAll|intros ?|].
              ** eapply within_bind;
                   [apply (within_pause selectionDelay);
                    unfold selectionDelay; lia|intros ?|].
                 --- eapply within_bind;
                       [now apply within_executeDeletion|intros ?|].
                     +++ eapply within_bind;
                           [apply within_countAfter|intros ?|].
                         *** apply within_stallCheck.
                         *** lia.
                     +++ unfold pollInterval, verifyTimeout. lia.
                 --- unfold pollInterval, verifyTimeout. lia.
              ** unfold pollInterval, verifyTimeout, selectionDelay. lia.
           ++ unfold pollInterval, verifyTimeout, selectionDelay. lia.
        -- unfold pollInterval, verifyTimeout, selectionDelay. lia.
      * unfold pollInterval, verifyTimeout, selectionDelay. lia.
    + unfold pollInterval, verifyTimeout, selectionDelay. lia.
  - unfold pollInterval, verifyTimeout, selectionDelay. lia.
Qed.

Lemma within_plain_iteration :
  within (4 * (timeout cfg + pollInterval) + selectionDelay + actionDelay cfg)
         (Plain.iteration cfg).
Proof.
  intros s. rewrite plain_iteration_of_tryBody.
  pose proof (within_plain_tryBody s) as H.
  destruct (Plain.tryBody cfg s); cbn [stateOf logged clock] in *; exact H.
Qed.

Lemma within_stall_iteration :
  within (4 * (timeout cfg + pollInterval) + selectionDelay + actionDelay cfg
          + (verifyTimeout + pollInterval))
         (StallDetect.iteration cfg).
Proof.
  intros s. rewrite iteration_of_tryBody.
  pose proof (within_stall_tryBody s) as H.
  destruct (StallDetect.tryBody cfg s) as [? ?|e ?|?];
    cbn [stateOf] in *; try exact H.
  unfold StallDetect.onError, bind.
  destruct (includes (message e) "any selectable photo"); cbn; exact H.
Qed.

(** X12: a turn of the loop ends within a fixed time whatever the page
    does: four waits of at most the timeout and one poll interval each,
    the pause after the selection and the action delay, and in the
    stall-detection variant the re-poll of at most 5250 ms.  A run of
    [fuel] turns takes at most that many times as long. *)
Theorem X12_turn_duration_bound (fuel : nat) (s : State) :
  let plainBound :=
    4 * (timeout cfg + pollInterval) + selectionDelay + actionDelay cfg in
  let stallBound := plainBound + (verifyTimeout + pollInterval) in
  (clock s <= clock (stateOf (Plain.iteration cfg s)) <= clock s + plainBound)
  /\
  (clock s <= clock (stateOf (StallDetect.iteration cfg s))
     <= clock s + stallBound)
  /\
  clock (stateOf (Plain.loop cfg fuel s))
    <= clock s + Z.of_nat fuel * plainBound
  /\
  clock (stateOf (StallDetect.loop cfg fuel s))
    <= clock s + Z.of_nat fuel * stallBound.
Proof.
  intros plainBound stallBound.
  split; [apply within_plain_iteration|].
  split; [apply within_stall_iteration|].
  assert (Hp : 0 <= plainBound)
    by (unfold plainBound, pollInterval, selectionDelay; lia).
  assert (Hs : 0 <= stallBound)
    by (unfold stallBound, pollInterval, verifyTimeout; lia).
  split.
  - revert s. induction fuel as [|fuel IH]; intros s; [cbn; lia|].
    rewrite plain_loop_step.
    pose proof (within_plain_iteration s) as Hit. fold plainBound in Hit.
    destruct (Plain.iteration cfg s) as [[|] s1|e s1|s1];
      cbn [stateOf] in *; try nia.
    specialize (IH s1). nia.
  - revert s. induction fuel as [|fuel IH]; intros s; [cbn; lia|].
    rewrite loop_step.
    pose proof (within_stall_iteration s) as Hit.
    change (4 * (timeout cfg + pollInterval) + selectionDelay + actionDelay cfg
            + (verifyTimeout + pollInterval)) with stallBound in Hit.
    destruct (StallDetect.iteration cfg s) as [[|] s1|e s1|s1];
      cbn [stateOf] in *; try nia.
    specialize (IH s1). nia.
Qed.

End TurnDurations.

Section TurnAtLeast.
Context `{B : Browser}.
Variable cfg : Config.

Lemma atLeast_plain_tryBody :
  atLeast (4 * pollInterval + selectionDelay + actionDelay cfg)
          (Plain.tryBody cfg).
Proof.
  unfold Plain.tryBody. eapply atLeast_weaken.
  - eapply atLeast_bind; [apply atLeast_waitUntil|intros ?].
    eapply atLeast_bind; [apply atLeast_waitUntil|intros ?].
    eapply atLeast_bind; [apply atLeast_nodeList|intros ?].
    eapply atLeast_bind; [apply atLeast_console|intros ?].
    eapply atLeast_bind; [apply atLeast_selectAll|intros ?].
    eapply atLeast_bind;
      [apply atLeast_same; intros ? ? ? H; now injection H as _ <-|intros ?].
    eapply atLeast_bind;
      [apply atLeast_same; intros ? ? ? H; now injection H as _ <-|intros ?].
    eapply atLeast_bind; [apply atLeast_pause|intros ?].
    apply atLeast_executeDeletion.
  - lia.
Qed.

Lemma atLeast_upToDeletion :
  atLeast (4 * pollInterval + selectionDelay + actionDelay cfg)
          (StallDetect.upToDeletion cfg).
Proof.
  unfold StallDetect.upToDeletion. eapply atLeast_weaken.
  - eapply atLeast_bind; [apply atLeast_waitUntil|intros ?].
    eapply atLeast_bind; [apply atLeast_waitUntil|intros ?].
    eapply atLeast_bind; [apply atLeast_nodeList|intros ?].
    eapply atLeast_bind; [apply atLeast_console|intros ?].
    eapply atLeast_bind; [apply atLeast_selectAll|intros ?].
    eapply atLeast_bind; [apply atLeast_pause|intros ?].
    eapply atLeast_bind; [apply atLeast_executeDeletion|intros ?].
    apply atLeast_ret.
  - lia.
Qed.

Lemma atLeast_countAfter : atLeast pollInterval (StallDetect.countAfter cfg).
Proof.
  intros s n s' H.
  assert (Hwait : clock s + pollInterval
                  <= clock (stateOf (waitUntil (checkboxProbe cfg) descCheckbox
                                               verifyTimeout s))).
  { destruct (waitUntil_cases (checkboxProbe cfg) descCheckbox verifyTimeout s)
      as [[k (Hk & _ & _ & _ & Heq)] | [_ Heq]]; rewrite Heq; cbn [stateOf];
      rewrite clock_after_ticks; unfold firings, pollInterval; lia. }
  unfold StallDetect.countAfter, try_catch in H. unfold bind at 1 in H.
  destruct (waitUntil (checkboxProbe cfg) descCheckbox verifyTimeout s)
    as [v s1|e s1|s1]; cbn [stateOf] in Hwait.
  - destruct v; cbn in H; unfold ret in H; injection H as _ <-; exact Hwait.
  - injection H as _ <-. exact Hwait.
  - discriminate.
Qed.

Lemma atLeast_stallCheck before after :
  atLeast 0 (StallDetect.stallCheck cfg before after).
Proof.
  apply atLeast_same. intros s x s' H. unfold StallDetect.stallCheck in H.
  destruct (after >=? before).
  - unfold bind, getStall, setStall, console in H. cbn [stallCounter] in H.
    destruct (stallCounter s + 1 >=? stallLimit cfg); try discriminate.
    now injection H as _ <-.
  - now injection H as _ <-.
Qed.

(** X13: an attempt that gets through takes no less than four poll
    intervals, the pause after the selection and the action delay; in the
    stall-detection variant one poll interval more for the re-poll.  With
    the literal configuration that is 2.5 s and 2.75 s per batch. *)
Theorem X13_attempt_takes_at_least (s s' : State) :
  (Plain.tryBody cfg s = Ok tt s' ->
   clock s + (4 * pollInterval + selectionDelay + actionDelay cfg) <= clock s')
  /\
  (StallDetect.tryBody cfg s = Ok tt s' ->
   clock s + (5 * pollInterval + selectionDelay + actionDelay cfg) <= clock s').
Proof.
  split.
  - apply atLeast_plain_tryBody.
  - intros H. rewrite tryBody_measured in H.
    unfold StallDetect.measured in H. unfold bind at 1 2 3 in H.
    destruct (StallDetect.upToDeletion cfg s) as [before s1|? ?|?] eqn:E1;
      try discriminate.
    destruct (StallDetect.countAfter cfg s1) as [after s2|? ?|?] eqn:E2;
      try discriminate.
    cbn [ret fst snd] in H.
    pose proof (atLeast_upToDeletion _ _ _ E1).
    pose proof (atLeast_countAfter _ _ _ E2).
    pose proof (atLeast_stallCheck _ _ _ _ _ H). lia.
Qed.

End TurnAtLeast.

(** * More runs on the simulated page *)

(** ** An attempt on any page whose boxes can be clicked *)

Lemma checked_elapse ms p : checked (simElapse ms p) = checked p.
Proof. reflexivity. Qed.

Lemma sim_executeDeletion_any (s : State) :
  hasSelection (dom s) = true ->
  exists s',
    executeDeletion CONFIG s = Ok tt s' /\
    dom s' = simElapse 1000 (confirmAny (time (dom s) + 500) (dom s)) /\
    totalDeleted s' = totalDeleted s /\ stallCounter s' = stallCounter s /\
    exists evs, out s' = out s ++ evs.
Proof.
  intros Hsel.
  destruct (throttled (dom s)) eqn:Hthr.
  - set (s0 := logged LogInitiating s).
    set (s1 := logged LogClickedMain
                 (@clickedOn simBrowser TrashButton (after_ticks 1 s0))).
    assert (H1 : waitUntil (deleteProbe CONFIG) descDelete (timeout CONFIG) s0
                 = Ok (@JElem simBrowser TrashButton) (after_ticks 1 s0)).
    { rewrite waitUntil_first.
      - rewrite sim_delete. cbn. now rewrite hasSelection_elapse, Hsel.
      - unfold pollInterval. cbn. lia.
      - rewrite sim_delete. cbn. now rewrite hasSelection_elapse, Hsel. }
    assert (H2 : waitUntil (confirmProbe CONFIG) descConfirm (timeout CONFIG) s1
                 = Ok (@JElem simBrowser ConfirmButton) (after_ticks 1 s1)).
    { rewrite waitUntil_first.
      - rewrite sim_confirm. cbn. now rewrite hasSelection_elapse, Hsel.
      - unfold pollInterval. cbn. lia.
      - rewrite sim_confirm. cbn. now rewrite hasSelection_elapse, Hsel. }
    eexists. split.
    + apply (@executeDeletion_ok simBrowser CONFIG s 1 1
               TrashButton ConfirmButton H1); [reflexivity | exact H2 |].
      cbn. rewrite hasSelection_elapse, Hsel. cbn. rewrite Hthr. reflexivity.
    + cbn. rewrite hasSelection_elapse, Hsel. cbn. rewrite Hthr. cbn.
      unfold confirmAny, simElapse. rewrite Hthr. cbn.
      repeat split.
      * f_equal; unfold pollInterval; lia.
      * eexists. rewrite <- !app_assoc. reflexivity.
  - destruct (sim_executeDeletion s Hsel Hthr)
      as (s' & Hdel & Hd & _ & Ht & Hst & Hout).
    exists s'. unfold confirmAny. rewrite Hthr. auto.
Qed.

(** The stall-detection attempt up to the end of the deletion. *)
Lemma sim_upToDeletion_any (s : State) (n : nat) (rest : list nat) :
  hasContainer (dom s) = true -> batches (dom s) = n :: rest ->
  checked (dom s) = [] -> stale (dom s) = [] -> (0 < n)%nat ->
  loadAt (dom s) <= time (dom s) + 30250 ->
  exists s' t0,
    StallDetect.upToDeletion CONFIG s = Ok (Z.of_nat n) s' /\
    dom s' = simElapse 1000 (confirmAny t0 (dom s)) /\
    loadAt (dom s) <= t0 /\ time (dom s) <= t0 /\
    totalDeleted s' = totalDeleted s /\ stallCounter s' = stallCounter s /\
    exists evs, out s' = out s ++ evs.
Proof.
  intros Hcont Hb Hc Hstale Hn Hload.
  destruct (sim_seek s n rest Hcont Hb Hc Hn Hload) as (k & H1 & H2 & Hd & Hle).
  pose (s2 := logged (LogFound (Z.of_nat (List.length
                        (map (Box : nat -> @Elem simBrowser) (seq 0 n)))))
                     (after_ticks k (tick s))).
  destruct (sim_selectAll (seq 0 n) s2)
    as (s3 & Hsel & Hd3 & _ & Ht3 & Hst3 & evs3 & Ho3).
  { unfold s2. cbn [logged dom]. rewrite Hd. exact Hstale. }
  set (s4 := paused selectionDelay s3).
  assert (Hd4 : dom s4 = simElapse selectionDelay
                  (withChecked (rev (seq 0 n) ++ [])
                     (simElapse (pollInterval * Z.of_nat k + pollInterval) (dom s)))).
  { unfold s4. cbn [paused dom elapse simBrowser]. rewrite Hd3.
    unfold s2. cbn [logged dom]. rewrite Hd, checked_elapse, Hc. reflexivity. }
  destruct (sim_executeDeletion_any s4)
    as (s5 & Hdel & Hd5 & Ht5 & Hst5 & evs5 & Ho5).
  { rewrite Hd4, hasSelection_elapse.
    apply hasSelection_checked. now apply seq_nonempty. }
  exists s5, (time (dom s) + pollInterval * Z.of_nat k + pollInterval + 1000).
  split; [|split; [|split; [|split; [|split; [|split]]]]].
  - unfold StallDetect.upToDeletion.
    rewrite (bind_Ok _ _ _ _ _ H1), (bind_Ok _ _ _ _ _ H2).
    cbn [nodeList]. unfold bind at 1, ret at 1. unfold bind at 1.
    rewrite console_eq. fold s2. rewrite (bind_Ok _ _ _ _ _ Hsel).
    unfold bind at 1. rewrite pause_eq. fold s4.
    rewrite (bind_Ok _ _ _ _ _ Hdel). unfold ret.
    now rewrite length_map, length_seq.
  - rewrite Hd5, Hd4. unfold confirmAny, confirmedAt, simElapse, withChecked,
      selectionDelay.
    cbn -[Z.mul Z.of_nat].
    destruct (throttled (dom s)); cbn -[Z.mul Z.of_nat]; f_equal; lia.
  - unfold pollInterval in *. lia.
  - unfold pollInterval. lia.
  - rewrite Ht5. unfold s4. cbn [paused totalDeleted]. rewrite Ht3.
    unfold s2. cbn [logged totalDeleted]. now rewrite total_after_ticks.
  - rewrite Hst5. unfold s4. cbn [paused stallCounter]. rewrite Hst3.
    unfold s2. cbn [logged stallCounter]. now rewrite stall_after_ticks.
  - exists (Printed (LogFound (Z.of_nat (List.length
              (map (Box : nat -> @Elem simBrowser) (seq 0 n))))) :: evs3 ++ evs5).
    rewrite Ho5. unfold s4. cbn [paused out]. rewrite Ho3.
    unfold s2. cbn [logged out]. rewrite out_after_ticks. cbn [tick out].
    now rewrite <- !app_assoc.
Qed.

(** The plain attempt, the same way. *)
Lemma sim_plain_tryBody_any (s : State) (n : nat) (rest : list nat) :
  hasContainer (dom s) = true -> batches (dom s) = n :: rest ->
  checked (dom s) = [] -> stale (dom s) = [] -> (0 < n)%nat ->
  loadAt (dom s) <= time (dom s) + 30250 ->
  exists s' t0,
    Plain.tryBody CONFIG s = Ok tt s' /\
    dom s' = simElapse 1000 (confirmAny t0 (dom s)) /\
    loadAt (dom s) <= t0 /\ time (dom s) <= t0 /\
    totalDeleted s' = totalDeleted s + Z.of_nat n.
Proof.
  intros Hcont Hb Hc Hstale Hn Hload.
  destruct (sim_seek s n rest Hcont Hb Hc Hn Hload) as (k & H1 & H2 & Hd & Hle).
  pose (s2 := logged (LogFound (Z.of_nat (List.length
                        (map (Box : nat -> @Elem simBrowser) (seq 0 n)))))
                     (after_ticks k (tick s))).
  destruct (sim_selectAll (seq 0 n) s2)
    as (s3 & Hsel & Hd3 & _ & Ht3 & Hst3 & evs3 & Ho3).
  { unfold s2. cbn [logged dom]. rewrite Hd. exact Hstale. }
  set (s4 := paused selectionDelay
               (withCounters (totalDeleted s3 + Z.of_nat (List.length
                                (map (Box : nat -> @Elem simBrowser) (seq 0 n))))
                             (stallCounter s3) s3)).
  assert (Hd4 : dom s4 = simElapse selectionDelay
                  (withChecked (rev (seq 0 n) ++ [])
                     (simElapse (pollInterval * Z.of_nat k + pollInterval) (dom s)))).
  { unfold s4. cbn [paused withCounters dom elapse simBrowser]. rewrite Hd3.
    unfold s2. cbn [logged dom]. rewrite Hd, checked_elapse, Hc. reflexivity. }
  destruct (sim_executeDeletion_any s4)
    as (s5 & Hdel & Hd5 & Ht5 & Hst5 & evs5 & Ho5).
  { rewrite Hd4, hasSelection_elapse.
    apply hasSelection_checked. now apply seq_nonempty. }
  exists s5, (time (dom s) + pollInterval * Z.of_nat k + pollInterval + 1000).
  split; [|split; [|split; [|split]]].
  - unfold Plain.tryBody.
    rewrite (bind_Ok _ _ _ _ _ H1), (bind_Ok _ _ _ _ _ H2).
    cbn [nodeList]. unfold bind at 1, ret at 1. unfold bind at 1.
    rewrite console_eq. fold s2. rewrite (bind_Ok _ _ _ _ _ Hsel).
    unfold bind at 1, getTotal. unfold bind at 1, setTotal.
    unfold bind at 1. rewrite pause_eq. exact Hdel.
  - rewrite Hd5, Hd4. unfold confirmAny, confirmedAt, simElapse, withChecked,
      selectionDelay.
    cbn -[Z.mul Z.of_nat].
    destruct (throttled (dom s)); cbn -[Z.mul Z.of_nat]; f_equal; lia.
  - unfold pollInterval in *. lia.
  - unfold pollInterval. lia.
  - rewrite Ht5. unfold s4. cbn [paused withCounters totalDeleted]. rewrite Ht3.
    unfold s2. cbn [logged totalDeleted].
    now rewrite total_after_ticks, length_map, length_seq.
Qed.

(** ** A page that removes nothing *)

Lemma choked_after (t0 t : Z) (n : nat) :
  simElapse 1000 (confirmAny t0 (choked t n)) = choked (t0 + 1000) n.
Proof. reflexivity. Qed.

Lemma sim_plain_choked (n : nat) (fuel : nat) :
  (0 < n)%nat ->
  forall (s : State) (t : Z),
  dom s = choked t n -> 0 <= t ->
  exists s',
    Plain.loop CONFIG fuel s = OutOfFuel s' /\
    totalDeleted s' = totalDeleted s + Z.of_nat fuel * Z.of_nat n /\
    batches (dom s') = [n].
Proof.
  intros Hn. induction fuel as [|fuel IH]; intros s t Hdom Ht.
  - exists s. rewrite Hdom. cbn. repeat split. lia.
  - destruct (sim_plain_tryBody_any s n []) as (s1 & t0 & Hbody & Hd1 & _ & Ht0 & Htot);
      try (rewrite Hdom; reflexivity); auto.
    { rewrite Hdom. cbn. lia. }
    rewrite Hdom in Hd1, Ht0. rewrite choked_after in Hd1. cbn [choked time] in Ht0.
    destruct (IH s1 (t0 + 1000) Hd1 ltac:(lia)) as (s' & Hloop & Htot' & Hb').
    exists s'. rewrite plain_loop_step, plain_iteration_of_tryBody, Hbody, Hloop.
    repeat split; [|exact Hb']. rewrite Htot', Htot, Nat2Z.inj_succ. lia.
Qed.

(** X14: on a page that removes nothing the plain variant never stops.
    Whatever the size of the batch and however many turns the loop is
    given, it is still running at the end of them, the batch is still on
    the page, and the total has grown by the batch size at every turn. *)
Theorem X14_plain_never_stops_when_nothing_is_removed (n fuel : nat) :
  (0 < n)%nat ->
  exists s',
    Plain.runPhotoDeleter CONFIG fuel (start (choked 0 n)) = OutOfFuel s' /\
    totalDeleted s' = Z.of_nat fuel * Z.of_nat n /\
    batches (dom s') = [n].
Proof.
  intros Hn. rewrite plain_run_unfold.
  set (s0 := logged WarnSafety (logged LogInitialized _)).
  destruct (sim_plain_choked n fuel Hn s0 0 eq_refl ltac:(lia))
    as (s' & Hloop & Htot & Hb).
  exists s'. rewrite Hloop. repeat split; [|exact Hb].
  rewrite Htot. reflexivity.
Qed.

Lemma sim_measured_choked (s : State) (t : Z) (n : nat) :
  dom s = choked t n -> 0 <= t -> (0 < n)%nat ->
  exists s' t',
    StallDetect.measured CONFIG s = Ok (Z.of_nat n, Z.of_nat n) s' /\
    dom s' = choked t' n /\ 0 <= t'.
Proof.
  intros Hdom Ht Hn.
  destruct (sim_upToDeletion_any s n [])
    as (s5 & t0 & Hup & Hd5 & _ & Ht0 & _);
    try (rewrite Hdom; reflexivity); auto.
  { rewrite Hdom. cbn. lia. }
  rewrite Hdom in Hd5, Ht0. rewrite choked_after in Hd5.
  cbn [choked time] in Ht0.
  assert (Hboxes : checkboxProbe CONFIG (dom (tick s5))
                   = JList (map Box (seq 0 n))).
  { rewrite sim_checkboxes. cbn [tick dom elapse simBrowser]. rewrite Hd5.
    rewrite (visible_shown _ n []) by reflexivity.
    cbn [simElapse choked loadAt time].
    replace (0 <=? _) with true; [reflexivity|].
    symmetry. apply Z.leb_le. unfold pollInterval. lia. }
  assert (Hwait : waitUntil (checkboxProbe CONFIG) descCheckbox verifyTimeout s5
                  = Ok (JList (map Box (seq 0 n))) (tick s5)).
  { rewrite waitUntil_first; rewrite ?Hboxes.
    - reflexivity.
    - unfold pollInterval, verifyTimeout. lia.
    - now apply ready_boxes. }
  exists (tick s5), (t0 + 1000 + pollInterval). split; [|split].
  - assert (Hcount : StallDetect.countAfter CONFIG s5
                     = Ok (Z.of_nat n) (tick s5)).
    { unfold StallDetect.countAfter, try_catch.
      rewrite (bind_Ok _ _ _ _ _ Hwait). cbn [nodeList].
      unfold bind, ret. now rewrite length_map, length_seq. }
    unfold StallDetect.measured.
    now rewrite (bind_Ok _ _ _ _ _ Hup), (bind_Ok _ _ _ _ _ Hcount).
  - cbn [tick dom elapse simBrowser]. rewrite Hd5. reflexivity.
  - unfold pollInterval. lia.
Qed.

Lemma sim_stall_choked (n : nat) :
  (0 < n)%nat ->
  forall (k : nat) (s : State) (t : Z) (extra : nat),
  dom s = choked t n -> 0 <= t ->
  stallCounter s = stallLimit CONFIG - Z.of_nat (S k) ->
  exists s' evs,
    StallDetect.loop CONFIG (S k + extra) s = Ok tt s' /\
    out s' = out s ++ evs /\
    verdicts evs = repeat true (S k) /\
    totalDeleted s' = totalDeleted s /\
    batches (dom s') = [n] /\
    exists pre,
      evs = pre ++ [Printed (WarnStall (stallLimit CONFIG) (stallLimit CONFIG));
                    Printed (ErrHalted StallDetect.stallMessage);
                    Printed LogRefreshHint].
Proof.
  intros Hn. induction k as [|k IH]; intros s t extra Hdom Ht Hc.
  - destruct (sim_measured_choked s t n Hdom Ht Hn) as (s1 & t1 & Hm & Hd1 & Ht1).
    destruct (quiet_measured CONFIG s) as (evs & Ho & Hv & Htot & Hst).
    rewrite Hm in Ho, Htot, Hst. cbn [stateOf] in Ho, Htot, Hst.
    pose proof (iteration_stalled CONFIG _ _ _ _ Hm (Z.le_refl _)) as Hit.
    cbv zeta in Hit.
    replace (stallCounter s + 1) with (stallLimit CONFIG) in Hit by lia.
    change (stallLimit CONFIG >=? stallLimit CONFIG) with true in Hit.
    cbv iota in Hit.
    eexists _, (evs ++ [Printed (WarnStall (stallLimit CONFIG) (stallLimit CONFIG));
                        Printed (ErrHalted StallDetect.stallMessage);
                        Printed LogRefreshHint]).
    cbn [Nat.add]. rewrite loop_step, Hit.
    split; [reflexivity|].
    cbn [logged withCounters out totalDeleted dom].
    split; [now rewrite Ho, <- !app_assoc|].
    split; [now rewrite verdicts_app, Hv|].
    split; [reflexivity|]. split; [now rewrite Hd1|]. now exists evs.
  - destruct (sim_measured_choked s t n Hdom Ht Hn) as (s1 & t1 & Hm & Hd1 & Ht1).
    destruct (quiet_measured CONFIG s) as (evs & Ho & Hv & Htot & Hst).
    rewrite Hm in Ho, Htot, Hst. cbn [stateOf] in Ho, Htot, Hst.
    pose proof (iteration_stalled CONFIG _ _ _ _ Hm (Z.le_refl _)) as Hit.
    cbv zeta in Hit.
    replace (stallCounter s + 1 >=? stallLimit CONFIG) with false in Hit
      by (symmetry; rewrite Z.geb_leb; apply Z.leb_gt; lia).
    set (s2 := logged _ _) in Hit.
    destruct (IH s2 t1 extra) as (s' & evs' & Hloop & Ho' & Hv' & Htot' & Hb' & pre & Hpre).
    { exact Hd1. }
    { exact Ht1. }
    { unfold s2. cbn [logged withCounters stallCounter].
      rewrite Hc, !Nat2Z.inj_succ. lia. }
    exists s', (evs ++ Printed (WarnStall (stallCounter s + 1) (stallLimit CONFIG))
                    :: evs').
    change (S (S k) + extra)%nat with (S (S k + extra)).
    rewrite loop_step, Hit, Hloop.
    split; [reflexivity|]. split.
    { rewrite Ho'. unfold s2. cbn [logged withCounters out].
      now rewrite Ho, <- !app_assoc. }
    split.
    { rewrite verdicts_app, Hv.
      change (verdicts (Printed (WarnStall (stallCounter s + 1) (stallLimit CONFIG))
                          :: evs'))
        with (true :: verdicts evs').
      now rewrite Hv'. }
    split; [exact Htot'|]. split; [exact Hb'|].
    exists (evs ++ Printed (WarnStall (stallCounter s + 1) (stallLimit CONFIG))
                :: pre).
    rewrite Hpre, <- app_assoc. reflexivity.
Qed.

(** X15: on a page that removes nothing the stall-detection variant stops
    after exactly [stallLimit] attempts, whatever the size of the batch:
    five stall warnings in a row, then the halt, a total of 0 and the
    batch still on the page. *)
Theorem X15_stall_halts_when_nothing_is_removed (n extra : nat) :
  (0 < n)%nat ->
  exists s' pre,
    StallDetect.runPhotoDeleter CONFIG (5 + extra) (start (choked 0 n))
      = Ok tt s' /\
    totalDeleted s' = 0 /\
    batches (dom s') = [n] /\
    verdicts (out s') = repeat true 5 /\
    out s' = pre ++ [Printed (WarnStall 5 5);
                     Printed (ErrHalted StallDetect.stallMessage);
                     Printed LogRefreshHint;
                     Printed (LogFinished 0)].
Proof.
  intros Hn. rewrite run_unfold.
  set (s0 := logged WarnSafety (logged LogInitialized _)).
  destruct (sim_stall_choked n Hn 4 s0 0 extra eq_refl ltac:(lia) eq_refl)
    as (s' & evs & Hloop & Ho & Hv & Htot & Hb & pre & Hpre).
  change (5 + extra)%nat with (5 + extra)%nat.
  rewrite Hloop.
  exists (logged (LogFinished (totalDeleted s')) s'), (out s0 ++ pre).
  split; [reflexivity|].
  cbn [logged totalDeleted dom out]. rewrite Htot.
  change (totalDeleted s0) with 0.
  split; [reflexivity|]. split; [exact Hb|]. split.
  - rewrite Ho, !verdicts_app, Hv. reflexivity.
  - rewrite Ho, Hpre, <- !app_assoc. reflexivity.
Qed.

(** ** Batches that show at once: the bookkeeping of the stall variant *)

(** The re-poll after the deletion finds the next batch when it shows
    within six seconds. *)
Lemma sim_measured_next (s : State) (t a : Z) (n m : nat) (rest : list nat)
    (d : Z) :
  dom s = shows t a (n :: m :: rest) d -> (0 < n)%nat -> (0 < m)%nat ->
  a <= t + 30250 -> 0 <= d <= 6000 ->
  exists s' t' a',
    StallDetect.measured CONFIG s = Ok (Z.of_nat n, Z.of_nat m) s' /\
    dom s' = shows t' a' (m :: rest) d /\ a' <= t' + 30250.
Proof.
  intros Hdom Hn Hm Hload Hd.
  destruct (sim_upToDeletion s t a n (m :: rest) d Hdom Hn Hload)
    as (s5 & t5 & Hup & Hd5 & _ & _ & _).
  assert (Hvis : forall k, checkboxProbe CONFIG (dom (after_ticks k s5))
            = JList (if t5 - 1000 + d <=? t5 + pollInterval * Z.of_nat k
                     then map Box (seq 0 m) else [])).
  { intros k. rewrite sim_checkboxes, dom_after_ticks, sim_ticks, Hd5.
    now rewrite (visible_shown _ m rest) by reflexivity. }
  destruct (waitUntil_finds (checkboxProbe CONFIG) descCheckbox verifyTimeout
              s5 20) as (k & Hk & Hr & Heq).
  - lia.
  - unfold pollInterval, verifyTimeout. lia.
  - rewrite Hvis.
    replace (_ <=? _) with true
      by (symmetry; apply Z.leb_le; unfold pollInterval; lia).
    now apply ready_boxes.
  - rewrite Hvis in Hr, Heq.
    destruct (t5 - 1000 + d <=? t5 + pollInterval * Z.of_nat k) eqn:Hle;
      [|discriminate].
    apply Z.leb_le in Hle.
    assert (Hcount : StallDetect.countAfter CONFIG s5
                     = Ok (Z.of_nat m) (after_ticks k s5)).
    { unfold StallDetect.countAfter, try_catch.
      rewrite (bind_Ok _ _ _ _ _ Heq). cbn [nodeList].
      unfold bind, ret. now rewrite length_map, length_seq. }
    exists (after_ticks k s5), (t5 + pollInterval * Z.of_nat k), (t5 - 1000 + d).
    split; [|split].
    + unfold StallDetect.measured.
      now rewrite (bind_Ok _ _ _ _ _ Hup), (bind_Ok _ _ _ _ _ Hcount).
    + rewrite dom_after_ticks, sim_ticks, Hd5. reflexivity.
    + lia.
Qed.

(** The last turn on a page with nothing left. *)
Lemma sim_stall_done (s : State) (t a d : Z) (extra : nat) :
  dom s = shows t a [] d ->
  exists s',
    StallDetect.loop CONFIG (S extra) s = Ok tt s' /\
    totalDeleted s' = totalDeleted s /\
    stallCounter s' = stallCounter s /\
    batches (dom s') = [] /\
    out s' = out s ++ [Printed LogMissionAccomplished].
Proof.
  intros Hdom.
  assert (Hbody : exists s1,
            StallDetect.tryBody CONFIG s =
              Throw {| message := timeoutMessage descCheckbox (timeout CONFIG) |} s1 /\
            batches (dom s1) = [] /\ out s1 = out s /\
            totalDeleted s1 = totalDeleted s /\ stallCounter s1 = stallCounter s).
  { assert (H1 : waitUntil (containerProbe CONFIG) descContainer (timeout CONFIG) s
                 = Ok (@JElem simBrowser Container) (tick s)).
    { rewrite waitUntil_first.
      - rewrite sim_container. cbn. now rewrite Hdom.
      - unfold pollInterval. cbn. lia.
      - rewrite sim_container. cbn. now rewrite Hdom. }
    eexists. split; [|split; [|split; [|split]]].
    - unfold StallDetect.tryBody. rewrite (bind_Ok _ _ _ _ _ H1).
      apply bind_Throw, waitUntil_never. intros j _ _.
      rewrite dom_after_ticks. unfold checkboxProbe.
      rewrite sim_no_boxes; [reflexivity|].
      cbn [tick dom elapse simBrowser]. now rewrite Hdom.
    - rewrite dom_after_ticks, sim_ticks.
      cbn [tick dom elapse simBrowser]. now rewrite Hdom.
    - now rewrite out_after_ticks.
    - now rewrite total_after_ticks.
    - now rewrite stall_after_ticks. }
  destruct Hbody as (s1 & Hbody & Hb & Ho & Ht & Hst).
  exists (logged LogMissionAccomplished s1).
  rewrite (stall_loop_threw CONFIG _ _ _ _ Hbody). cbn [message].
  rewrite (timeoutMessage_names descCheckbox).
  cbn [logged totalDeleted stallCounter dom out]. rewrite Ho.
  repeat split; assumption.
Qed.

Lemma sim_ledger (sizes : list nat) :
  forall (s : State) (t a d : Z) (extra : nat),
  dom s = shows t a sizes d ->
  Forall (fun n => (0 < n)%nat) sizes ->
  a <= t + 30250 -> 0 <= d <= 6000 ->
  exists s' pre,
    StallDetect.loop CONFIG (S (List.length sizes + extra)) s = Ok tt s' /\
    totalDeleted s'
      = snd (fst (ledger (stallLimit CONFIG) (stallCounter s) (totalDeleted s)
                         sizes)) /\
    batches (dom s')
      = snd (ledger (stallLimit CONFIG) (stallCounter s) (totalDeleted s) sizes) /\
    out s' = out s ++ pre
             ++ (if fst (fst (ledger (stallLimit CONFIG) (stallCounter s)
                                     (totalDeleted s) sizes))
                 then [Printed (ErrHalted StallDetect.stallMessage);
                       Printed LogRefreshHint]
                 else [Printed LogMissionAccomplished]).
Proof.
  induction sizes as [|n rest IH]; intros s t a d extra Hdom Hpos Hload Hd.
  - destruct (sim_stall_done s t a d extra Hdom) as (s' & Hloop & Ht & _ & Hb & Ho).
    exists s', []. cbn [ledger fst snd List.length Nat.add app].
    repeat split; assumption.
  - inversion Hpos as [|? ? Hn Hrest]; subst.
    destruct (quiet_measured CONFIG s) as (evs & Ho & _ & _ & _).
    destruct rest as [|m rest].
    + (* the last batch: the re-poll times out *)
      destruct (sim_measured s t a n [] d Hdom Hn Hload (or_introl eq_refl))
        as (s1 & t1 & Hm & Hd1 & _).
      rewrite Hm in Ho. cbn [stateOf] in Ho.
      assert (Hlt : 0 < Z.of_nat n) by lia.
      pose proof (iteration_decreased CONFIG _ _ _ _ Hm Hlt) as Hit.
      set (s2 := logged _ _) in Hit.
      destruct (sim_stall_done s2 t1 (t1 - 6250 + d) d extra Hd1)
        as (s' & Hloop & Ht & _ & Hb & Ho').
      exists s', (evs ++ [Printed (LogBatchDeleted (Z.of_nat n - 0)
                                    (totalDeleted s + (Z.of_nat n - 0)))]).
      cbn [List.length Nat.add]. rewrite loop_step, Hit, Hloop.
      cbn [ledger].
      replace (0 >=? Z.of_nat n) with false
        by (symmetry; rewrite Z.geb_leb; apply Z.leb_gt; lia).
      cbn [fst snd]. split; [reflexivity|]. split; [exact Ht|].
      split; [exact Hb|].
      rewrite Ho'. unfold s2. cbn [logged withCounters out].
      now rewrite Ho, <- !app_assoc.
    + inversion Hrest as [|? ? Hm0 Hrest']; subst.
      destruct (sim_measured_next s t a n m rest d Hdom Hn Hm0 Hload Hd)
        as (s1 & t1 & a1 & Hm & Hd1 & Hload1).
      rewrite Hm in Ho. cbn [stateOf] in Ho.
      change (ledger (stallLimit CONFIG) (stallCounter s) (totalDeleted s)
                     (n :: m :: rest))
        with (if Z.of_nat m >=? Z.of_nat n then
                if stallCounter s + 1 >=? stallLimit CONFIG
                then (true, totalDeleted s, m :: rest)
                else ledger (stallLimit CONFIG) (stallCounter s + 1)
                            (totalDeleted s) (m :: rest)
              else ledger (stallLimit CONFIG) 0
                          (totalDeleted s + (Z.of_nat n - Z.of_nat m))
                          (m :: rest)).
      destruct (Z.of_nat m >=? Z.of_nat n) eqn:Hge.
      * rewrite Z.geb_leb in Hge. apply Z.leb_le in Hge.
        pose proof (iteration_stalled CONFIG _ _ _ _ Hm Hge) as Hit.
        cbv zeta in Hit.
        destruct (stallCounter s + 1 >=? stallLimit CONFIG).
        -- eexists _, (evs ++ [Printed (WarnStall (stallCounter s + 1)
                                                  (stallLimit CONFIG))]).
           change (S (List.length (n :: m :: rest) + extra))
             with (S (S (List.length (m :: rest) + extra))).
           rewrite loop_step, Hit. cbn [fst snd].
           split; [reflexivity|].
           cbn [logged withCounters totalDeleted dom out].
           split; [reflexivity|]. split; [now rewrite Hd1|].
           now rewrite Ho, <- !app_assoc.
        -- set (s2 := logged _ _) in Hit.
           destruct (IH s2 t1 a1 d extra Hd1 Hrest Hload1 Hd)
             as (s' & pre & Hloop & Ht & Hb & Ho').
           exists s', (evs ++ Printed (WarnStall (stallCounter s + 1)
                                                 (stallLimit CONFIG)) :: pre).
           change (S (List.length (n :: m :: rest) + extra))
             with (S (S (List.length (m :: rest) + extra))).
           rewrite loop_step, Hit, Hloop.
           split; [reflexivity|]. split; [exact Ht|]. split; [exact Hb|].
           rewrite Ho'. unfold s2. cbn [logged withCounters out].
           now rewrite Ho, <- !app_assoc.
      * rewrite Z.geb_leb in Hge. apply Z.leb_gt in Hge.
        pose proof (iteration_decreased CONFIG _ _ _ _ Hm Hge) as Hit.
        set (s2 := logged _ _) in Hit.
        destruct (IH s2 t1 a1 d extra Hd1 Hrest Hload1 Hd)
          as (s' & pre & Hloop & Ht & Hb & Ho').
        exists s', (evs ++ Printed (LogBatchDeleted (Z.of_nat n - Z.of_nat m)
                          (totalDeleted s + (Z.of_nat n - Z.of_nat m))) :: pre).
        change (S (List.length (n :: m :: rest) + extra))
          with (S (S (List.length (m :: rest) + extra))).
        rewrite loop_step, Hit, Hloop.
        split; [reflexivity|]. split; [exact Ht|]. split; [exact Hb|].
        rewrite Ho'. unfold s2. cbn [logged withCounters out].
        now rewrite Ho, <- !app_assoc.
Qed.

Lemma ledger_equal_batches (n j : nat) (total : Z) :
  ledger (stallLimit CONFIG) 0 total (repeat n (6 + j))
  = (true, total, repeat n (1 + j)).
Proof.
  assert (Hge : (Z.of_nat n >=? Z.of_nat n) = true)
    by (rewrite Z.geb_leb; apply Z.leb_refl).
  cbn [repeat Nat.add ledger]. rewrite Hge.
  destruct j; cbn [repeat]; rewrite ?Hge; reflexivity.
Qed.

(** X16. On a page whose every next batch shows within 5750 ms of the
    confirmation, a firing before the re-poll after the deletion gives up,
    a run of the stall-detection variant is the bookkeeping
    [ledger] on the list of batch sizes: it compares each batch with the
    one that follows it, credits the decrease, counts a stall otherwise,
    and halts at the fifth stall in a row.  The run returns; its total,
    the batches left on the page and its last messages are those of the
    ledger. *)
Theorem X16_stall_run_follows_ledger (sizes : list nat) (d : Z) (extra : nat) :
  Forall (fun n => (0 < n)%nat) sizes -> 0 <= d <= 5750 ->
  exists s' pre,
    StallDetect.runPhotoDeleter CONFIG (S (List.length sizes + extra))
      (start (page sizes d)) = Ok tt s' /\
    totalDeleted s' = snd (fst (ledger (stallLimit CONFIG) 0 0 sizes)) /\
    batches (dom s') = snd (ledger (stallLimit CONFIG) 0 0 sizes) /\
    out s' = pre
             ++ (if fst (fst (ledger (stallLimit CONFIG) 0 0 sizes))
                 then [Printed (ErrHalted StallDetect.stallMessage);
                       Printed LogRefreshHint]
                 else [Printed LogMissionAccomplished])
             ++ [Printed (LogFinished (totalDeleted s'))].
Proof.
  intros Hpos Hd. rewrite run_unfold.
  set (s0 := logged WarnSafety (logged LogInitialized _)).
  destruct (sim_ledger sizes s0 0 0 d extra eq_refl Hpos ltac:(lia) ltac:(lia))
    as (s' & pre & Hloop & Ht & Hb & Ho).
  rewrite Hloop.
  exists (logged (LogFinished (totalDeleted s')) s'), (out s0 ++ pre).
  split; [reflexivity|].
  cbn [logged totalDeleted dom out].
  split; [exact Ht|]. split; [exact Hb|].
  rewrite Ho, <- !app_assoc. reflexivity.
Qed.

(** X17. When at least six batches of one size follow each other and each
    shows within 5750 ms, the stall-detection variant never sees the
    count fall: it deletes five batches, reports a total of 0 and halts
    with the stall error, the remaining batches still on the page. *)
Theorem X17_equal_batches_halt_at_zero (n j : nat) (d : Z) (extra : nat) :
  (0 < n)%nat -> 0 <= d <= 5750 ->
  exists s' pre,
    StallDetect.runPhotoDeleter CONFIG (S (6 + j + extra))
      (start (page (repeat n (6 + j)) d)) = Ok tt s' /\
    totalDeleted s' = 0 /\
    batches (dom s') = repeat n (1 + j) /\
    out s' = pre ++ [Printed (ErrHalted StallDetect.stallMessage);
                     Printed LogRefreshHint;
                     Printed (LogFinished 0)].
Proof.
  intros Hn Hd. rewrite run_unfold.
  set (s0 := logged WarnSafety (logged LogInitialized _)).
  assert (Hpos : Forall (fun n => (0 < n)%nat) (repeat n (6 + j))).
  { apply Forall_forall. intros x Hx. now rewrite (repeat_spec _ _ _ Hx). }
  destruct (sim_ledger (repeat n (6 + j)) s0 0 0 d extra eq_refl Hpos
              ltac:(lia) ltac:(lia)) as (s' & pre & Hloop & Ht & Hb & Ho).
  rewrite repeat_length in Hloop. rewrite Hloop.
  change (stallCounter s0) with 0 in Ht, Hb, Ho.
  change (totalDeleted s0) with 0 in Ht, Hb, Ho.
  rewrite ledger_equal_batches in Ht, Hb, Ho. cbn [fst snd] in Ht, Hb, Ho.
  exists (logged (LogFinished (totalDeleted s')) s'), (out s0 ++ pre).
  split; [reflexivity|].
  cbn [logged totalDeleted dom out]. rewrite Ht.
  split; [reflexivity|]. split; [exact Hb|].
  rewrite Ho, <- !app_assoc. reflexivity.
Qed.

(** ** The further properties on particular pages *)

Lemma X1_witness :
  waitUntil (checkboxProbe CONFIG) descCheckbox (timeout CONFIG)
            (start (shows 0 600 [2%nat] 0))
  = Ok (JList [Box 0; Box 1]) (after_ticks 3 (start (shows 0 600 [2%nat] 0))).
Proof.
  apply (X1_resolves_at_first_ready_firing (checkboxProbe CONFIG) descCheckbox
           (timeout CONFIG) (start (shows 0 600 [2%nat] 0)) 3).
  - lia.
  - vm_compute. discriminate.
  - intros j Hj. assert (Hcases : j = 1%nat \/ j = 2%nat) by lia.
    destruct Hcases; subst j; vm_compute; reflexivity.
  - vm_compute. reflexivity.
Defined.

Lemma X2_witness :
  waitUntil (containerProbe CONFIG) descContainer 100 (start (page [2%nat] 0))
  = Throw {| message := timeoutMessage descContainer 100 |}
          (tick (start (page [2%nat] 0)))
  /\ ready (containerProbe CONFIG (dom (tick (start (page [2%nat] 0))))) = true.
Proof.
  split.
  - apply (X2_short_timeout_always_rejects (containerProbe CONFIG)
             descContainer 100 (start (page [2%nat] 0))).
    vm_compute. reflexivity.
  - vm_compute. reflexivity.
Defined.

Lemma X4_witness :
  (exists s',
     @executeDeletion Broken.brokenBrowser CONFIG Broken.start
       = Throw {| message := "Illegal invocation" |} s' /\
     out s' = [Printed LogInitiating; @Clicked Broken.brokenBrowser tt])
  /\
  (exists s',
     @executeDeletion Broken.dialogBrowser CONFIG Broken.dialogStart
       = Throw {| message := "Illegal invocation" |} s' /\
     out s' = [Printed LogInitiating; @Clicked Broken.dialogBrowser true;
               Printed LogClickedMain; @Clicked Broken.dialogBrowser false]).
Proof.
  split; eexists; split.
  - apply (proj1 (@X4_click_exception_propagates Broken.brokenBrowser CONFIG
                    Broken.start) 1%nat tt "Illegal invocation").
    + vm_compute. reflexivity.
    + vm_compute. reflexivity.
  - vm_compute. reflexivity.
  - apply (proj2 (@X4_click_exception_propagates Broken.dialogBrowser CONFIG
                    Broken.dialogStart) 1%nat true 1%nat false
                 "Illegal invocation").
    + vm_compute. reflexivity.
    + vm_compute. reflexivity.
    + vm_compute. reflexivity.
    + vm_compute. reflexivity.
  - vm_compute. reflexivity.
Defined.

Lemma X11_witness :
  exists again s',
    StallDetect.iteration CONFIG (start (page [3%nat; 3%nat] 0)) = Ok again s' /\
    totalDeleted s' = 0 /\ stallCounter s' = 1 /\ again = true.
Proof.
  destruct (X11_stalled_attempt CONFIG (start (page [3%nat; 3%nat] 0))
              (stateOf (StallDetect.measured CONFIG
                          (start (page [3%nat; 3%nat] 0)))) 3 3)
    as (again & s' & Hit & Ht & Hs & Ha & _).
  - vm_compute. reflexivity.
  - lia.
  - exists again, s'. split; [exact Hit|]. split; [exact Ht|].
    split; [exact Hs|exact Ha].
Defined.

Lemma X12_witness :
  clock (stateOf (Plain.iteration CONFIG (start (page [2%nat] 0)))) <= 122500 /\
  clock (stateOf (StallDetect.iteration CONFIG (start (page [2%nat] 0))))
    <= 127750.
Proof.
  assert (Ht : 0 <= timeout CONFIG) by (vm_compute; discriminate).
  assert (Hd : 0 <= actionDelay CONFIG) by (vm_compute; discriminate).
  pose proof (X12_turn_duration_bound CONFIG Ht Hd 1 (start (page [2%nat] 0)))
    as H.
  cbv zeta in H. destruct H as ((_ & Ha) & (_ & Hb) & _).
  split; [exact Ha | exact Hb].
Defined.

Lemma X13_witness :
  1500 + 4 * pollInterval
    <= clock (stateOf (Plain.tryBody CONFIG (start (page [2%nat] 0)))) /\
  1500 + 5 * pollInterval
    <= clock (stateOf (StallDetect.tryBody CONFIG (start (page [2%nat] 0)))).
Proof.
  split.
  - pose proof (proj1 (X13_attempt_takes_at_least CONFIG
                         (start (page [2%nat] 0))
                         (stateOf (Plain.tryBody CONFIG
                                     (start (page [2%nat] 0)))))) as H.
    assert (Hrun : Plain.tryBody CONFIG (start (page [2%nat] 0))
                   = Ok tt (stateOf (Plain.tryBody CONFIG
                                       (start (page [2%nat] 0)))))
      by (vm_compute; reflexivity).
    specialize (H Hrun). unfold pollInterval, selectionDelay in *.
    cbn [actionDelay CONFIG start clock] in H. lia.
  - pose proof (proj2 (X13_attempt_takes_at_least CONFIG
                         (start (page [2%nat] 0))
                         (stateOf (StallDetect.tryBody CONFIG
                                     (start (page [2%nat] 0)))))) as H.
    assert (Hrun : StallDetect.tryBody CONFIG (start (page [2%nat] 0))
                   = Ok tt (stateOf (StallDetect.tryBody CONFIG
                                       (start (page [2%nat] 0)))))
      by (vm_compute; reflexivity).
    specialize (H Hrun). unfold pollInterval, selectionDelay in *.
    cbn [actionDelay CONFIG start clock] in H. lia.
Defined.

Lemma X14_witness :
  exists s',
    Plain.runPhotoDeleter CONFIG 3 (start (choked 0 2)) = OutOfFuel s' /\
    totalDeleted s' = 6 /\ batches (dom s') = [2%nat].
Proof.
  destruct (X14_plain_never_stops_when_nothing_is_removed 2 3) as (s' & H & Ht & Hb).
  - lia.
  - exists s'. split; [exact H|]. split; [exact Ht | exact Hb].
Defined.

Lemma X15_witness :
  exists s',
    StallDetect.runPhotoDeleter CONFIG 5 (start (choked 0 2)) = Ok tt s' /\
    totalDeleted s' = 0 /\ batches (dom s') = [2%nat] /\
    verdicts (out s') = [true; true; true; true; true].
Proof.
  destruct (X15_stall_halts_when_nothing_is_removed 2 0)
    as (s' & pre & H & Ht & Hb & Hv & _).
  - lia.
  - exists s'. split; [exact H|]. split; [exact Ht|]. split; [exact Hb|exact Hv].
Defined.

Lemma X16_witness :
  exists s' pre,
    StallDetect.runPhotoDeleter CONFIG 3 (start (page [5%nat; 3%nat] 0))
      = Ok tt s' /\
    totalDeleted s' = 5 /\ batches (dom s') = [] /\
    out s' = pre ++ [Printed LogMissionAccomplished; Printed (LogFinished 5)].
Proof.
  assert (Hpos : Forall (fun n => (0 < n)%nat) [5%nat; 3%nat])
    by (repeat constructor).
  destruct (X16_stall_run_follows_ledger [5%nat; 3%nat] 0 0 Hpos)
    as (s' & pre & H & Ht & Hb & Ho).
  - lia.
  - exists s', pre. split; [exact H|]. split; [exact Ht|]. split; [exact Hb|].
    rewrite Ho, Ht. reflexivity.
Defined.

Lemma X17_witness :
  exists s' pre,
    StallDetect.runPhotoDeleter CONFIG 7
      (start (page [2; 2; 2; 2; 2; 2]%nat 0)) = Ok tt s' /\
    totalDeleted s' = 0 /\ batches (dom s') = [2%nat] /\
    out s' = pre ++ [Printed (ErrHalted StallDetect.stallMessage);
                     Printed LogRefreshHint;
                     Printed (LogFinished 0)].
Proof.
  destruct (X17_equal_batches_halt_at_zero 2 0 0 0)
    as (s' & pre & H & Ht & Hb & Ho).
  - lia.
  - lia.
  - exists s', pre. split; [exact H|]. split; [exact Ht|].
    split; [exact Hb | exact Ho].
Defined.
